(** * CBMS: family / believer relationship integrity

    A shallow embedding of the backend controllers
    ([backend/controllers/family.controller.js],
    [backend/controllers/believer.controller.js]), of the two Mongoose
    schemas ([models/Family.js], [models/Believer.js]) and of
    [backend/utils/helpers.js]; of the counts of
    [controllers/analytics.controller.js] and of the member-type rule
    of the forms ([frontend/src/pages/FamilyManagement.jsx]).

    Documents and request bodies are JavaScript objects: finite maps from
    property names to values.  A property that is [undefined] is an absent
    key.  The two collections are finite maps from [_id] to document. *)

From Stdlib Require Import ZArith String Ascii List Bool DecimalString DecimalNat.
From stdpp Require Import base option gmap strings list fin_maps.

Local Open Scope string_scope.
Local Open Scope Z_scope.

(** ** JavaScript values *)

Abbreviation ObjectId := nat.

(** A [Date] is its time value (milliseconds since the epoch). *)
Definition Date := Z.

(** The values that occur in request bodies and in documents.  [JDate d]
    and [JId i] also stand for the strings of a JSON body that Mongoose
    casts to that date or to that ObjectId. *)
Inductive jsval : Type :=
| JNull
| JBool (b : bool)
| JStr (s : string)
| JDate (d : Date)
| JId (i : ObjectId).

(** An expression value: [None] is [undefined]. *)
Abbreviation jsv := (option jsval).

(** An object: req.body, an update, a document. *)
Abbreviation obj := (gmap string jsval).

(** [if (v)] *)
Definition truthy (v : jsv) : bool :=
  match v with
  | None => false
  | Some JNull => false
  | Some (JBool b) => b
  | Some (JStr s) => negb (String.eqb s EmptyString)
  | Some (JDate _) => true
  | Some (JId _) => true
  end.

(** [v === 's'] *)
Definition isStr (v : jsv) (s : string) : bool :=
  match v with
  | Some (JStr t) => String.eqb t s
  | _ => false
  end.

(** [o.k = v], where assigning [undefined] leaves a property that reads
    as [undefined] and that Mongoose does not store. *)
Definition setProp (k : string) (v : jsv) (o : obj) : obj :=
  match v with
  | Some x => <[k := x]> o
  | None => delete k o
  end.

(** [a || b] *)
Definition orElse (a b : jsv) : jsv := if truthy a then a else b.

(** ** Strings *)

(** The ASCII code points that [String.prototype.trim] removes. *)
Definition isWhiteSpace (c : ascii) : bool :=
  let n := nat_of_ascii c in
  ((9 <=? n) && (n <=? 13) || (n =? 32))%nat.

Fixpoint dropSpace (l : list ascii) : list ascii :=
  match l with
  | c :: r => if isWhiteSpace c then dropSpace r else l
  | [] => []
  end.

Definition trim (s : string) : string :=
  string_of_list_ascii
    (rev (dropSpace (rev (dropSpace (list_ascii_of_string s))))).

(** [String(n).padStart(w, '0')] *)
Definition padStart0 (w : nat) (s : string) : string :=
  string_of_list_ascii (replicate (w - String.length s) "0"%char) +:+ s.

(** [`FAM-${String(count + 1).padStart(4, '0')}`] *)
Definition famCode (count : nat) : string :=
  "FAM-" +:+ padStart0 4 (NilZero.string_of_uint (Nat.to_uint (count + 1))).

(** /^\d{10}$/.test(s) *)
Definition isDigit (c : ascii) : bool :=
  let n := nat_of_ascii c in ((48 <=? n) && (n <=? 57))%nat.

Definition tenDigits (s : string) : bool :=
  (String.length s =? 10)%nat && forallb isDigit (list_ascii_of_string s).

(** ** backend/utils/helpers.js *)

(** The result of an age computation: a number, [NaN] (invalid date) or
    [null] (helpers.calcAge on a missing dob). *)
Inductive jsage : Type :=
| Age (a : Z)
| AgeNaN
| AgeNull.

(** [age < n] and [age >= n] with JavaScript's coercions: [null] is 0 and
    every comparison with [NaN] is false. *)
Definition ageLt (a : jsage) (n : Z) : bool :=
  match a with
  | Age z => z <? n
  | AgeNaN => false
  | AgeNull => 0 <? n
  end.

Definition ageLe (a : jsage) (n : Z) : bool :=
  match a with
  | Age z => z <=? n
  | AgeNaN => false
  | AgeNull => 0 <=? n
  end.

Definition ageGe (a : jsage) (n : Z) : bool :=
  match a with
  | Age z => n <=? z
  | AgeNaN => false
  | AgeNull => n <=? 0
  end.

(** helpers.js, suggestMemberType *)
Definition suggestMemberType (age : Z) (maritalStatus : string) : string :=
  if age <=? 12 then "Child"
  else if (age <=? 30) && String.eqb maritalStatus "Single" then "Youth"
  else "Member".


(** ** The Mongoose layer *)

#[global] Instance jsval_eq_dec : EqDecision jsval.
Proof. solve_decision. Defined.

(** The two collections, and the source of fresh [_id]s. *)
Record Store : Type := mkStore {
  families : gmap ObjectId obj;
  believers : gmap ObjectId obj;
  nextId : ObjectId
}.

Definition setBelievers (bs : gmap ObjectId obj) (s : Store) : Store :=
  mkStore (families s) bs (nextId s).

(** [Model.findOne({ _id, isDeleted })] *)
Definition findOne (c : gmap ObjectId obj) (id : ObjectId) (deleted : bool) : option obj :=
  match c !! id with
  | Some d => if decide (d !! "isDeleted" = Some (JBool deleted)) then Some d else None
  | None => None
  end.

(** [Model.findById(v)]; a value that is no ObjectId finds nothing. *)
Definition findById (c : gmap ObjectId obj) (v : jsv) : option obj :=
  match v with
  | Some (JId i) => c !! i
  | _ => None
  end.

(** [Model.countDocuments({ isDeleted: false })] *)
Definition countDocuments (c : gmap ObjectId obj) : nat :=
  size (filter (λ kd, kd.2 !! "isDeleted" = Some (JBool false)) c).

(** Kinds of schema paths. *)
Inductive ptype : Type := TString | TDate | TId | TBool.

Record path : Type := mkPath {
  p_name : string;
  p_type : ptype;
  p_required : bool;
  p_enum : option (list string);
  p_trim : bool;
  p_lowercase : bool;
  p_default : jsv
}.

Definition lowerChar (c : ascii) : ascii :=
  let n := nat_of_ascii c in
  if ((65 <=? n) && (n <=? 90))%nat then ascii_of_nat (n + 32) else c.

Definition toLowerCase (s : string) : string :=
  string_of_list_ascii (map lowerChar (list_ascii_of_string s)).

(** The cast of a value to its path: the setters of a String path run
    on a string, and the empty string becomes [null] on a Date path.
    The conversions that Mongoose attempts between other kinds are not
    modelled: [castOk] rejects a value of another kind. *)
Definition applySetters (p : path) (v : jsval) : jsval :=
  match v, p_type p with
  | JStr s, TString =>
      let s1 := if p_trim p then trim s else s in
      JStr (if p_lowercase p then toLowerCase s1 else s1)
  | JStr s, TDate => if String.eqb s EmptyString then JNull else v
  | _, _ => v
  end.

(** A value of the kind of the path ([null] is of every kind). *)
Definition castOk (t : ptype) (v : jsval) : bool :=
  match t, v with
  | _, JNull => true
  | TString, JStr _ => true
  | TDate, JDate _ => true
  | TId, JId _ => true
  | TBool, JBool _ => true
  | _, _ => false
  end.

Definition inEnum (e : option (list string)) (v : jsval) : bool :=
  match e, v with
  | Some l, JStr s => existsb (String.eqb s) l
  | _, _ => true
  end.

(** models/Believer.js: phone validator [(v) => !v || /^\d{10}$/.test(v)] *)
Definition phoneOk (p : path) (v : jsval) : bool :=
  if String.eqb (p_name p) "phone"
  then match v with JStr s => String.eqb s EmptyString || tenDigits s | _ => true end
  else true.

(** A set value passes the cast and the validators of its path. *)
Definition valueOk (p : path) (v : jsval) : bool :=
  castOk (p_type p) v && inEnum (p_enum p) v && phoneOk p v.

(** The [required] validator: the value is there, and a string is not
    empty. *)
Definition requiredOk (p : path) (v : jsv) : bool :=
  negb (p_required p) ||
  match v with
  | None | Some JNull => false
  | Some (JStr s) => negb (String.eqb s EmptyString)
  | Some _ => true
  end.

Definition lookupPath (schema : list path) (k : string) : option path :=
  List.find (λ p, String.eqb (p_name p) k) schema.

(** Casting an object along the schema: setters run on the paths of the
    schema. *)
Definition castValue (schema : list path) (k : string) (v : jsval) : jsval :=
  match lookupPath schema k with
  | Some p => applySetters p v
  | None => v
  end.

Definition castObj (schema : list path) (o : obj) : obj :=
  map_imap (λ k v, Some (castValue schema k v)) o.

(** Defaults of the paths that the new document does not set. *)
Definition applyDefaults (schema : list path) (o : obj) : obj :=
  foldr (λ p d, match d !! p_name p with
                | Some _ => d
                | None => setProp (p_name p) (p_default p) d
                end) o schema.

(** The default that a schema gives to a path. *)
Fixpoint defaultOf (schema : list path) (k : string) : jsv :=
  match schema with
  | [] => None
  | p :: r =>
      match defaultOf r k with
      | Some v => Some v
      | None => if String.eqb (p_name p) k then p_default p else None
      end
  end.

(** Validation of a new document: every path of the schema. *)
Definition validDoc (schema : list path) (d : obj) : bool :=
  forallb (λ p, requiredOk p (d !! p_name p) &&
                match d !! p_name p with Some v => valueOk p v | None => true end)
          schema.

(** [Model.create(o)] without the insertion: the document that is
    stored, or [None] for a ValidationError. *)
Definition newDoc (schema : list path) (o : obj) : option obj :=
  let d := applyDefaults schema (castObj schema o) in
  if validDoc schema d then Some d else None.

(** The cast and the update validators ([runValidators: true]) on the
    values that the update sets. *)
Definition setOk (schema : list path) (k : string) (v : jsval) : bool :=
  match lookupPath schema k with
  | Some p => requiredOk p (Some (applySetters p v)) && valueOk p (applySetters p v)
  | None => true
  end.

Definition validUpdate (schema : list path) (u : obj) : bool :=
  bool_decide (map_Forall (λ k v, setOk schema k v = true) u).

(** [$set] of the cast update on a document. *)
Definition applyUpdate (schema : list path) (u : obj) (d : obj) : obj :=
  castObj schema u ∪ d.

(** [Model.findByIdAndUpdate(id, u)] *)
Definition findByIdAndUpdate (schema : list path) (id : ObjectId) (u : obj)
    (c : gmap ObjectId obj) : gmap ObjectId obj :=
  alter (applyUpdate schema u) id c.

(** [doc.save()] for one path: a path whose value is the loaded one is
    not modified and not written. *)
Definition savePath (k : string) (loaded cur : obj) (stored : obj) : obj :=
  if decide (loaded !! k = cur !! k) then stored else setProp k (cur !! k) stored.

(** *** models/Believer.js *)

Definition believerSchema : list path :=
  [ mkPath "familyId" TId true None false false None;
    mkPath "isHead" TBool false None false false (Some (JBool false));
    mkPath "fullName" TString true None true false None;
    mkPath "dob" TDate true None false false None;
    mkPath "gender" TString true (Some ["Male"; "Female"; "Other"]) false false None;
    mkPath "phone" TString false None false false None;
    mkPath "email" TString false None true true None;
    mkPath "memberType" TString true (Some ["Member"; "Youth"; "Child"]) false false None;
    mkPath "membershipStatus" TString false (Some ["Active"; "Inactive"]) false false
      (Some (JStr "Active"));
    mkPath "joinDate" TDate false None false false None;
    mkPath "baptized" TString true (Some ["Yes"; "No"]) false false None;
    mkPath "baptizedDate" TDate false None false false None;
    mkPath "relationshipToHead" TString true
      (Some ["Self"; "Wife"; "Husband"; "Son"; "Daughter"; "Father"; "Mother"; "Other"])
      false false None;
    mkPath "relationCustom" TString false None true false None;
    mkPath "maritalStatus" TString true (Some ["Single"; "Married"; "Widowed"]) false false None;
    mkPath "spouseId" TId false None false false (Some JNull);
    mkPath "spouseName" TString false None true false None;
    mkPath "weddingDate" TDate false None false false None;
    mkPath "occupationCategory" TString true
      (Some ["Child"; "Student"; "Ministry"; "Employed"; "Self-Employed"; "Business";
             "Agriculture"; "Daily wages"; "House-Wife"; "Non-Worker"; "Retired"])
      false false None;
    mkPath "educationLevel" TString false (Some ["School"; "College"]) false false None;
    mkPath "isDeleted" TBool false None false false (Some (JBool false));
    mkPath "deletedAt" TDate false None false false (Some JNull) ].

(** *** models/Family.js *)

Definition TN_DISTRICTS : list string :=
  [ "Ariyalur"; "Chengalpattu"; "Chennai"; "Coimbatore"; "Cuddalore";
    "Dharmapuri"; "Dindigul"; "Erode"; "Kallakurichi"; "Kancheepuram";
    "Kanyakumari"; "Karur"; "Krishnagiri"; "Madurai"; "Mayiladuthurai";
    "Nagapattinam"; "Namakkal"; "Nilgiris"; "Perambalur"; "Pudukkottai";
    "Ramanathapuram"; "Ranipet"; "Salem"; "Sivaganga"; "Tenkasi";
    "Thanjavur"; "Theni"; "Thoothukudi"; "Tiruchirappalli"; "Tirunelveli";
    "Tirupathur"; "Tiruppur"; "Tiruvallur"; "Tiruvannamalai"; "Tiruvarur";
    "Vellore"; "Viluppuram"; "Virudhunagar" ].

Definition familySchema : list path :=
  [ mkPath "familyCode" TString false None false false None;
    mkPath "address" TString true None true false None;
    mkPath "village" TString true None true false None;
    mkPath "district" TString true (Some TN_DISTRICTS) true false None;
    mkPath "familyStatus" TString false (Some ["Active"; "Inactive"]) false false
      (Some (JStr "Active"));
    mkPath "headId" TId false None false false (Some JNull);
    mkPath "isDeleted" TBool false None false false (Some (JBool false));
    mkPath "deletedAt" TDate false None false false None ].

(** The hook [familySchema.pre('save')], on a document under save.
    [isNew] and [modDeleted] are [this.isNew] and
    [this.isModified('isDeleted')]; [fams] is the collection that
    [countDocuments] reads. *)
Definition preSave (isNew modDeleted : bool) (fams : gmap ObjectId obj) (this : obj) : obj :=
  let this1 :=
    if isNew && negb (truthy (this !! "familyCode")) && negb (truthy (this !! "isDeleted"))
    then <["familyCode" := JStr (famCode (countDocuments fams))]> this
    else this in
  if modDeleted && truthy (this1 !! "isDeleted") && truthy (this1 !! "familyCode")
  then <["familyCode" := JNull]> this1
  else this1.

(** The index [{ familyCode: 1 }, { unique: true, sparse: true }]: no
    other family holds the code [v].  Following the comments of the
    model, any number of documents may hold [null] or no code. *)
Definition codeFree (id : ObjectId) (v : jsv) (fams : gmap ObjectId obj) : bool :=
  match v with
  | Some (JStr c) =>
      bool_decide (map_Forall (λ k f, k = id ∨ f !! "familyCode" ≠ Some (JStr c)) fams)
  | _ => true
  end.

(** [Model.updateMany(filter, update)] *)
Definition updateMany (P : obj → bool) (f : obj → obj)
    (c : gmap ObjectId obj) : gmap ObjectId obj :=
  (λ d, if P d then f d else d) <$> c.

(** [Model.deleteMany(filter)] *)
Definition deleteMany (P : obj → bool) (c : gmap ObjectId obj) : gmap ObjectId obj :=
  filter (λ kd, P kd.2 = false) c.

(** [doc.save()] for the paths [ks] that the controller may have
    assigned. *)
Definition savePaths (ks : list string) (loaded cur : obj) (stored : obj) : obj :=
  foldr (λ k d, savePath k loaded cur d) stored ks.

(** [family.save()] on a stored family: the hook runs, the modified
    paths are written, and the unique index rejects a code that another
    family holds ([None]: duplicate key). *)
Definition saveFamily (id : ObjectId) (loaded cur : obj)
    (fams : gmap ObjectId obj) : option (gmap ObjectId obj) :=
  let modDeleted := bool_decide (loaded !! "isDeleted" ≠ cur !! "isDeleted") in
  let this := preSave false modDeleted fams cur in
  if bool_decide (loaded !! "familyCode" = this !! "familyCode")
     || codeFree id (this !! "familyCode") fams
  then Some (alter (savePaths ["familyCode"; "isDeleted"; "deletedAt"; "headId"] loaded this)
                   id fams)
  else None.

(** ** Controllers *)

Definition dq : string := String (ascii_of_nat 34) EmptyString.

(** What a response carries besides its message. *)
Inductive payload : Type :=
| NoData
| Doc (id : ObjectId) (d : obj)
| Count (n : nat).

(** Modelled from the spec: utils/AppError.js is not among the sources;
    an AppError carries its message and, as status, the number it is
    built with (section 7 of the specification: 400 for a validation
    error, 404 for a missing record, 409 for a conflict).

    How a controller ends: [res.status(st).json({ code, message, data })],
    [next(new AppError(message, st))], or an exception that [catchAsync]
    hands to the error handler. *)
Inductive response : Type :=
| Json (st : nat) (code : option string) (message : string) (data : payload)
| AppError (message : string) (st : nat)
| Thrown (name message : string).

(** middleware/errorHandler.js: [err.statusCode = err.statusCode || 500];
    an exception that is no AppError has no statusCode. *)
Definition statusCode (r : response) : nat :=
  match r with
  | Json st _ _ _ => st
  | AppError _ st => st
  | Thrown _ _ => 500%nat
  end.

(** [!v?.trim()]; [None] when [v.trim] is not a function. *)
Definition blank (v : jsv) : option bool :=
  match v with
  | None | Some JNull => Some true
  | Some (JStr s) => Some (String.eqb (trim s) EmptyString)
  | Some _ => None
  end.

(** [v?.trim() || undefined]; [None] when [v.trim] is not a function. *)
Definition trimOrUndefined (v : jsv) : option jsv :=
  match v with
  | None | Some JNull => Some None
  | Some (JStr s) =>
      Some (if String.eqb (trim s) EmptyString then None else Some (JStr (trim s)))
  | Some _ => None
  end.

(** [/^\d{10}$/.test(v)] on a truthy value. *)
Definition phoneTest (v : jsv) : bool :=
  match v with
  | Some (JStr s) => tenDigits s
  | _ => false
  end.

(** [`${v || d}`] for the value of a String path. *)
Definition strOr (v : jsv) (d : string) : string :=
  match v with
  | Some (JStr s) => if String.eqb s EmptyString then d else s
  | _ => d
  end.

(** [`${v}`] for the value of a String path (which is no date and no
    id). *)
Definition template (v : jsv) : string :=
  match v with
  | Some (JStr s) => s
  | Some JNull => "null"
  | Some (JBool b) => if b then "true" else "false"
  | Some (JDate _) | Some (JId _) => EmptyString
  | None => "undefined"
  end.

(** [o?.k] *)
Definition getOpt (o : option obj) (k : string) : jsv :=
  match o with
  | Some d => d !! k
  | None => None
  end.

(** The value that an object literal gives to a property: that of its
    first entry for it. *)
Fixpoint assoc (j : string) (l : list (string * jsv)) : jsv :=
  match l with
  | [] => None
  | kv :: r => if String.eqb kv.1 j then kv.2 else assoc j r
  end.

(** An object literal: properties whose value is [undefined] are not
    stored. *)
Definition object (l : list (string * jsv)) : obj :=
  foldr (λ kv o, setProp kv.1 kv.2 o) ∅ l.

(** [Believer.findByIdAndUpdate(v, u)] where [v] is a value. *)
Definition updateById (v : jsv) (u : obj) (c : gmap ObjectId obj) : gmap ObjectId obj :=
  match v with
  | Some (JId i) => findByIdAndUpdate believerSchema i u c
  | _ => c
  end.

Definition isSpouseRelation (v : jsv) : bool := isStr v "Wife" || isStr v "Husband".

Definition EDITABLE_FIELDS : list string :=
  [ "fullName"; "dob"; "gender"; "phone"; "email";
    "memberType"; "membershipStatus"; "joinDate";
    "baptized"; "baptizedDate";
    "maritalStatus"; "weddingDate"; "spouseId"; "spouseName";
    "occupationCategory"; "educationLevel" ].

Definition LOCKED_FIELDS : list string := ["familyId"; "isHead"; "relationshipToHead"].

(** believer.controller.js, sanitizeUpdateData *)
Definition sanitizeKey (raw : obj) (data : obj) (key : string) : obj :=
  match raw !! key with
  | None => data
  | Some v =>
      if String.eqb key "spouseId" then
        <[key := if isStr (Some v) EmptyString || isStr (Some v) "null" then JNull else v]> data
      else if String.eqb key "educationLevel" then
        if isStr (Some v) EmptyString then data else <[key := v]> data
      else if String.eqb key "weddingDate" then
        if isStr (Some v) EmptyString then data else <[key := v]> data
      else <[key := v]> data
  end.

Definition sanitizeUpdateData (raw : obj) : obj :=
  fold_left (sanitizeKey raw) EDITABLE_FIELDS ∅.

Section Controllers.

(** [momentTz().tz(TIMEZONE).diff(momentTz(dob).tz(TIMEZONE), 'years')]
    for a valid date, at the time of the request. *)
Variable diffYears : Date → Z.

(** family.controller.js and believer.controller.js, calcAgeIST:
    [moment(undefined)] is the present, any other value that is no date
    gives an invalid moment. *)
Definition calcAgeIST (dob : jsv) : jsage :=
  match dob with
  | None => Age 0
  | Some (JDate d) => Age (diffYears d)
  | Some _ => AgeNaN
  end.

(** helpers.js, calcAge *)
Definition calcAge (dob : jsv) : jsage :=
  if negb (truthy dob) then AgeNull else calcAgeIST dob.

(** family.controller.js, resolveOccupation *)
Definition resolveOccupation (age : jsage) (provided : jsv) : jsv :=
  if ageLe age 5 then Some (JStr "Child") else orElse provided (Some (JStr "Non-Worker")).

(** family.controller.js, validateBelieverFields *)
Definition validateBelieverFields (data : obj) : option string :=
  if truthy (data !! "phone") && negb (phoneTest (data !! "phone"))
  then Some "Phone must be exactly 10 digits."
  else None.

(** *** family.controller.js *)

(** createFamily.  [district] is not among the names taken from
    [req.body] and no declaration of the module binds it: evaluating it
    in the third check throws a ReferenceError, and nothing after that
    check runs. *)
Definition createFamily (body : obj) (s : Store) : response * Store :=
  match blank (body !! "address") with
  | None => (Thrown "TypeError" "address?.trim is not a function", s)
  | Some true => (AppError "Address is required." 400, s)
  | Some false =>
  match blank (body !! "village") with
  | None => (Thrown "TypeError" "village?.trim is not a function", s)
  | Some true => (AppError "Village is required." 400, s)
  | Some false => (Thrown "ReferenceError" "district is not defined", s)
  end end.

(** deleteFamily *)
Definition deleteFamily (now : Date) (id : ObjectId) (s : Store) : response * Store :=
  match findOne (families s) id false with
  | None => (AppError "Family not found." 404, s)
  | Some family =>
      let cur := <["deletedAt" := JDate now]> (<["isDeleted" := JBool true]> family) in
      match saveFamily id family cur (families s) with
      | None => (Thrown "MongoServerError" "E11000 duplicate key error", s)
      | Some fams =>
          let bels :=
            updateMany
              (λ d, bool_decide (d !! "familyId" = Some (JId id)
                                 ∧ d !! "isDeleted" = Some (JBool false)))
              (λ d, <["deletedAt" := JDate now]> (<["isDeleted" := JBool true]> d))
              (believers s) in
          (Json 200 None "Family moved to trash." NoData, mkStore fams bels (nextId s))
      end
  end.

(** restoreFamily *)
Definition restoreFamily (id : ObjectId) (s : Store) : response * Store :=
  match findOne (families s) id true with
  | None => (AppError "Trashed family not found." 404, s)
  | Some family =>
      let count := countDocuments (families s) in
      let newFamilyCode := famCode count in
      let cur := <["familyCode" := JStr newFamilyCode]>
                   (delete "deletedAt" (<["isDeleted" := JBool false]> family)) in
      match saveFamily id family cur (families s) with
      | None => (Thrown "MongoServerError" "E11000 duplicate key error", s)
      | Some fams =>
          let bels :=
            updateMany
              (λ d, bool_decide (d !! "familyId" = Some (JId id)
                                 ∧ d !! "isDeleted" = Some (JBool true)))
              (λ d, delete "deletedAt" (<["isDeleted" := JBool false]> d))
              (believers s) in
          (Json 200 None ("Family restored with new code: " +:+ newFamilyCode) NoData,
           mkStore fams bels (nextId s))
      end
  end.

(** permanentDeleteFamily *)
Definition permanentDeleteFamily (id : ObjectId) (s : Store) : response * Store :=
  match findOne (families s) id true with
  | None => (AppError "Family not found in trash." 404, s)
  | Some family =>
      let bels :=
        deleteMany (λ d, bool_decide (d !! "familyId" = Some (JId id))) (believers s) in
      (Json 200 None
         ("Family " +:+ template (family !! "familyCode") +:+ " permanently deleted.")
         NoData,
       mkStore (delete id (families s)) bels (nextId s))
  end.

(** addMember: the object handed to [Believer.create]; [None] when
    [data.email.trim] is not a function. *)
Definition memberData (familyId : ObjectId) (data : obj) (age : jsage) (spouseId : jsval)
    : option obj :=
  match trimOrUndefined (data !! "email") with
  | None => None
  | Some email =>
      let md := object
        [ ("familyId", Some (JId familyId));
          ("isHead", Some (JBool false));
          ("fullName", match data !! "fullName" with
                       | Some (JStr n) => Some (JStr (trim n))
                       | v => v
                       end);
          ("dob", data !! "dob");
          ("gender", data !! "gender");
          ("phone", orElse (data !! "phone") None);
          ("email", email);
          ("memberType", data !! "memberType");
          ("membershipStatus", orElse (data !! "membershipStatus") (Some (JStr "Active")));
          ("joinDate", orElse (data !! "joinDate") None);
          ("baptized", data !! "baptized");
          ("baptizedDate", if isStr (data !! "baptized") "Yes"
                           then data !! "baptizedDate" else Some JNull);
          ("relationshipToHead", data !! "relationshipToHead");
          ("relationCustom", if isStr (data !! "relationshipToHead") "Other"
                             then match data !! "relationCustom" with
                                  | Some (JStr c) => Some (JStr (trim c))
                                  | _ => None
                                  end
                             else None);
          ("maritalStatus", orElse (data !! "maritalStatus") (Some (JStr "Single")));
          ("spouseId", Some spouseId);
          ("spouseName", orElse (data !! "spouseName") None);
          ("weddingDate", if isStr (data !! "maritalStatus") "Married"
                             && truthy (data !! "weddingDate")
                          then data !! "weddingDate" else None);
          ("occupationCategory", resolveOccupation age (data !! "occupationCategory")) ] in
      Some (if isStr (data !! "occupationCategory") "Student"
               && truthy (data !! "educationLevel")
            then setProp "educationLevel" (data !! "educationLevel") md
            else md)
  end.

(** addMember, from [Believer.create] on. *)
Definition createMember (family : obj) (familyId : ObjectId) (data : obj) (age : jsage)
    (autoLinkedSpouse : bool) (s : Store) : response * Store :=
  (* Sanitize spouseId *)
  let spouseId :=
    if negb autoLinkedSpouse && truthy (data !! "spouseId")
       && negb (isStr (data !! "spouseId") EmptyString)
    then default JNull (data !! "spouseId") else JNull in
  match memberData familyId data age spouseId with
  | None => (Thrown "TypeError" "data.email?.trim is not a function", s)
  | Some md =>
  match newDoc believerSchema md with
  | None => (Thrown "ValidationError" "Believer validation failed", s)
  | Some member =>
      let memberId := nextId s in
      let bels1 := <[memberId := member]> (believers s) in
      let bels2 :=
        if autoLinkedSpouse then
          let head := findById bels1 (family !! "headId") in
          let bels' :=
            findByIdAndUpdate believerSchema memberId
              (object [ ("spouseId", family !! "headId");
                        ("spouseName", getOpt head "fullName") ]) bels1 in
          updateById (family !! "headId")
            (object [ ("spouseId", Some (JId memberId));
                      ("spouseName", member !! "fullName");
                      ("maritalStatus", Some (JStr "Married")) ]) bels'
        else if truthy (Some spouseId) then
          updateById (Some spouseId) (object [ ("spouseId", Some (JId memberId)) ]) bels1
        else bels1 in
      (Json 201 None "Member added successfully." (Doc memberId member),
       mkStore (families s) bels2 (S memberId))
  end end.

(** addMember: the assignments that force a minor to be Single. *)
Definition forceSingle (data : obj) : obj :=
  setProp "weddingDate" None
    (setProp "spouseName" None
       (<["spouseId" := JNull]> (<["maritalStatus" := JStr "Single"]> data))).

(** addMember *)
Definition addMember (id : ObjectId) (body : obj) (s : Store) : response * Store :=
  match findOne (families s) id false with
  | None => (AppError "Family not found." 404, s)
  | Some family =>
  let data := body in
  (* Required fields *)
  match blank (data !! "fullName") with
  | None => (Thrown "TypeError" "data.fullName?.trim is not a function", s)
  | Some true => (AppError "Full name is required." 400, s)
  | Some false =>
  if negb (truthy (data !! "dob")) then (AppError "Date of birth is required." 400, s) else
  if negb (truthy (data !! "gender")) then (AppError "Gender is required." 400, s) else
  if negb (truthy (data !! "relationshipToHead"))
     || isStr (data !! "relationshipToHead") "Self"
  then (AppError "A valid relationship to head is required." 400, s) else
  match (if isStr (data !! "relationshipToHead") "Other"
         then blank (data !! "relationCustom") else Some false) with
  | None => (Thrown "TypeError" "data.relationCustom?.trim is not a function", s)
  | Some true =>
      (AppError ("Custom relation is required when " +:+ dq +:+ "Other" +:+ dq
                 +:+ " is selected.") 400, s)
  | Some false =>
  if negb (truthy (data !! "memberType")) then (AppError "Member type is required." 400, s) else
  if negb (truthy (data !! "occupationCategory"))
  then (AppError "Occupation is required." 400, s) else
  match validateBelieverFields data with
  | Some validErr => (AppError validErr 400, s)
  | None =>
  let age := calcAgeIST (data !! "dob") in
  let isSpouse := isSpouseRelation (data !! "relationshipToHead") in
  (* AGE < 18 *)
  if ageLt age 18 && isSpouse
  then (AppError "A person under 18 cannot be added as Wife or Husband." 400, s) else
  let data := if ageLt age 18 then forceSingle data else data in
  (* WIFE / HUSBAND LOGIC *)
  if isSpouse && ageGe age 18 then
    let data := <["maritalStatus" := JStr "Married"]> data in
    match findById (believers s) (family !! "headId") with
    | None => (AppError "Family head not found." 404, s)
    | Some head =>
        if truthy (head !! "spouseId") then
          let existingSpouse := findById (believers s) (head !! "spouseId") in
          (AppError ("The family head already has a linked spouse (" +:+ dq
                     +:+ strOr (getOpt existingSpouse "fullName") "unknown"
                     +:+ dq +:+ "). Cannot add another.") 409, s)
        else createMember family id data age true s
    end
  else if negb isSpouse && ageGe age 18 then
    if negb (truthy (data !! "maritalStatus"))
    then (AppError "Marital status is required." 400, s) else
    if isStr (data !! "maritalStatus") "Married"
       && negb (truthy (data !! "spouseId")) && negb (truthy (data !! "spouseName"))
    then (AppError "Spouse ID or spouse name is required for Married status." 400, s)
    else createMember family id data age false s
  else createMember family id data age false s
  end end end end.

(** assignNewHead *)
Definition assignNewHead (familyId : ObjectId) (body : obj) (s : Store) : response * Store :=
  let newHeadId := body !! "newHeadId" in
  if negb (truthy newHeadId)
  then (AppError "New head believer ID is required." 400, s) else
  match findOne (families s) familyId false with
  | None => (AppError "Family not found." 404, s)
  | Some family =>
  match newHeadId with
  | Some (JId nid) =>
      match findOne (believers s) nid false with
      | Some newHead =>
          if bool_decide (newHead !! "familyId" = Some (JId familyId)) then
            let bels1 :=
              if truthy (family !! "headId")
              then updateById (family !! "headId") (object [("isHead", Some (JBool false))])
                     (believers s)
              else believers s in
            let cur := <["relationshipToHead" := JStr "Self"]>
                         (<["isHead" := JBool true]> newHead) in
            let bels2 :=
              alter (savePaths ["isHead"; "relationshipToHead"] newHead cur) nid bels1 in
            match saveFamily familyId family (<["headId" := JId nid]> family) (families s) with
            | None => (Thrown "MongoServerError" "E11000 duplicate key error",
                       mkStore (families s) bels2 (nextId s))
            | Some fams =>
                (Json 200 None (template (newHead !! "fullName")
                                +:+ " is now the family head.")
                   (Doc nid cur),
                 mkStore fams bels2 (nextId s))
            end
          else (AppError "Believer not found in this family." 404, s)
      | None => (AppError "Believer not found in this family." 404, s)
      end
  | _ => (Thrown "CastError" "Cast to ObjectId failed for path _id", s)
  end end.

(** *** believer.controller.js *)

(** updateBeliever: the under-18 rules on the update. *)
Definition under18 (age : jsage) (updateData : obj) : obj :=
  if ageLt age 18
  then delete "weddingDate"
         (<["spouseId" := JNull]> (<["maritalStatus" := JStr "Single"]> updateData))
  else updateData.

(** updateBeliever, from the baptism logic on. *)
Definition writeUpdate (id : ObjectId) (updateData : obj) (s : Store) : response * Store :=
  (* Baptism logic *)
  let updateData :=
    if isStr (updateData !! "baptized") "No"
    then <["baptizedDate" := JNull]> updateData else updateData in
  if negb (validUpdate believerSchema updateData)
  then (Thrown "ValidationError" "Validation failed", s) else
  match findOne (believers s) id false with
  | None => (AppError "Believer not found." 404, s)
  | Some _ =>
      let bels1 := findByIdAndUpdate believerSchema id updateData (believers s) in
      let believer := default ∅ (bels1 !! id) in
      (* Sync spouse cross-reference *)
      let bels2 :=
        if truthy (updateData !! "spouseId") then
          updateById (updateData !! "spouseId") (object [("spouseId", Some (JId id))]) bels1
        else if bool_decide (updateData !! "spouseId" = Some JNull) then
          (* Clearing spouse: remove backlink *)
          let old := findById bels1 (Some (JId id)) in
          if truthy (getOpt old "spouseId")
          then updateById (getOpt old "spouseId") (object [("spouseId", Some JNull)]) bels1
          else bels1
        else bels1 in
      (Json 200 None "Believer updated successfully." (Doc id believer),
       setBelievers bels2 s)
  end.

(** updateBeliever *)
Definition updateBeliever (id : ObjectId) (body : obj) (s : Store) : response * Store :=
  (* Block locked fields *)
  let attemptedLocked := List.filter (λ f, bool_decide (is_Some (body !! f))) LOCKED_FIELDS in
  if (0 <? length attemptedLocked)%nat
  then (AppError ("Cannot edit: " +:+ String.concat ", " attemptedLocked +:+ ".") 400, s) else
  let updateData := sanitizeUpdateData body in
  (* Phone validation *)
  if truthy (updateData !! "phone") && negb (phoneTest (updateData !! "phone"))
  then (AppError "Phone number must be exactly 10 digits." 400, s) else
  (* Age check: under-18 rules *)
  if truthy (updateData !! "dob") then
    let age := calcAge (updateData !! "dob") in
    writeUpdate id (under18 age updateData) s
  else
    match findById (believers s) (Some (JId id)) with
    | None => (AppError "Believer not found." 404, s)
    | Some current =>
        let age := calcAge (current !! "dob") in
        writeUpdate id (under18 age updateData) s
    end.

(** deleteBeliever *)
Definition deleteBeliever (now : Date) (id : ObjectId) (s : Store) : response * Store :=
  match findOne (believers s) id false with
  | None => (AppError "Believer not found." 404, s)
  | Some believer =>
      if truthy (believer !! "isHead") then
        (Json 409 (Some "IS_HEAD")
           "This member is the family head. Assign a new head before deleting." NoData, s)
      else
        let cur := <["deletedAt" := JDate now]> (<["isDeleted" := JBool true]> believer) in
        let bels1 :=
          alter (savePaths ["isDeleted"; "deletedAt"] believer cur) id (believers s) in
        let bels2 :=
          if truthy (cur !! "spouseId") then
            updateById (cur !! "spouseId")
              (object [ ("spouseId", Some JNull); ("spouseName", cur !! "fullName") ]) bels1
          else bels1 in
        (Json 200 None "Believer moved to trash." NoData, setBelievers bels2 s)
  end.

(** restoreBeliever *)
Definition restoreBeliever (id : ObjectId) (s : Store) : response * Store :=
  match findOne (believers s) id true with
  | None => (AppError "Trashed believer not found." 404, s)
  | Some believer =>
      (* Safety: ensure family isn't also deleted *)
      match match believer !! "familyId" with
            | Some (JId fid) => findOne (families s) fid false
            | _ => None
            end with
      | None =>
          (AppError
             "Cannot restore: this believer's family is also in trash. Restore the family first."
             409, s)
      | Some family =>
          let cur := delete "deletedAt" (<["isDeleted" := JBool false]> believer) in
          let bels1 :=
            alter (savePaths ["isDeleted"; "deletedAt"] believer cur) id (believers s) in
          (Json 200 None (template (believer !! "fullName")
                          +:+ " restored successfully.") NoData,
           setBelievers bels1 s)
      end
  end.

(** permanentDeleteBeliever *)
Definition permanentDeleteBeliever (id : ObjectId) (s : Store) : response * Store :=
  match findOne (believers s) id true with
  | None =>
      (AppError
         "Believer not found in trash. Only trashed records can be permanently deleted."
         404, s)
  | Some believer =>
      (Json 200 None (template (believer !! "fullName") +:+ " permanently deleted.")
         NoData,
       setBelievers (delete id (believers s)) s)
  end.

(** emptyBelieverTrash *)
Definition emptyBelieverTrash (s : Store) : response * Store :=
  let isTrashed := λ d : obj, bool_decide (d !! "isDeleted" = Some (JBool true)) in
  let bels := deleteMany isTrashed (believers s) in
  let deletedCount := (size (believers s) - size bels)%nat in
  (Json 200 None
     (NilZero.string_of_uint (Nat.to_uint deletedCount)
      +:+ " believer(s) permanently deleted from trash.")
     (Count deletedCount),
   setBelievers bels s).

End Controllers.

(** ** Statements of the specification *)

(** The classifier in the words of the specification. *)
Definition classifyMemberType (age : Z) (maritalStatus : string) : string :=
  if decide (age < 13) then "Child"
  else if decide (13 ≤ age ≤ 30 ∧ maritalStatus = "Single") then "Youth"
  else "Member".

(** The checks of addMember on the required fields and on the phone
    number pass. *)
Definition passesRequired (data : obj) : bool :=
  bool_decide (blank (data !! "fullName") = Some false)
  && truthy (data !! "dob")
  && truthy (data !! "gender")
  && truthy (data !! "memberType")
  && truthy (data !! "occupationCategory")
  && bool_decide (validateBelieverFields data = None).

(** [Believer.create] accepts the document that addMember builds from
    the data: no path of the schema rejects it. *)
Definition createAccepts (familyId : ObjectId) (data : obj) (age : jsage) : bool :=
  match memberData familyId data age JNull with
  | Some md => bool_decide (is_Some (newDoc believerSchema md))
  | None => false
  end.


(** The document that a response carries. *)
Definition docOf (r : response) : obj :=
  match r with
  | Json _ _ _ (Doc _ d) => d
  | _ => ∅
  end.

(** The round trip in the words of the specification: after the soft
    delete and the restore, the family is back with a code that is not
    its original one, and the members deleted with it are back. *)
Definition roundTripFreshCode (now : Date) (fid : ObjectId) (s : Store) : Prop :=
  ∀ f c,
    findOne (families s) fid false = Some f →
    f !! "familyCode" = Some (JStr c) →
    ∃ f2 c2,
      families (restoreFamily fid (deleteFamily now fid s).2).2 !! fid = Some f2
      ∧ f2 !! "isDeleted" = Some (JBool false)
      ∧ f2 !! "familyCode" = Some (JStr c2)
      ∧ c2 ≠ c
      ∧ ∀ bid b,
          believers s !! bid = Some b →
          b !! "familyId" = Some (JId fid) →
          b !! "isDeleted" = Some (JBool false) →
          believers (restoreFamily fid (deleteFamily now fid s).2).2 !! bid
            ≫= (.!! "isDeleted") = Some (JBool false).

(** ** The head of a family *)

(** Believer [bid] is a head of family [fid]: not deleted, isHead, and
    of that family. *)
Definition isHeadOf (s : Store) (fid bid : ObjectId) : Prop :=
  ∃ b, believers s !! bid = Some b
       ∧ b !! "isDeleted" = Some (JBool false)
       ∧ b !! "isHead" = Some (JBool true)
       ∧ b !! "familyId" = Some (JId fid).

(** Every family that is not deleted has exactly one head, and the
    relationshipToHead of that head is Self. *)
Definition oneHeadPerFamily (s : Store) : Prop :=
  ∀ fid f,
    families s !! fid = Some f →
    f !! "isDeleted" = Some (JBool false) →
    ∃ h, isHeadOf s fid h
         ∧ (∀ h', isHeadOf s fid h' → h' = h)
         ∧ believers s !! h ≫= (.!! "relationshipToHead") = Some (JStr "Self").

(** No believer with isHead false has the relationship Self. *)
Definition noSelfMember (s : Store) : Prop :=
  ∀ bid b,
    believers s !! bid = Some b →
    b !! "isHead" = Some (JBool false) →
    b !! "relationshipToHead" ≠ Some (JStr "Self").

(** The head invariant in the words of the specification. *)
Definition headInvariant (s : Store) : Prop := oneHeadPerFamily s ∧ noSelfMember s.

(** The link between a family and its head that the controllers
    maintain: headId names a believer of the family that is its only
    isHead believer, with relationship Self, and in the trash exactly
    when the family is. *)
Definition headOk (bels : gmap ObjectId obj) (fid : ObjectId) (f : obj) : Prop :=
  ∃ h hb,
    f !! "headId" = Some (JId h)
    ∧ bels !! h = Some hb
    ∧ hb !! "familyId" = Some (JId fid)
    ∧ hb !! "isHead" = Some (JBool true)
    ∧ hb !! "relationshipToHead" = Some (JStr "Self")
    ∧ hb !! "isDeleted" = f !! "isDeleted"
    ∧ ∀ b' bd, bels !! b' = Some bd →
               bd !! "familyId" = Some (JId fid) →
               bd !! "isHead" = Some (JBool true) →
               b' = h.

Definition headLinked (s : Store) : Prop :=
  (∀ bid b, believers s !! bid = Some b → (bid < nextId s)%nat)
  ∧ ∀ fid f, families s !! fid = Some f → headOk (believers s) fid f.

(** The requests of the lifecycle. *)
Inductive request : Type :=
| CreateFamily (body : obj)
| AddMember (fid : ObjectId) (body : obj)
| UpdateBeliever (id : ObjectId) (body : obj)
| AssignNewHead (fid : ObjectId) (body : obj)
| DeleteBeliever (now : Date) (id : ObjectId)
| RestoreBeliever (id : ObjectId)
| DeleteFamily (now : Date) (id : ObjectId)
| RestoreFamily (id : ObjectId).

(** The controller that serves a request; [diffYears] is the clock at
    the time of the request. *)
Definition handle (diffYears : Date → Z) (r : request) (s : Store) : response * Store :=
  match r with
  | CreateFamily body => createFamily body s
  | AddMember fid body => addMember diffYears fid body s
  | UpdateBeliever id body => updateBeliever diffYears id body s
  | AssignNewHead fid body => assignNewHead fid body s
  | DeleteBeliever now id => deleteBeliever now id s
  | RestoreBeliever id => restoreBeliever id s
  | DeleteFamily now id => deleteFamily now id s
  | RestoreFamily id => restoreFamily id s
  end.

(** The request assigns as new head the believer that the family
    already names as its head. *)
Definition reassignsHead (r : request) (s : Store) : Prop :=
  match r with
  | AssignNewHead fid body =>
      ∃ f, families s !! fid = Some f ∧ f !! "headId" = body !! "newHeadId"
  | _ => False
  end.

(** The stores that the requests reach from [s0]. *)
Inductive reachable (s0 : Store) : Store → Prop :=
| reach_init : reachable s0 s0
| reach_step (s : Store) (diffYears : Date → Z) (r : request) :
    reachable s0 s →
    ¬ reassignsHead r s →
    reachable s0 (handle diffYears r s).2.

(** Two documents agree on the properties [ks]; two collections hold
    the same ids, with documents that agree on [ks]. *)
Definition agreeOn (ks : list string) (b b' : obj) : Prop :=
  ∀ k, k ∈ ks → b' !! k = b !! k.

Definition keeps (ks : list string) (bels bels' : gmap ObjectId obj) : Prop :=
  ∀ id, option_Forall2 (agreeOn ks) (bels !! id) (bels' !! id).

Definition headKeys : list string :=
  ["familyId"; "isHead"; "relationshipToHead"; "isDeleted"].

Definition coreKeys : list string := ["familyId"; "isHead"; "relationshipToHead"].

(** Two collections hold the same ids, every document keeps its family,
    and the documents of family [fid] keep isHead and relationship. *)
Definition keepsFamily (fid : ObjectId) (bels bels' : gmap ObjectId obj) : Prop :=
  ∀ id,
    option_Forall2
      (λ b b', b' !! "familyId" = b !! "familyId"
               ∧ (b !! "familyId" = Some (JId fid) →
                  b' !! "isHead" = b !! "isHead"
                  ∧ b' !! "relationshipToHead" = b !! "relationshipToHead"))
      (bels !! id) (bels' !! id).

(** ** Sample data *)

(** The clock of the samples: dates are given by their year, and the
    requests arrive in 2026. *)
Definition ageIn2026 (d : Date) : Z := 2026 - d.

Definition sampleFamily (code : string) (head : ObjectId) : obj :=
  object [ ("familyCode", Some (JStr code)); ("address", Some (JStr "12 Church Street"));
           ("village", Some (JStr "Attur")); ("district", Some (JStr "Salem"));
           ("familyStatus", Some (JStr "Active")); ("headId", Some (JId head));
           ("isDeleted", Some (JBool false)) ].

Definition sampleBeliever (family : ObjectId) (isHead : bool) (name rel : string)
    (born : Date) (marital : string) (spouse : jsval) : obj :=
  object [ ("familyId", Some (JId family)); ("isHead", Some (JBool isHead));
           ("fullName", Some (JStr name)); ("dob", Some (JDate born));
           ("gender", Some (JStr "Female")); ("memberType", Some (JStr "Member"));
           ("membershipStatus", Some (JStr "Active")); ("baptized", Some (JStr "Yes"));
           ("relationshipToHead", Some (JStr rel)); ("maritalStatus", Some (JStr marital));
           ("spouseId", Some spouse); ("occupationCategory", Some (JStr "Employed"));
           ("isDeleted", Some (JBool false)); ("deletedAt", Some JNull) ].

(** A request to add a member. *)
Definition memberRequest (name rel : string) (born : Date) : obj :=
  object [ ("fullName", Some (JStr name)); ("dob", Some (JDate born));
           ("gender", Some (JStr "Female")); ("relationshipToHead", Some (JStr rel));
           ("memberType", Some (JStr "Member")); ("baptized", Some (JStr "No"));
           ("occupationCategory", Some (JStr "Student"));
           ("maritalStatus", Some (JStr "Married")); ("spouseName", Some (JStr "Paul"));
           ("weddingDate", Some (JDate 2025)) ].

(** A request to create a family whose district is not in the list. *)
Definition badDistrictRequest : obj :=
  object [ ("address", Some (JStr "12 Church Street")); ("village", Some (JStr "Attur"));
           ("district", Some (JStr "Atlantis")) ].

(** A family in the trash, together with its head. *)
Definition trashedStore : Store :=
  mkStore
    {[ 1%nat := <["isDeleted" := JBool true]> (sampleFamily "FAM-0001" 2) ]}
    {[ 2%nat := <["isDeleted" := JBool true]>
                  (sampleBeliever 1 true "Mary" "Self" 1990 "Single" JNull) ]}
    3.

(** A family whose head Mary (2) and her husband John (3) are linked to
    each other. *)
Definition mary : obj := sampleBeliever 1 true "Mary" "Self" 1990 "Married" (JId 3).

Definition john : obj := sampleBeliever 1 false "John" "Husband" 1988 "Married" (JId 2).

Definition coupleStore : Store :=
  mkStore {[ 1%nat := sampleFamily "FAM-0001" 2 ]}
          (<[ 2%nat := mary ]> {[ 3%nat := john ]})
          4.

(** A family whose head Mary (2) has no spouse. *)
Definition singleHeadStore : Store :=
  mkStore {[ 1%nat := sampleFamily "FAM-0001" 2 ]}
          {[ 2%nat := sampleBeliever 1 true "Mary" "Self" 2002 "Single" JNull ]}
          3.

(** Two families, numbered in the order of their creation. *)
Definition twoFamilies : Store :=
  mkStore (<[ 1%nat := sampleFamily "FAM-0001" 2 ]> {[ 5%nat := sampleFamily "FAM-0002" 6 ]})
          (<[ 2%nat := sampleBeliever 1 true "Mary" "Self" 1990 "Single" JNull ]>
             {[ 6%nat := sampleBeliever 5 true "Ruth" "Self" 1985 "Single" JNull ]})
          7.

(** ** Further controllers *)

(** family.controller.js, updateFamily.  As in createFamily, [district]
    is bound neither by the destructuring of [req.body] nor by the
    module: the test [district !== undefined] throws a ReferenceError,
    after the two calls of [trim], which throw a TypeError on a value
    that is no string; nothing after the test runs. *)
Definition updateFamily (id : ObjectId) (body : obj) (s : Store) : response * Store :=
  match body !! "address" with
  | None | Some (JStr _) =>
      match body !! "village" with
      | None | Some (JStr _) => (Thrown "ReferenceError" "district is not defined", s)
      | Some JNull =>
          (Thrown "TypeError" "Cannot read properties of null (reading 'trim')", s)
      | Some _ => (Thrown "TypeError" "village.trim is not a function", s)
      end
  | Some JNull => (Thrown "TypeError" "Cannot read properties of null (reading 'trim')", s)
  | Some _ => (Thrown "TypeError" "address.trim is not a function", s)
  end.

(** *** The codes of the families in the trash *)


(** *** Pagination *)

(** The index that [Array.prototype.slice] derives from an integer
    argument. *)
Definition relativeIndex (len i : Z) : Z :=
  if i <? 0 then Z.max (len + i) 0 else Z.min i len.

(** [l.slice(start, end)] for integer arguments. *)
Definition slice {A : Type} (start final : Z) (l : list A) : list A :=
  let len := Z.of_nat (length l) in
  let k := relativeIndex len start in
  take (Z.to_nat (relativeIndex len final - k)) (drop (Z.to_nat k) l).

(** [Math.ceil(total / limitNum)] as [res.json] sends it: a division by
    zero gives Infinity or NaN, which JSON writes as [null]. *)
Definition ceilDiv (total limitNum : Z) : option Z :=
  if limitNum =? 0 then None else Some (- ((- total) / limitNum)).

Record pagination : Type := mkPagination {
  pg_total : nat;
  pg_page : Z;
  pg_limit : Z;
  pg_totalPages : option Z
}.

(** family.controller.js, getAllFamilies, once the families are read,
    filtered and counted, for a page and a limit that are integers. *)
Definition getAllFamilies {A : Type} (page limit : Z) (familiesWithCounts : list A)
    : list A * pagination :=
  let pageNum := Z.max 1 page in
  let limitNum := Z.min 100 limit in
  let total := length familiesWithCounts in
  (slice ((pageNum - 1) * limitNum) (pageNum * limitNum) familiesWithCounts,
   mkPagination total pageNum limitNum (ceilDiv (Z.of_nat total) limitNum)).

(** believer.controller.js, getAllBelievers, once the query is built,
    for a page and a limit that are integers: [matching] are the
    believers that match the query, in the order of the sort. *)
Definition getAllBelievers {A : Type} (page limit : Z) (matching : list A)
    : list A * pagination :=
  let pageNum := Z.max 1 page in
  let limitNum := Z.min 100 (Z.max 1 limit) in
  let total := length matching in
  (take (Z.to_nat limitNum) (drop (Z.to_nat ((pageNum - 1) * limitNum)) matching),
   mkPagination total pageNum limitNum (ceilDiv (Z.of_nat total) limitNum)).

(** *** analytics.controller.js *)

(** [age > n], with the coercions of [ageLt]. *)
Definition ageGt (a : jsage) (n : Z) : bool :=
  match a with
  | Age z => n <? z
  | AgeNaN => false
  | AgeNull => n <? 0
  end.

Record ageDistribution : Type := mkAgeDistribution {
  children : nat;
  youth : nat;
  adults : nat;
  seniors : nat
}.

Record genderDistribution : Type := mkGenderDistribution {
  male : nat;
  female : nat;
  other : nat
}.

Record baptismAnalytics : Type := mkBaptismAnalytics {
  totalBaptized : nat;
  notBaptized : nat;
  eligibleNotBaptized : nat
}.

Section Analytics.

Variable diffYears : Date → Z.

(** getAnalytics, the body of the loop over the ages. *)
Definition countAge (d : ageDistribution) (b : obj) : ageDistribution :=
  match calcAge diffYears (b !! "dob") with
  | AgeNull => d
  | age =>
      if ageLe age 12
      then mkAgeDistribution (S (children d)) (youth d) (adults d) (seniors d)
      else if ageLe age 29
      then mkAgeDistribution (children d) (S (youth d)) (adults d) (seniors d)
      else if ageLe age 59
      then mkAgeDistribution (children d) (youth d) (S (adults d)) (seniors d)
      else mkAgeDistribution (children d) (youth d) (adults d) (S (seniors d))
  end.

(** getAnalytics, the body of the loop over the genders. *)
Definition countGender (d : genderDistribution) (b : obj) : genderDistribution :=
  if isStr (b !! "gender") "Male"
  then mkGenderDistribution (S (male d)) (female d) (other d)
  else if isStr (b !! "gender") "Female"
  then mkGenderDistribution (male d) (S (female d)) (other d)
  else mkGenderDistribution (male d) (female d) (S (other d)).

(** getAnalytics: the counts by age, gender and baptism over the
    believers that are not deleted ([believers] is the result of the
    [find]).  The baptism rate, a rounded float, and the analytics by
    village are not modelled. *)
Definition getAnalytics (believers : list obj)
    : ageDistribution * genderDistribution * baptismAnalytics :=
  let ageDist := fold_left countAge believers (mkAgeDistribution 0 0 0 0) in
  let genderDist := fold_left countGender believers (mkGenderDistribution 0 0 0) in
  let baptized := length (List.filter (λ b, isStr (b !! "baptized") "Yes") believers) in
  let eligible :=
    length (List.filter (λ b, ageGt (calcAge diffYears (b !! "dob")) 15
                              && isStr (b !! "baptized") "No") believers) in
  (ageDist, genderDist,
   mkBaptismAnalytics baptized (length believers - baptized) eligible).

End Analytics.

(** *** The forms of the frontend *)

(** frontend/src/pages/FamilyManagement.jsx, autoMemberType: [None] is
    [null], for a date of birth that is not entered yet. *)
Definition autoMemberType (age : jsage) (maritalStatus : jsv) : option string :=
  match age with
  | AgeNull => None
  | _ =>
      Some (if ageLt age 13 then "Child"
            else if ageLe age 30 && isStr maritalStatus "Single" then "Youth"
            else "Member")
  end.

(** * Properties *)

(** ** The Mongoose layer *)

Lemma findOne_Some (c : gmap ObjectId obj) (id : ObjectId) (del : bool) (d : obj) :
  findOne c id del = Some d ↔ c !! id = Some d ∧ d !! "isDeleted" = Some (JBool del).
Proof.
  unfold findOne. destruct (c !! id) as [d'|].
  - case_decide as Hd; split.
    + intros [= <-]. done.
    + intros [[= <-] _]. done.
    + done.
    + intros [[= <-] Hd']. done.
  - split; [done | intros [? _]; done].
Qed.

Lemma findOne_found (c : gmap ObjectId obj) (id : ObjectId) (del : bool) (d : obj) :
  c !! id = Some d → d !! "isDeleted" = Some (JBool del) → findOne c id del = Some d.
Proof. intros. by apply findOne_Some. Qed.

Lemma lookup_deleteMany_Some (P : obj → bool) (c : gmap ObjectId obj) (j : ObjectId) (d : obj) :
  deleteMany P c !! j = Some d ↔ c !! j = Some d ∧ P d = false.
Proof. unfold deleteMany. by rewrite map_lookup_filter_Some. Qed.

Lemma lookup_deleteMany_None (P : obj → bool) (c : gmap ObjectId obj) (j : ObjectId) (d : obj) :
  c !! j = Some d → P d = true → deleteMany P c !! j = None.
Proof.
  intros Hj HP. unfold deleteMany. apply map_lookup_filter_None. right.
  intros d' Hd'. simpl. rewrite Hj in Hd'. injection Hd' as <-. by rewrite HP.
Qed.

(** ** Objects and updates *)

(** Membership of a property name in a literal list of names. *)
Ltac in_names := apply list_elem_of_In; simpl; tauto.

Lemma lookup_setProp (k : string) (v : jsv) (o : obj) (j : string) :
  setProp k v o !! j = if decide (k = j) then v else o !! j.
Proof.
  unfold setProp. destruct v as [x|].
  - rewrite lookup_insert. by repeat case_decide.
  - rewrite lookup_delete. by repeat case_decide.
Qed.

Lemma lookup_object (l : list (string * jsv)) (j : string) :
  object l !! j = assoc j l.
Proof.
  induction l as [|[k v] r IH]; simpl.
  - apply lookup_empty.
  - fold (object r). rewrite lookup_setProp, IH.
    destruct (String.eqb_spec k j) as [->|Hne].
    + by rewrite decide_True.
    + by rewrite decide_False.
Qed.

Lemma lookup_castObj (schema : list path) (o : obj) (k : string) :
  castObj schema o !! k = castValue schema k <$> o !! k.
Proof.
  unfold castObj. rewrite map_lookup_imap. by destruct (o !! k).
Qed.

Lemma lookup_applyUpdate (schema : list path) (u d : obj) (k : string) :
  applyUpdate schema u d !! k
  = match u !! k with
    | Some v => Some (castValue schema k v)
    | None => d !! k
    end.
Proof.
  unfold applyUpdate. rewrite lookup_union, lookup_castObj.
  destruct (u !! k), (d !! k); reflexivity.
Qed.

Lemma lookup_updateById_eq (i : ObjectId) (u : obj) (c : gmap ObjectId obj) :
  updateById (Some (JId i)) u c !! i = applyUpdate believerSchema u <$> c !! i.
Proof. apply lookup_alter_eq. Qed.

Lemma lookup_updateById_ne (v : jsv) (u : obj) (c : gmap ObjectId obj) (j : ObjectId) :
  v ≠ Some (JId j) → updateById v u c !! j = c !! j.
Proof.
  intros Hv. destruct v as [[| | | |i]|]; try reflexivity.
  apply lookup_alter_ne. congruence.
Qed.

(** An update by id keeps, in every document, the properties that it
    does not set. *)
Lemma updateById_frame (v : jsv) (u : obj) (c : gmap ObjectId obj) (j : ObjectId) (k : string) :
  u !! k = None →
  (updateById v u c !! j) ≫= (.!! k) = (c !! j) ≫= (.!! k).
Proof.
  intros Hk. destruct (decide (v = Some (JId j))) as [->|Hv].
  - rewrite lookup_updateById_eq. destruct (c !! j) as [d|]; simpl; [|done].
    by rewrite lookup_applyUpdate, Hk.
  - by rewrite lookup_updateById_ne.
Qed.

Lemma lookup_savePaths (ks : list string) (loaded cur stored : obj) (k : string) :
  savePaths ks loaded cur stored !! k
  = if decide (k ∈ ks)
    then if decide (loaded !! k = cur !! k) then stored !! k else cur !! k
    else stored !! k.
Proof.
  induction ks as [|k' ks IH].
  - by rewrite decide_False by apply not_elem_of_nil.
  - change (savePaths (k' :: ks) loaded cur stored)
      with (savePath k' loaded cur (savePaths ks loaded cur stored)).
    unfold savePath.
    destruct (decide (k' = k)) as [->|Hne].
    + rewrite (decide_True (P := k ∈ k :: ks)) by (apply elem_of_cons; by left).
      destruct (decide (loaded !! k = cur !! k)) as [Heq|Heq].
      * rewrite IH. destruct (decide (k ∈ ks)); [|done].
        destruct (decide (loaded !! k = cur !! k)); done.
      * by rewrite lookup_setProp, decide_True.
    + assert (Hin : k ∈ k' :: ks ↔ k ∈ ks).
      { rewrite elem_of_cons. split; [intros [Hk|Hk]; [congruence | exact Hk] | auto]. }
      assert (Hgoal : savePaths ks loaded cur stored !! k
                      = if decide (k ∈ k' :: ks)
                        then if decide (loaded !! k = cur !! k) then stored !! k else cur !! k
                        else stored !! k).
      { rewrite IH. destruct (decide (k ∈ ks)), (decide (k ∈ k' :: ks)); tauto || done. }
      destruct (decide (loaded !! k' = cur !! k')); [done|].
      by rewrite lookup_setProp, decide_False.
Qed.

(** Saving a document that nobody wrote since it was loaded stores the
    assigned values. *)
Lemma lookup_savePaths_loaded (ks : list string) (loaded cur : obj) (k : string) :
  savePaths ks loaded cur loaded !! k = if decide (k ∈ ks) then cur !! k else loaded !! k.
Proof.
  rewrite lookup_savePaths. repeat case_decide; congruence.
Qed.


(** ** Strings *)

Lemma dropSpace_idemp (l : list ascii) : dropSpace (dropSpace l) = dropSpace l.
Proof.
  induction l as [|c r IH]; [done|]. simpl.
  destruct (isWhiteSpace c) eqn:Hc; [done|]. simpl. by rewrite Hc.
Qed.

Lemma dropSpace_head (l : list ascii) :
  dropSpace l = [] ∨ ∃ c r, dropSpace l = c :: r ∧ isWhiteSpace c = false.
Proof.
  induction l as [|c r IH]; [by left|]. simpl.
  destruct (isWhiteSpace c) eqn:Hc; [done|]. right. by exists c, r.
Qed.

Lemma dropSpace_snoc (l : list ascii) (c : ascii) :
  isWhiteSpace c = false → dropSpace (l ++ [c])%list = (dropSpace l ++ [c])%list.
Proof.
  intros Hc. induction l as [|a r IH]; simpl.
  - by rewrite Hc.
  - by destruct (isWhiteSpace a).
Qed.

Lemma trim_idemp (s : string) : trim (trim s) = trim s.
Proof.
  unfold trim. rewrite list_ascii_of_string_of_list_ascii. f_equal.
  set (d := dropSpace (list_ascii_of_string s)).
  assert (Hfix : dropSpace (rev (dropSpace (rev d))) = rev (dropSpace (rev d))).
  { destruct (dropSpace_head (list_ascii_of_string s)) as [Hd | (c & r & Hd & Hc)];
      fold d in Hd; rewrite Hd; [done|].
    simpl. rewrite dropSpace_snoc by done. rewrite rev_app_distr. simpl.
    by rewrite Hc. }
  rewrite Hfix, rev_involutive, dropSpace_idemp. done.
Qed.

(** ** Documents *)

Lemma lookup_applyDefaults (schema : list path) (o : obj) (k : string) :
  applyDefaults schema o !! k
  = match o !! k with
    | Some v => Some v
    | None => defaultOf schema k
    end.
Proof.
  induction schema as [|p r IH].
  - simpl. by destruct (o !! k).
  - change (applyDefaults (p :: r) o)
      with (match applyDefaults r o !! p_name p with
            | Some _ => applyDefaults r o
            | None => setProp (p_name p) (p_default p) (applyDefaults r o)
            end).
    simpl defaultOf.
    destruct (applyDefaults r o !! p_name p) as [x|] eqn:Hp.
    + rewrite IH. destruct (o !! k) as [v|] eqn:Hk; [done|].
      destruct (defaultOf r k) as [v|] eqn:Hd; [done|].
      destruct (String.eqb_spec (p_name p) k) as [Heq|Hne]; [|done].
      rewrite Heq in Hp. congruence.
    + rewrite lookup_setProp.
      destruct (decide (p_name p = k)) as [Heq|Hne].
      * rewrite Heq, IH in Hp. rewrite Heq, String.eqb_refl.
        destruct (o !! k); [done|]. by rewrite Hp.
      * rewrite IH. destruct (o !! k); [done|].
        destruct (defaultOf r k); [done|].
        by destruct (String.eqb_spec (p_name p) k).
Qed.

(** What a created document holds: the cast value of the object, or the
    default of the schema. *)
Lemma lookup_newDoc (schema : list path) (o d : obj) (k : string) :
  newDoc schema o = Some d →
  d !! k = match o !! k with
           | Some v => Some (castValue schema k v)
           | None => defaultOf schema k
           end.
Proof.
  unfold newDoc. destruct (validDoc schema _); [|done]. intros [= <-].
  rewrite lookup_applyDefaults, lookup_castObj. by destruct (o !! k).
Qed.

(** ** Classification *)

(** C9: the classifier of helpers.js returns, for every integer age and
    every marital status, the value of the specification: Child below
    13, Youth from 13 to 30 for a Single, Member otherwise. *)
Theorem suggestMemberType_classify (age : Z) (maritalStatus : string) :
  suggestMemberType age maritalStatus = classifyMemberType age maritalStatus.
Proof.
  unfold suggestMemberType, classifyMemberType.
  destruct (Z.leb_spec age 12) as [Hc | Hc].
  - rewrite decide_True by lia. reflexivity.
  - rewrite decide_False by lia.
    destruct (Z.leb_spec age 30) as [Hy | Hy]; simpl.
    + destruct (String.eqb_spec maritalStatus "Single") as [Hs | Hs].
      * rewrite decide_True by (split; [lia | exact Hs]). reflexivity.
      * rewrite decide_False by (intros [_ Hs']; contradiction). reflexivity.
    + rewrite decide_False by lia. reflexivity.
Qed.

(** ** Creating a family *)

(** Whatever the request, createFamily answers 400 only for a blank
    address or village; every other request ends in the ReferenceError,
    and the store is never written. *)
Lemma createFamily_cases (body : obj) (s : Store) :
  (createFamily body s).2 = s ∧
  (statusCode (createFamily body s).1 = 400%nat →
   blank (body !! "address") = Some true ∨ blank (body !! "village") = Some true).
Proof.
  unfold createFamily.
  destruct (blank (body !! "address")) as [[|]|]; simpl; auto; try (split; [done | lia]).
  destruct (blank (body !! "village")) as [[|]|]; simpl; auto; split; try done; lia.
Qed.

(** C8: a request with an address and a village whose district is not
    one of the 38 districts is answered with status 500 (the
    ReferenceError on [district]) where the specification asks for a
    400; nothing is persisted. *)
Theorem createFamily_invalid_district_500 :
  ∀ s : Store,
    createFamily badDistrictRequest s
    = (Thrown "ReferenceError" "district is not defined", s)
    ∧ statusCode (createFamily badDistrictRequest s).1 = 500%nat
    ∧ existsb (String.eqb "Atlantis") TN_DISTRICTS = false.
Proof.
  intros s. split; [reflexivity | split; reflexivity].
Qed.

(** ** Adding a member *)

Lemma isSpouseRelation_cases (v : jsv) :
  isSpouseRelation v = true → v = Some (JStr "Wife") ∨ v = Some (JStr "Husband").
Proof.
  unfold isSpouseRelation, isStr. destruct v as [[| |t| |]|]; try done.
  intros [Hw|Hh]%orb_true_iff.
  - left. apply String.eqb_eq in Hw. by rewrite Hw.
  - right. apply String.eqb_eq in Hh. by rewrite Hh.
Qed.

Lemma ageGe_not_Lt (a : jsage) : ageGe a 18 = true → ageLt a 18 = false.
Proof. destruct a; simpl; [|done|done]. intros ?%Z.leb_le. by apply Z.ltb_ge. Qed.

Lemma ageLt_not_Ge (a : jsage) : ageLt a 18 = true → ageGe a 18 = false.
Proof. destruct a; simpl; [|done|done]. intros ?%Z.ltb_lt. by apply Z.leb_gt. Qed.

Lemma passesRequired_inv (data : obj) :
  passesRequired data = true →
  blank (data !! "fullName") = Some false
  ∧ truthy (data !! "dob") = true
  ∧ truthy (data !! "gender") = true
  ∧ truthy (data !! "memberType") = true
  ∧ truthy (data !! "occupationCategory") = true
  ∧ validateBelieverFields data = None.
Proof.
  unfold passesRequired. rewrite !andb_true_iff, !bool_decide_eq_true. tauto.
Qed.

(** A spouse of full age whose request passes the checks reaches the
    lookup of the head. *)
Lemma addMember_spouse (diffYears : Date → Z) (s : Store) (fid : ObjectId)
    (family data : obj) :
  findOne (families s) fid false = Some family →
  passesRequired data = true →
  isSpouseRelation (data !! "relationshipToHead") = true →
  ageGe (calcAgeIST diffYears (data !! "dob")) 18 = true →
  addMember diffYears fid data s
  = match findById (believers s) (family !! "headId") with
    | None => (AppError "Family head not found." 404, s)
    | Some head =>
        if truthy (head !! "spouseId") then
          (AppError ("The family head already has a linked spouse (" +:+ dq
                     +:+ strOr (getOpt (findById (believers s) (head !! "spouseId"))
                                  "fullName") "unknown"
                     +:+ dq +:+ "). Cannot add another.") 409, s)
        else createMember family fid (<["maritalStatus" := JStr "Married"]> data)
               (calcAgeIST diffYears (data !! "dob")) true s
    end.
Proof.
  intros Hfind (Hname & Hdob & Hgender & Htype & Hocc & Hphone)%passesRequired_inv Hrel Hage.
  unfold addMember. rewrite Hfind, Hname, Hdob, Hgender, Htype, Hocc, Hphone, Hrel, Hage.
  rewrite (ageGe_not_Lt _ Hage).
  destruct (isSpouseRelation_cases _ Hrel) as [-> | ->]; reflexivity.
Qed.



(** What the object handed to [Believer.create] holds on the marital
    paths and on the name. *)
Lemma lookup_memberData (fid : ObjectId) (data : obj) (age : jsage) (sp : jsval) (md : obj) :
  memberData fid data age sp = Some md →
  md !! "maritalStatus" = orElse (data !! "maritalStatus") (Some (JStr "Single"))
  ∧ md !! "spouseId" = Some sp
  ∧ md !! "spouseName" = orElse (data !! "spouseName") None
  ∧ md !! "weddingDate"
    = (if isStr (data !! "maritalStatus") "Married" && truthy (data !! "weddingDate")
       then data !! "weddingDate" else None)
  ∧ md !! "fullName"
    = match data !! "fullName" with
      | Some (JStr n) => Some (JStr (trim n))
      | v => v
      end.
Proof.
  unfold memberData. destruct (trimOrUndefined (data !! "email")) as [email|]; [|done].
  intros Heq. apply (inj Some) in Heq. subst md.
  destruct (isStr (data !! "occupationCategory") "Student"
            && truthy (data !! "educationLevel"));
    repeat split;
    rewrite ?lookup_setProp, ?decide_False by done;
    rewrite lookup_object; reflexivity.
Qed.

(** A member that is not linked to the head and names no spouse by id. *)
Lemma createMember_unlinked (family : obj) (fid : ObjectId) (data : obj) (age : jsage)
    (s : Store) :
  truthy (data !! "spouseId") = false →
  createMember family fid data age false s
  = match memberData fid data age JNull with
    | None => (Thrown "TypeError" "data.email?.trim is not a function", s)
    | Some md =>
        match newDoc believerSchema md with
        | None => (Thrown "ValidationError" "Believer validation failed", s)
        | Some member =>
            (Json 201 None "Member added successfully." (Doc (nextId s) member),
             mkStore (families s) (<[nextId s := member]> (believers s)) (S (nextId s)))
        end
    end.
Proof.
  intros Hsp. unfold createMember. rewrite Hsp. cbn [negb andb truthy].
  destruct (memberData fid data age JNull) as [md|]; [|done].
  by destruct (newDoc believerSchema md).
Qed.

(** A minor who is no spouse either is refused before any write, or
    reaches [Believer.create] with the data forced to Single. *)
Lemma addMember_minor_cases (diffYears : Date → Z) (s : Store) (fid : ObjectId)
    (family data : obj) :
  findOne (families s) fid false = Some family →
  ageLt (calcAgeIST diffYears (data !! "dob")) 18 = true →
  isSpouseRelation (data !! "relationshipToHead") = false →
  addMember diffYears fid data s
  = createMember family fid (forceSingle data) (calcAgeIST diffYears (data !! "dob")) false s
  ∨ ∃ e, addMember diffYears fid data s = (e, s) ∧ statusCode e ≠ 201%nat.
Proof.
  intros Hfind Hage Hrel. unfold addMember.
  rewrite Hfind, Hage, Hrel, (ageLt_not_Ge _ Hage). cbn [andb negb].
  destruct (blank (data !! "fullName")) as [[|]|];
    [right; eexists; split; [reflexivity | done] | | right; eexists; split; [reflexivity | done]].
  destruct (negb (truthy (data !! "dob")));
    [right; eexists; split; [reflexivity | done] |].
  destruct (negb (truthy (data !! "gender")));
    [right; eexists; split; [reflexivity | done] |].
  destruct (negb (truthy (data !! "relationshipToHead"))
            || isStr (data !! "relationshipToHead") "Self");
    [right; eexists; split; [reflexivity | done] |].
  destruct (if isStr (data !! "relationshipToHead") "Other"
            then blank (data !! "relationCustom") else Some false) as [[|]|];
    [right; eexists; split; [reflexivity | done] | | right; eexists; split; [reflexivity | done]].
  destruct (negb (truthy (data !! "memberType")));
    [right; eexists; split; [reflexivity | done] |].
  destruct (negb (truthy (data !! "occupationCategory")));
    [right; eexists; split; [reflexivity | done] |].
  destruct (validateBelieverFields data);
    [right; eexists; split; [reflexivity | done] |].
  by left.
Qed.

Lemma lookup_forceSingle (data : obj) :
  forceSingle data !! "maritalStatus" = Some (JStr "Single")
  ∧ forceSingle data !! "spouseId" = Some JNull
  ∧ forceSingle data !! "spouseName" = None
  ∧ forceSingle data !! "weddingDate" = None.
Proof.
  unfold forceSingle.
  repeat split; rewrite !lookup_setProp; repeat (rewrite decide_False by done);
    rewrite ?decide_True by done; try done.
  - rewrite lookup_insert_ne by done. apply lookup_insert_eq.
  - apply lookup_insert_eq.
Qed.

(** A minor asked for as Wife or Husband is refused with a 400, whatever
    else the request holds, as long as its name is a string or absent. *)
Lemma addMember_minor_spouse (diffYears : Date → Z) (s : Store) (fid : ObjectId)
    (family data : obj) :
  findOne (families s) fid false = Some family →
  ageLt (calcAgeIST diffYears (data !! "dob")) 18 = true →
  isSpouseRelation (data !! "relationshipToHead") = true →
  blank (data !! "fullName") ≠ None →
  statusCode (addMember diffYears fid data s).1 = 400%nat
  ∧ (addMember diffYears fid data s).2 = s.
Proof.
  intros Hfind Hage Hrel Hname. unfold addMember.
  rewrite Hfind, Hage, Hrel. cbn [andb].
  destruct (blank (data !! "fullName")) as [[|]|]; [done | | done].
  destruct (negb (truthy (data !! "dob"))); [done|].
  destruct (negb (truthy (data !! "gender"))); [done|].
  destruct (isSpouseRelation_cases _ Hrel) as [-> | ->]; cbn [truthy isStr negb orb];
    (destruct (negb (truthy (data !! "memberType"))); [done|]);
    (destruct (negb (truthy (data !! "occupationCategory"))); [done|]);
    by destruct (validateBelieverFields data).
Qed.

(** C5: for a request whose computed age is below 18, addMember refuses
    a Wife or Husband with status 400 and writes nothing; for any other
    relationship, the believer that it creates is Single, has a null
    spouseId and neither weddingDate nor spouseName, whatever the
    request supplied, and that is the document stored. *)
Theorem addMember_minor (diffYears : Date → Z) (s : Store) (fid : ObjectId)
    (family data : obj) :
  findOne (families s) fid false = Some family →
  ageLt (calcAgeIST diffYears (data !! "dob")) 18 = true →
  (isSpouseRelation (data !! "relationshipToHead") = true →
   blank (data !! "fullName") ≠ None →
   statusCode (addMember diffYears fid data s).1 = 400%nat
   ∧ (addMember diffYears fid data s).2 = s)
  ∧ (isSpouseRelation (data !! "relationshipToHead") = true →
     passesRequired data = true →
     addMember diffYears fid data s
     = (AppError "A person under 18 cannot be added as Wife or Husband." 400, s))
  ∧ (isSpouseRelation (data !! "relationshipToHead") = false →
     ∀ c msg mid member,
       (addMember diffYears fid data s).1 = Json 201 c msg (Doc mid member) →
       member !! "maritalStatus" = Some (JStr "Single")
       ∧ member !! "spouseId" = Some JNull
       ∧ member !! "weddingDate" = None
       ∧ member !! "spouseName" = None
       ∧ believers (addMember diffYears fid data s).2 !! mid = Some member).
Proof.
  intros Hfind Hage. split; [|split].
  - intros Hrel Hname. by apply (addMember_minor_spouse diffYears s fid family).
  - intros Hrel (Hname & Hdob & Hgender & Htype & Hocc & Hphone)%passesRequired_inv.
    unfold addMember.
    rewrite Hfind, Hname, Hdob, Hgender, Htype, Hocc, Hphone, Hrel, Hage.
    destruct (isSpouseRelation_cases _ Hrel) as [-> | ->]; reflexivity.
  - intros Hrel c msg mid member Hres.
    destruct (addMember_minor_cases diffYears s fid family data Hfind Hage Hrel)
      as [Hcreate | (e & He & Hst)].
    2: { rewrite He in Hres. cbn [fst] in Hres. subst e. done. }
    destruct (lookup_forceSingle data) as (Hms & Hsp & Hsn & Hwd).
    rewrite Hcreate in Hres |- *.
    rewrite createMember_unlinked in Hres |- * by (by rewrite Hsp).
    destruct (memberData fid (forceSingle data) _ JNull) as [md|] eqn:Hmd; [|done].
    destruct (newDoc believerSchema md) as [member'|] eqn:Hnew; [|done].
    cbn [fst snd believers] in Hres |- *.
    injection Hres as _ _ <- <-.
    destruct (lookup_memberData _ _ _ _ _ Hmd) as (Hm1 & Hm2 & Hm3 & Hm4 & _).
    rewrite Hms in Hm1, Hm4. rewrite Hsn in Hm3.
    rewrite !(lookup_newDoc _ _ _ _ Hnew), Hm1, Hm2, Hm3, Hm4.
    repeat split; try reflexivity. apply lookup_insert_eq.
Qed.

(** Tim, 11, is asked for as a married son with a wedding date: he is
    created Single, without spouse and without wedding date; Eve, 16,
    asked for as Wife, is refused. *)
Lemma addMember_minor_witness :
  (let r := addMember ageIn2026 1 (memberRequest "Tim" "Son" 2015) coupleStore in
   statusCode r.1 = 201%nat
   ∧ docOf r.1 !! "maritalStatus" = Some (JStr "Single")
   ∧ docOf r.1 !! "spouseId" = Some JNull
   ∧ docOf r.1 !! "weddingDate" = None
   ∧ docOf r.1 !! "spouseName" = None
   ∧ believers r.2 !! 4%nat = Some (docOf r.1))
  ∧ addMember ageIn2026 1 (memberRequest "Eve" "Wife" 2010) coupleStore
    = (AppError "A person under 18 cannot be added as Wife or Husband." 400, coupleStore).
Proof.
  split.
  - destruct (addMember_minor ageIn2026 coupleStore 1 (sampleFamily "FAM-0001" 2)
                (memberRequest "Tim" "Son" 2015) eq_refl eq_refl) as (_ & _ & H).
    split; [reflexivity|].
    exact (H eq_refl None "Member added successfully." 4%nat
             (docOf (addMember ageIn2026 1 (memberRequest "Tim" "Son" 2015) coupleStore).1)
             eq_refl).
  - destruct (addMember_minor ageIn2026 coupleStore 1 (sampleFamily "FAM-0001" 2)
                (memberRequest "Eve" "Wife" 2010) eq_refl eq_refl) as (_ & H & _).
    apply H; reflexivity.
Defined.

(** The member and the head after the two updates that link them. *)
Lemma createMember_linked (family : obj) (fid hid : ObjectId) (data : obj) (age : jsage)
    (s : Store) (md member head : obj) :
  memberData fid data age JNull = Some md →
  newDoc believerSchema md = Some member →
  family !! "headId" = Some (JId hid) →
  believers s !! hid = Some head →
  believers s !! nextId s = None →
  (createMember family fid data age true s).1
  = Json 201 None "Member added successfully." (Doc (nextId s) member)
  ∧ families (createMember family fid data age true s).2 = families s
  ∧ believers (createMember family fid data age true s).2 !! nextId s
    = Some (applyUpdate believerSchema
              (object [ ("spouseId", Some (JId hid)); ("spouseName", head !! "fullName") ])
              member)
  ∧ believers (createMember family fid data age true s).2 !! hid
    = Some (applyUpdate believerSchema
              (object [ ("spouseId", Some (JId (nextId s)));
                        ("spouseName", member !! "fullName");
                        ("maritalStatus", Some (JStr "Married")) ])
              head).
Proof.
  intros Hmd Hnew Hhead Hh Hfresh.
  assert (Hne : hid ≠ nextId s) by congruence.
  unfold createMember. cbn [negb andb]. rewrite Hmd, Hnew, Hhead.
  cbn [fst snd families believers findById].
  rewrite (lookup_insert_ne (believers s)) by done. rewrite Hh. cbn [getOpt].
  split; [done|]. split; [done|]. split.
  - rewrite lookup_updateById_ne by congruence.
    unfold findByIdAndUpdate. by rewrite lookup_alter_eq, lookup_insert_eq.
  - rewrite lookup_updateById_eq. unfold findByIdAndUpdate.
    by rewrite lookup_alter_ne, lookup_insert_ne, Hh.
Qed.

Lemma blank_false (v : jsv) : blank v = Some false → ∃ n, v = Some (JStr n).
Proof. destruct v as [[| |n| |]|]; try done. by exists n. Qed.

(** C3: when the head of the family has no spouse, a request that
    passes the checks for a Wife or Husband of 18 or more and whose
    document the schema accepts is answered 201, and right afterwards
    the new member and the head are linked to each other: each one's
    spouseId is the other's id, each one's spouseName is the other's
    fullName, and both are Married. *)
Theorem addMember_spouse_linked (diffYears : Date → Z) (s : Store) (fid hid : ObjectId)
    (family data head : obj) (headName : string) :
  findOne (families s) fid false = Some family →
  passesRequired data = true →
  isSpouseRelation (data !! "relationshipToHead") = true →
  ageGe (calcAgeIST diffYears (data !! "dob")) 18 = true →
  family !! "headId" = Some (JId hid) →
  believers s !! hid = Some head →
  truthy (head !! "spouseId") = false →
  head !! "fullName" = Some (JStr headName) →
  trim headName = headName →
  believers s !! nextId s = None →
  createAccepts fid (<["maritalStatus" := JStr "Married"]> data)
    (calcAgeIST diffYears (data !! "dob")) = true →
  ∃ member B H,
    (addMember diffYears fid data s).1
    = Json 201 None "Member added successfully." (Doc (nextId s) member)
    ∧ believers (addMember diffYears fid data s).2 !! nextId s = Some B
    ∧ believers (addMember diffYears fid data s).2 !! hid = Some H
    ∧ B !! "spouseId" = Some (JId hid)
    ∧ H !! "spouseId" = Some (JId (nextId s))
    ∧ H !! "maritalStatus" = Some (JStr "Married")
    ∧ B !! "maritalStatus" = Some (JStr "Married")
    ∧ is_Some (B !! "fullName")
    ∧ H !! "spouseName" = B !! "fullName"
    ∧ B !! "spouseName" = H !! "fullName".
Proof.
  intros Hfind Hreq Hrel Hage Hhead Hh Hnosp Hhn Htrim Hfresh Hacc.
  rewrite (addMember_spouse diffYears s fid family data Hfind Hreq Hrel Hage).
  rewrite Hhead. cbn [findById]. rewrite Hh, Hnosp.
  unfold createAccepts in Hacc.
  destruct (memberData fid _ _ JNull) as [md|] eqn:Hmd; [|done].
  apply bool_decide_eq_true in Hacc as [member Hnew].
  destruct (createMember_linked family fid hid _ _ s md member head Hmd Hnew Hhead Hh Hfresh)
    as (Hres & _ & HB & HH).
  exists member. eexists. eexists.
  split; [exact Hres|]. split; [exact HB|]. split; [exact HH|].
  destruct (lookup_memberData _ _ _ _ _ Hmd) as (Hm1 & _ & _ & _ & Hm5).
  apply passesRequired_inv in Hreq as (Hname & _).
  destruct (blank_false _ Hname) as [n Hn].
  rewrite lookup_insert_ne, Hn in Hm5 by done.
  rewrite lookup_insert_eq in Hm1. cbn [orElse truthy String.eqb negb] in Hm1.
  assert (Hfull : member !! "fullName" = Some (JStr (trim n))).
  { rewrite (lookup_newDoc _ _ _ _ Hnew), Hm5. unfold castValue. simpl.
    by rewrite trim_idemp. }
  assert (Hmar : member !! "maritalStatus" = Some (JStr "Married")).
  { by rewrite (lookup_newDoc _ _ _ _ Hnew), Hm1. }
  rewrite !lookup_applyUpdate, !lookup_object. simpl assoc.
  rewrite Hhn, Hfull, Hmar. unfold castValue. simpl.
  rewrite Htrim, trim_idemp. repeat split; try reflexivity. by eexists.
Qed.

(** Mary, 24 and unmarried, is the head; John, 25, is added as Husband:
    the two are linked to each other. *)
Lemma addMember_spouse_linked_witness :
  let r := addMember ageIn2026 1 (memberRequest "John" "Husband" 2001) singleHeadStore in
  statusCode r.1 = 201%nat
  ∧ believers r.2 !! 3%nat ≫= (.!! "spouseId") = Some (JId 2)
  ∧ believers r.2 !! 2%nat ≫= (.!! "spouseId") = Some (JId 3)
  ∧ believers r.2 !! 2%nat ≫= (.!! "maritalStatus") = Some (JStr "Married")
  ∧ believers r.2 !! 2%nat ≫= (.!! "spouseName") = Some (JStr "John")
  ∧ believers r.2 !! 3%nat ≫= (.!! "spouseName") = Some (JStr "Mary").
Proof.
  destruct (addMember_spouse_linked ageIn2026 singleHeadStore 1 2
              (sampleFamily "FAM-0001" 2) (memberRequest "John" "Husband" 2001)
              (sampleBeliever 1 true "Mary" "Self" 2002 "Single" JNull) "Mary"
              eq_refl eq_refl eq_refl eq_refl eq_refl eq_refl eq_refl eq_refl eq_refl
              eq_refl eq_refl)
    as (member & B & H & Hres & HB & HH & H1 & H2 & H3 & _).
  cbv zeta. split; [by rewrite Hres|].
  split; [cbn [nextId singleHeadStore] in HB; by rewrite HB|].
  split; [by rewrite HH|]. split; [by rewrite HH|].
  split; reflexivity.
Defined.

(** ** Updating a believer *)

(** When the update clears spouseId, the document that updateBeliever
    reads to find the former spouse is the one it has just written: its
    spouseId is already null, and no other believer is written. *)
Lemma writeUpdate_clear_keeps_others (id : ObjectId) (u : obj) (s : Store) (j : ObjectId) :
  u !! "spouseId" = Some JNull →
  j ≠ id →
  believers (writeUpdate id u s).2 !! j = believers s !! j.
Proof.
  intros Hu Hj. unfold writeUpdate.
  set (u' := if isStr (u !! "baptized") "No" then _ else u).
  assert (Hu' : u' !! "spouseId" = Some JNull).
  { unfold u'. destruct (isStr (u !! "baptized") "No"); [|done].
    by rewrite lookup_insert_ne. }
  destruct (validUpdate believerSchema u'); simpl; [|done].
  destruct (findOne (believers s) id false) as [d|]; simpl; [|done].
  rewrite Hu'. cbn [truthy]. rewrite bool_decide_eq_true_2 by done.
  unfold findById, findByIdAndUpdate. rewrite lookup_alter_eq.
  assert (Hnull : getOpt (applyUpdate believerSchema u' <$> believers s !! id) "spouseId"
                  = match believers s !! id with Some _ => Some JNull | None => None end).
  { destruct (believers s !! id) as [d'|]; simpl; [|done].
    by rewrite lookup_applyUpdate, Hu'. }
  rewrite Hnull.
  destruct (believers s !! id); simpl; by rewrite lookup_alter_ne.
Qed.

(** C2: John (3) and Mary (2) are each other's spouse.  Clearing John's
    spouseId through an empty string, or moving his date of birth so
    that he is 15, leaves him without spouse (and, in the second case,
    Single), but Mary's spouseId still names him: the reciprocal side is
    not cleared. *)
Theorem updateBeliever_backlink_kept :
  (let r := updateBeliever ageIn2026 3 (object [("spouseId", Some (JStr EmptyString))])
              coupleStore in
   statusCode r.1 = 200%nat
   ∧ believers r.2 !! 3%nat ≫= (.!! "spouseId") = Some JNull
   ∧ believers r.2 !! 2%nat ≫= (.!! "spouseId") = Some (JId 3))
  ∧ (let r := updateBeliever ageIn2026 3 (object [("dob", Some (JDate 2011))])
                coupleStore in
     statusCode r.1 = 200%nat
     ∧ believers r.2 !! 3%nat ≫= (.!! "maritalStatus") = Some (JStr "Single")
     ∧ believers r.2 !! 3%nat ≫= (.!! "spouseId") = Some JNull
     ∧ believers r.2 !! 2%nat ≫= (.!! "spouseId") = Some (JId 3)).
Proof.
  repeat split; reflexivity.
Qed.

(** ** Deleting a believer *)

(** C7: deleting a head that is not in the trash is refused with status
    409 and code IS_HEAD, and the store is left as it was; deleting a
    believer that is no head marks it deleted at the time of the
    request and, when it has a spouse, clears the spouse's spouseId and
    sets the spouse's spouseName to the name of the deleted believer. *)
Theorem deleteBeliever_head_guard (now : Date) (s : Store) (id : ObjectId) (b : obj) :
  believers s !! id = Some b →
  b !! "isDeleted" = Some (JBool false) →
  (b !! "isHead" = Some (JBool true) →
   deleteBeliever now id s
   = (Json 409 (Some "IS_HEAD")
        "This member is the family head. Assign a new head before deleting." NoData, s))
  ∧ (truthy (b !! "isHead") = false →
     statusCode (deleteBeliever now id s).1 = 200%nat
     ∧ families (deleteBeliever now id s).2 = families s
     ∧ believers (deleteBeliever now id s).2 !! id ≫= (.!! "isDeleted") = Some (JBool true)
     ∧ believers (deleteBeliever now id s).2 !! id ≫= (.!! "deletedAt") = Some (JDate now)
     ∧ ∀ sid sp n,
         b !! "spouseId" = Some (JId sid) →
         believers s !! sid = Some sp →
         b !! "fullName" = Some (JStr n) →
         trim n = n →
         believers (deleteBeliever now id s).2 !! sid ≫= (.!! "spouseId") = Some JNull
         ∧ believers (deleteBeliever now id s).2 !! sid ≫= (.!! "spouseName")
           = Some (JStr n)).
Proof.
  intros Hb Hdel. unfold deleteBeliever.
  rewrite (findOne_found _ _ _ _ Hb Hdel). split.
  - intros Hh. by rewrite Hh.
  - intros Hh. rewrite Hh.
    set (cur := <["deletedAt" := JDate now]> (<["isDeleted" := JBool true]> b)).
    set (b1 := savePaths ["isDeleted"; "deletedAt"] b cur b).
    set (bels1 := alter _ id (believers s)).
    assert (H1 : bels1 !! id = Some b1).
    { unfold bels1. by rewrite lookup_alter_eq, Hb. }
    assert (Hd1 : b1 !! "isDeleted" = Some (JBool true)).
    { unfold b1. rewrite lookup_savePaths_loaded, decide_True by in_names.
      unfold cur. rewrite lookup_insert_ne by done. apply lookup_insert_eq. }
    assert (Ht1 : b1 !! "deletedAt" = Some (JDate now)).
    { unfold b1. rewrite lookup_savePaths_loaded, decide_True by in_names.
      apply lookup_insert_eq. }
    assert (Hsp : cur !! "spouseId" = b !! "spouseId").
    { unfold cur. by rewrite !lookup_insert_ne. }
    assert (Hfn : cur !! "fullName" = b !! "fullName").
    { unfold cur. by rewrite !lookup_insert_ne. }
    rewrite Hsp, Hfn.
    set (u := object [("spouseId", Some JNull); ("spouseName", b !! "fullName")]).
    assert (Hframe : ∀ k, u !! k = None →
              (if truthy (b !! "spouseId") then updateById (b !! "spouseId") u bels1
               else bels1) !! id ≫= (.!! k) = b1 !! k).
    { intros k Hk. destruct (truthy (b !! "spouseId")).
      - by rewrite updateById_frame, H1.
      - by rewrite H1. }
    simpl. split; [done|]. split; [done|].
    split; [by rewrite Hframe by (unfold u; by rewrite lookup_object)|].
    split; [by rewrite Hframe by (unfold u; by rewrite lookup_object)|].
    intros sid sp n Hs Hsp' Hn Htrim. rewrite Hs. cbn [truthy].
    rewrite lookup_updateById_eq.
    assert (Hsome : ∃ d, bels1 !! sid = Some d).
    { destruct (decide (sid = id)) as [->|Hne]; [by eauto|].
      exists sp. unfold bels1. by rewrite lookup_alter_ne. }
    destruct Hsome as [d ->]. simpl.
    rewrite !lookup_applyUpdate. unfold u. rewrite !lookup_object. simpl.
    rewrite Hn. unfold castValue. simpl. by rewrite Htrim.
Qed.

(** John, who is no head, is moved to the trash, and Mary keeps his name. *)
Lemma deleteBeliever_head_guard_witness :
  believers coupleStore !! 3%nat = Some john
  ∧ john !! "isDeleted" = Some (JBool false)
  ∧ truthy (john !! "isHead") = false
  ∧ statusCode (deleteBeliever 7 3 coupleStore).1 = 200%nat
  ∧ believers (deleteBeliever 7 3 coupleStore).2 !! 3%nat ≫= (.!! "isDeleted")
    = Some (JBool true)
  ∧ believers (deleteBeliever 7 3 coupleStore).2 !! 2%nat ≫= (.!! "spouseId") = Some JNull
  ∧ believers (deleteBeliever 7 3 coupleStore).2 !! 2%nat ≫= (.!! "spouseName")
    = Some (JStr "John").
Proof.
  destruct (deleteBeliever_head_guard 7 coupleStore 3 john eq_refl eq_refl) as [_ H].
  destruct (H eq_refl) as (H200 & _ & Hdel & _ & Hsp).
  destruct (Hsp 2%nat mary "John" eq_refl eq_refl eq_refl eq_refl) as [Hid Hname].
  repeat split; assumption || reflexivity.
Defined.

(** ** Permanent deletion *)

(** C10: for a believer in the trash, permanentDeleteBeliever removes
    the record and answers 200 whether or not it is a head, and so does
    emptyBelieverTrash for every trashed believer; neither writes a
    family, so a family whose headId is this believer keeps a headId
    that finds nothing. *)
Theorem permanentDelete_leaves_families (s : Store) (id : ObjectId) (b : obj) :
  believers s !! id = Some b →
  b !! "isDeleted" = Some (JBool true) →
  (statusCode (permanentDeleteBeliever id s).1 = 200%nat
   ∧ believers (permanentDeleteBeliever id s).2 = delete id (believers s)
   ∧ families (permanentDeleteBeliever id s).2 = families s)
  ∧ (statusCode (emptyBelieverTrash s).1 = 200%nat
     ∧ believers (emptyBelieverTrash s).2 !! id = None
     ∧ (∀ j d, believers s !! j = Some d → d !! "isDeleted" ≠ Some (JBool true) →
               believers (emptyBelieverTrash s).2 !! j = Some d)
     ∧ families (emptyBelieverTrash s).2 = families s)
  ∧ (∀ fid f, families s !! fid = Some f → f !! "headId" = Some (JId id) →
       families (permanentDeleteBeliever id s).2 !! fid = Some f
       ∧ findById (believers (permanentDeleteBeliever id s).2) (f !! "headId") = None
       ∧ families (emptyBelieverTrash s).2 !! fid = Some f
       ∧ findById (believers (emptyBelieverTrash s).2) (f !! "headId") = None).
Proof.
  intros Hb Hdel.
  assert (Hempty : believers (emptyBelieverTrash s).2 !! id = None).
  { simpl. eapply lookup_deleteMany_None; [exact Hb|]. by apply bool_decide_eq_true. }
  assert (Hperm : permanentDeleteBeliever id s
                  = (Json 200 None (template (b !! "fullName")
                                    +:+ " permanently deleted.") NoData,
                     setBelievers (delete id (believers s)) s)).
  { unfold permanentDeleteBeliever. by rewrite (findOne_found _ _ _ _ Hb Hdel). }
  rewrite Hperm. simpl. split; [done|]. split.
  - split; [done|]. split; [exact Hempty|]. split; [|done].
    intros j d Hj Hd. apply lookup_deleteMany_Some. split; [done|].
    by apply bool_decide_eq_false.
  - intros fid f Hf Hh. rewrite Hh. simpl.
    split; [done|]. split; [apply lookup_delete_eq|]. split; [done | exact Hempty].
Qed.

(** The head of the trashed sample family is removed, and the family
    still names it. *)
Lemma permanentDelete_leaves_families_witness :
  (statusCode (permanentDeleteBeliever 2 trashedStore).1 = 200%nat
   ∧ believers (permanentDeleteBeliever 2 trashedStore).2 = delete 2%nat (believers trashedStore)
   ∧ families (permanentDeleteBeliever 2 trashedStore).2 = families trashedStore)
  ∧ believers trashedStore !! 2%nat ≫= (.!! "isHead") = Some (JBool true).
Proof.
  split; [|reflexivity].
  eapply (permanentDelete_leaves_families trashedStore 2); reflexivity.
Defined.

(** ** Deleting and restoring a family *)

Lemma lookup_updateMany (P : obj → bool) (g : obj → obj) (c : gmap ObjectId obj)
    (i : ObjectId) :
  updateMany P g c !! i = (λ d, if P d then g d else d) <$> c !! i.
Proof. apply lookup_fmap. Qed.

(** Saving a family whose isDeleted flag was flipped, as long as the
    index accepts the code. *)
Lemma saveFamily_deleted (id : ObjectId) (f cur : obj) (fams : gmap ObjectId obj) :
  f !! "isDeleted" = Some (JBool false) →
  cur !! "isDeleted" = Some (JBool true) →
  cur !! "familyCode" = f !! "familyCode" →
  ∃ this,
    saveFamily id f cur fams
    = Some (alter (savePaths ["familyCode"; "isDeleted"; "deletedAt"; "headId"] f this) id fams)
    ∧ this !! "familyCode"
      = (if truthy (f !! "familyCode") then Some JNull else f !! "familyCode")
    ∧ ∀ k, k ≠ "familyCode" → this !! k = cur !! k.
Proof.
  intros Hf Hcur Hcode. unfold saveFamily.
  rewrite (bool_decide_eq_true_2 (f !! "isDeleted" ≠ cur !! "isDeleted"))
    by (rewrite Hf, Hcur; discriminate).
  unfold preSave. cbn [andb]. rewrite Hcur, Hcode. cbn [truthy andb].
  destruct (truthy (f !! "familyCode")) eqn:Ht.
  - exists (<["familyCode" := JNull]> cur). rewrite lookup_insert_eq.
    cbn [codeFree]. rewrite orb_true_r. split; [done|]. split; [done|].
    intros k Hk. by rewrite lookup_insert_ne.
  - exists cur. rewrite Hcode, bool_decide_eq_true_2 by done. by cbn [orb].
Qed.

Lemma saveFamily_restored (id : ObjectId) (f cur : obj) (c : string)
    (fams : gmap ObjectId obj) :
  f !! "isDeleted" = Some (JBool true) →
  cur !! "isDeleted" = Some (JBool false) →
  cur !! "familyCode" = Some (JStr c) →
  codeFree id (Some (JStr c)) fams = true →
  saveFamily id f cur fams
  = Some (alter (savePaths ["familyCode"; "isDeleted"; "deletedAt"; "headId"] f cur) id fams).
Proof.
  intros Hf Hcur Hcode Hfree. unfold saveFamily.
  rewrite (bool_decide_eq_true_2 (f !! "isDeleted" ≠ cur !! "isDeleted"))
    by (rewrite Hf, Hcur; discriminate).
  unfold preSave. cbn [andb]. rewrite Hcur. cbn [truthy andb].
  by rewrite Hcode, Hfree, orb_true_r.
Qed.

(** The soft delete of a family that is not in the trash. *)
Lemma deleteFamily_spec (now : Date) (s : Store) (fid : ObjectId) (f : obj) :
  findOne (families s) fid false = Some f →
  ∃ f1,
    deleteFamily now fid s
    = (Json 200 None "Family moved to trash." NoData,
       mkStore (<[fid := f1]> (families s))
         (updateMany
            (λ d, bool_decide (d !! "familyId" = Some (JId fid)
                               ∧ d !! "isDeleted" = Some (JBool false)))
            (λ d, <["deletedAt" := JDate now]> (<["isDeleted" := JBool true]> d))
            (believers s))
         (nextId s))
    ∧ f1 !! "isDeleted" = Some (JBool true)
    ∧ f1 !! "deletedAt" = Some (JDate now)
    ∧ f1 !! "familyCode"
      = (if truthy (f !! "familyCode") then Some JNull else f !! "familyCode")
    ∧ ∀ k, k ∉ ["familyCode"; "isDeleted"; "deletedAt"] → f1 !! k = f !! k.
Proof.
  intros Hfind. unfold deleteFamily. rewrite Hfind.
  apply findOne_Some in Hfind as [Hf Hdel].
  set (cur := <["deletedAt" := JDate now]> (<["isDeleted" := JBool true]> f)).
  destruct (saveFamily_deleted fid f cur (families s)) as (this & -> & Hcode & Hthis).
  { done. }
  { unfold cur. rewrite lookup_insert_ne by done. apply lookup_insert_eq. }
  { unfold cur. by rewrite !lookup_insert_ne. }
  set (ks := ["familyCode"; "isDeleted"; "deletedAt"; "headId"]).
  exists (savePaths ks f this f). split.
  { do 2 f_equal. apply map_eq. intros i.
    destruct (decide (fid = i)) as [<-|Hne].
    - by rewrite lookup_alter_eq, lookup_insert_eq, Hf.
    - by rewrite lookup_alter_ne, lookup_insert_ne. }
  rewrite !lookup_savePaths_loaded.
  rewrite !decide_True by (unfold ks; in_names).
  rewrite !Hthis by done. unfold cur.
  split; [rewrite lookup_insert_ne by done; apply lookup_insert_eq|].
  split; [apply lookup_insert_eq|]. split; [exact Hcode|].
  intros k Hk. rewrite lookup_savePaths_loaded.
  destruct (decide (k ∈ ks)) as [Hin|]; [|done].
  assert (k = "headId") as ->.
  { apply list_elem_of_In in Hin. simpl in Hin.
    destruct Hin as [<-|[<-|[<-|[<-|[]]]]]; try done; exfalso; apply Hk; in_names. }
  rewrite Hthis by done. unfold cur. by rewrite !lookup_insert_ne.
Qed.

(** The restore of a family that is in the trash, when the index
    accepts the new code. *)
Lemma restoreFamily_spec (s : Store) (fid : ObjectId) (f : obj) :
  findOne (families s) fid true = Some f →
  codeFree fid (Some (JStr (famCode (countDocuments (families s))))) (families s) = true →
  ∃ f2,
    restoreFamily fid s
    = (Json 200 None
         ("Family restored with new code: " +:+ famCode (countDocuments (families s))) NoData,
       mkStore (<[fid := f2]> (families s))
         (updateMany
            (λ d, bool_decide (d !! "familyId" = Some (JId fid)
                               ∧ d !! "isDeleted" = Some (JBool true)))
            (λ d, delete "deletedAt" (<["isDeleted" := JBool false]> d))
            (believers s))
         (nextId s))
    ∧ f2 !! "isDeleted" = Some (JBool false)
    ∧ f2 !! "deletedAt" = None
    ∧ f2 !! "familyCode" = Some (JStr (famCode (countDocuments (families s))))
    ∧ ∀ k, k ∉ ["familyCode"; "isDeleted"; "deletedAt"] → f2 !! k = f !! k.
Proof.
  intros Hfind Hfree. unfold restoreFamily. rewrite Hfind.
  apply findOne_Some in Hfind as [Hf Hdel].
  set (code := famCode (countDocuments (families s))) in *.
  set (cur := <["familyCode" := JStr code]>
                (delete "deletedAt" (<["isDeleted" := JBool false]> f))).
  assert (Hc1 : cur !! "isDeleted" = Some (JBool false)).
  { unfold cur. rewrite lookup_insert_ne, lookup_delete_ne by done. apply lookup_insert_eq. }
  assert (Hc2 : cur !! "familyCode" = Some (JStr code)) by apply lookup_insert_eq.
  assert (Hc3 : cur !! "deletedAt" = None).
  { unfold cur. rewrite lookup_insert_ne by done. apply lookup_delete_eq. }
  rewrite (saveFamily_restored fid f cur code (families s) Hdel Hc1 Hc2 Hfree).
  set (ks := ["familyCode"; "isDeleted"; "deletedAt"; "headId"]).
  exists (savePaths ks f cur f). split.
  { do 2 f_equal. apply map_eq. intros i.
    destruct (decide (fid = i)) as [<-|Hne].
    - by rewrite lookup_alter_eq, lookup_insert_eq, Hf.
    - by rewrite lookup_alter_ne, lookup_insert_ne. }
  rewrite !lookup_savePaths_loaded.
  rewrite !decide_True by (unfold ks; in_names).
  split; [done|]. split; [done|]. split; [done|].
  intros k Hk. rewrite lookup_savePaths_loaded.
  destruct (decide (k ∈ ks)) as [Hin|]; [|done].
  assert (k = "headId") as ->.
  { apply list_elem_of_In in Hin. simpl in Hin.
    destruct Hin as [<-|[<-|[<-|[<-|[]]]]]; try done; exfalso; apply Hk; in_names. }
  unfold cur. by rewrite lookup_insert_ne, lookup_delete_ne, lookup_insert_ne.
Qed.

(** C6, as amended: a family that is not in the trash is soft-deleted
    (its code is cleared, its members are deleted with the time of the
    request); when the index accepts the code that the restore derives
    from the count of the families that are not deleted, the restore
    succeeds, the family is back with isDeleted false, no deletedAt and
    that code, and the believers deleted with it are back with isDeleted
    false and no deletedAt. *)
Theorem deleteFamily_restoreFamily (now : Date) (s : Store) (fid : ObjectId) (f : obj) :
  findOne (families s) fid false = Some f →
  codeFree fid (Some (JStr (famCode (countDocuments (families (deleteFamily now fid s).2)))))
    (families (deleteFamily now fid s).2) = true →
  statusCode (deleteFamily now fid s).1 = 200%nat
  ∧ families (deleteFamily now fid s).2 !! fid ≫= (.!! "isDeleted") = Some (JBool true)
  ∧ (truthy (f !! "familyCode") = true →
     families (deleteFamily now fid s).2 !! fid ≫= (.!! "familyCode") = Some JNull)
  ∧ statusCode (restoreFamily fid (deleteFamily now fid s).2).1 = 200%nat
  ∧ families (restoreFamily fid (deleteFamily now fid s).2).2 !! fid ≫= (.!! "isDeleted")
    = Some (JBool false)
  ∧ families (restoreFamily fid (deleteFamily now fid s).2).2 !! fid ≫= (.!! "deletedAt")
    = None
  ∧ families (restoreFamily fid (deleteFamily now fid s).2).2 !! fid ≫= (.!! "familyCode")
    = Some (JStr (famCode (countDocuments (families (deleteFamily now fid s).2))))
  ∧ ∀ bid b,
      believers s !! bid = Some b →
      b !! "familyId" = Some (JId fid) →
      b !! "isDeleted" = Some (JBool false) →
      believers (deleteFamily now fid s).2 !! bid ≫= (.!! "isDeleted") = Some (JBool true)
      ∧ believers (deleteFamily now fid s).2 !! bid ≫= (.!! "deletedAt") = Some (JDate now)
      ∧ believers (restoreFamily fid (deleteFamily now fid s).2).2 !! bid
          ≫= (.!! "isDeleted") = Some (JBool false)
      ∧ believers (restoreFamily fid (deleteFamily now fid s).2).2 !! bid
          ≫= (.!! "deletedAt") = None.
Proof.
  intros Hfind.
  destruct (deleteFamily_spec now s fid f Hfind) as (f1 & Heq & Hdel1 & Hat1 & Hcode1 & _).
  set (s1 := mkStore _ _ _) in Heq. rewrite Heq. clear Heq.
  cbn [fst snd statusCode]. intros Hfree.
  assert (Hf1 : families s1 !! fid = Some f1) by apply lookup_insert_eq.
  destruct (restoreFamily_spec s1 fid f1 (findOne_found _ _ _ _ Hf1 Hdel1) Hfree)
    as (f2 & Heq & Hdel2 & Hat2 & Hcode2 & _).
  rewrite Heq, Hf1. clear Heq Hfree.
  cbn [fst snd families believers statusCode].
  rewrite !lookup_insert_eq. cbn [mbind option_bind].
  split; [done|]. split; [done|].
  split; [intros Ht; by rewrite Hcode1, Ht|].
  split; [done|]. split; [done|]. split; [done|]. split; [done|].
  intros bid b Hb Hfam Hbdel. unfold s1. cbn [believers].
  rewrite !lookup_updateMany, Hb. cbn [fmap option_fmap option_map mbind option_bind].
  rewrite (bool_decide_eq_true_2 (b !! "familyId" = Some (JId fid) ∧ _)) by done.
  set (b1 := <["deletedAt" := JDate now]> (<["isDeleted" := JBool true]> b)).
  assert (Hb1 : b1 !! "isDeleted" = Some (JBool true)).
  { unfold b1. rewrite lookup_insert_ne by done. apply lookup_insert_eq. }
  assert (Hb2 : b1 !! "familyId" = Some (JId fid)).
  { unfold b1. by rewrite !lookup_insert_ne. }
  rewrite bool_decide_eq_true_2 by done.
  split; [done|]. split; [apply lookup_insert_eq|].
  split; [rewrite lookup_delete_ne by done; apply lookup_insert_eq | apply lookup_delete_eq].
Qed.

(** The only family of the sample store goes to the trash and comes
    back; John and Mary come back with it. *)
Lemma deleteFamily_restoreFamily_witness :
  findOne (families coupleStore) 1 false = Some (sampleFamily "FAM-0001" 2)
  ∧ statusCode (restoreFamily 1 (deleteFamily 7 1 coupleStore).2).1 = 200%nat
  ∧ families (restoreFamily 1 (deleteFamily 7 1 coupleStore).2).2 !! 1%nat
      ≫= (.!! "isDeleted") = Some (JBool false)
  ∧ believers (restoreFamily 1 (deleteFamily 7 1 coupleStore).2).2 !! 3%nat
      ≫= (.!! "isDeleted") = Some (JBool false).
Proof.
  assert (Hfree : codeFree 1
            (Some (JStr (famCode (countDocuments (families (deleteFamily 7 1 coupleStore).2)))))
            (families (deleteFamily 7 1 coupleStore).2) = true) by reflexivity.
  destruct (deleteFamily_restoreFamily 7 coupleStore 1 (sampleFamily "FAM-0001" 2)
              eq_refl Hfree) as (_ & _ & _ & H200 & Hdel & _ & _ & Hbel).
  destruct (Hbel 3%nat john eq_refl eq_refl eq_refl) as (_ & _ & Hback & _).
  repeat split; assumption || reflexivity.
Defined.

(** C6 as stated fails: the only family of the store has code FAM-0001;
    after the soft delete no family is counted, and the restore assigns
    FAM-0001 again. *)
Lemma roundTrip_same_code : ¬ roundTripFreshCode 7 1 coupleStore.
Proof.
  intros H.
  destruct (H (sampleFamily "FAM-0001" 2) "FAM-0001" eq_refl eq_refl)
    as (f2 & c2 & Hf2 & _ & Hc & Hne & _).
  assert (Hcode : families (restoreFamily 1 (deleteFamily 7 1 coupleStore).2).2 !! 1%nat
                    ≫= (.!! "familyCode") = Some (JStr "FAM-0001")) by reflexivity.
  rewrite Hf2 in Hcode. cbn [mbind option_bind] in Hcode.
  rewrite Hc in Hcode. injection Hcode as ->. by apply Hne.
Qed.

(** With two families, the restore of the first one derives FAM-0002,
    the code of the second: the index refuses the save, and the family
    stays in the trash. *)
Lemma restoreFamily_code_collision :
  let s1 := (deleteFamily 7 1 twoFamilies).2 in
  restoreFamily 1 s1 = (Thrown "MongoServerError" "E11000 duplicate key error", s1)
  ∧ families s1 !! 1%nat ≫= (.!! "isDeleted") = Some (JBool true).
Proof. split; reflexivity. Qed.

(** ** The head of a family *)

Lemma keeps_refl (ks : list string) (bels : gmap ObjectId obj) : keeps ks bels bels.
Proof. intros id. destruct (bels !! id); constructor. by intros k _. Qed.

Lemma keeps_trans (ks : list string) (b1 b2 b3 : gmap ObjectId obj) :
  keeps ks b1 b2 → keeps ks b2 b3 → keeps ks b1 b3.
Proof.
  intros H12 H23 id. specialize (H12 id). specialize (H23 id).
  destruct H12 as [x y Hxy|]; inversion H23 as [y' z Hyz|]; subst; constructor.
  intros k Hk. by rewrite (Hyz k Hk), (Hxy k Hk).
Qed.

Lemma keeps_mono (ks ks' : list string) (bels bels' : gmap ObjectId obj) :
  (∀ k, k ∈ ks' → k ∈ ks) → keeps ks bels bels' → keeps ks' bels bels'.
Proof.
  intros Hsub H id. destruct (H id) as [x y Hxy|]; constructor.
  intros k Hk. apply Hxy, Hsub, Hk.
Qed.

Lemma keeps_alter (ks : list string) (f : obj → obj) (id : ObjectId)
    (bels : gmap ObjectId obj) :
  (∀ b, bels !! id = Some b → agreeOn ks b (f b)) →
  keeps ks bels (alter f id bels).
Proof.
  intros Hf j. destruct (decide (id = j)) as [<-|Hne].
  - rewrite lookup_alter_eq. destruct (bels !! id) as [b|] eqn:Hb; constructor. by apply Hf.
  - rewrite lookup_alter_ne by done. apply keeps_refl.
Qed.

Lemma agreeOn_applyUpdate (ks : list string) (u b : obj) :
  (∀ k, k ∈ ks → u !! k = None) → agreeOn ks b (applyUpdate believerSchema u b).
Proof. intros Hu k Hk. by rewrite lookup_applyUpdate, (Hu k Hk). Qed.

Lemma keeps_updateById (ks : list string) (v : jsv) (u : obj) (bels : gmap ObjectId obj) :
  (∀ k, k ∈ ks → u !! k = None) → keeps ks bels (updateById v u bels).
Proof.
  intros Hu. destruct v as [[| | | |i]|]; try apply keeps_refl.
  apply keeps_alter. intros b _. by apply agreeOn_applyUpdate.
Qed.

Lemma keeps_updateMany (ks : list string) (P : obj → bool) (g : obj → obj)
    (bels : gmap ObjectId obj) :
  (∀ b, agreeOn ks b (g b)) → keeps ks bels (updateMany P g bels).
Proof.
  intros Hg id. rewrite lookup_updateMany.
  destruct (bels !! id) as [b|]; constructor.
  destruct (P b); [apply Hg | by intros k _].
Qed.

Lemma agreeOn_savePaths (ks saved : list string) (loaded cur b : obj) :
  (∀ k, k ∈ ks → k ∉ saved) → agreeOn ks b (savePaths saved loaded cur b).
Proof.
  intros Hks k Hk. rewrite lookup_savePaths. by rewrite decide_False by by apply Hks.
Qed.

Lemma keeps_keepsFamily (fid : ObjectId) (bels bels' : gmap ObjectId obj) :
  keeps coreKeys bels bels' → keepsFamily fid bels bels'.
Proof.
  intros H id. destruct (H id) as [b b' Hag|]; constructor.
  split; [apply Hag; in_names|]. intros _. split; apply Hag; in_names.
Qed.

(** The link of a family to its head survives every change of the
    believers that keeps their family and, in this family, isHead and
    relationship, when the head stays in the trash exactly when the
    family is. *)
Lemma headOk_keeps (bels bels' : gmap ObjectId obj) (fid : ObjectId) (f f' : obj) :
  keepsFamily fid bels bels' →
  headOk bels fid f →
  f' !! "headId" = f !! "headId" →
  (∀ h hb hb', f !! "headId" = Some (JId h) → bels !! h = Some hb → bels' !! h = Some hb' →
               hb' !! "isDeleted" = f' !! "isDeleted") →
  headOk bels' fid f'.
Proof.
  intros Hk (h & hb & Hh & Hb & Hfam & Hhead & Hrel & Hdel & Huniq) Hid Hflag.
  pose proof (Hk h) as Hkh. rewrite Hb in Hkh.
  inversion Hkh as [x hb' [Hf' Hag] Hx Hb'|]; subst x. symmetry in Hb'.
  destruct (Hag Hfam) as [Hag1 Hag2].
  exists h, hb'. split; [congruence|]. split; [done|].
  rewrite Hf', Hag1, Hag2.
  split; [done|]. split; [done|]. split; [done|].
  split; [by apply (Hflag h hb)|].
  intros b' bd' Hbd' Hfb' Hhb'.
  pose proof (Hk b') as Hkb. rewrite Hbd' in Hkb.
  inversion Hkb as [bd y [Hfd Hagd] Hbd Hy|]; subst y. symmetry in Hbd.
  rewrite Hfd in Hfb'. destruct (Hagd Hfb') as [Hd1 _].
  apply (Huniq b' bd Hbd); [done|]. by rewrite <- Hd1.
Qed.

Lemma headOk_insert_fresh (bels : gmap ObjectId obj) (fid n : ObjectId) (f m : obj) :
  bels !! n = None →
  m !! "isHead" ≠ Some (JBool true) →
  headOk bels fid f →
  headOk (<[n := m]> bels) fid f.
Proof.
  intros Hn Hm (h & hb & Hh & Hb & Hfam & Hhead & Hrel & Hdel & Huniq).
  exists h, hb. split; [done|].
  split; [rewrite lookup_insert_ne by congruence; done|].
  do 4 (split; [done|]).
  intros b' bd Hbd Hf' Hh'.
  destruct (decide (n = b')) as [<-|Hne].
  - rewrite lookup_insert_eq in Hbd. congruence.
  - rewrite lookup_insert_ne in Hbd by done. by apply (Huniq b' bd).
Qed.

(** The invariant gives the head invariant of the specification, but
    for the members that keep the relationship Self. *)
Lemma headLinked_oneHead (s : Store) : headLinked s → oneHeadPerFamily s.
Proof.
  intros [_ Hfam] fid f Hf Hdel.
  destruct (Hfam fid f Hf) as (h & hb & Hh & Hb & Hfid & Hhead & Hrel & Hd & Huniq).
  exists h. split; [|split].
  - exists hb. repeat split; try done. by rewrite Hd.
  - intros h' (b & Hb' & _ & Hhead' & Hfid'). by apply (Huniq h' b).
  - by rewrite Hb.
Qed.

(** The invariant survives every change of the believers that keeps
    their family, isHead and relationship, adds no id, and keeps the
    heads where they are, in the trash or out of it. *)
Lemma headLinked_keeps (s s' : Store) :
  headLinked s →
  families s' = families s →
  (nextId s ≤ nextId s')%nat →
  keeps coreKeys (believers s) (believers s') →
  (∀ id b b', believers s !! id = Some b → believers s' !! id = Some b' →
              b !! "isHead" = Some (JBool true) →
              b' !! "isDeleted" = b !! "isDeleted") →
  headLinked s'.
Proof.
  intros [Hids Hfam] Hf Hn Hk Hdel. split.
  - intros bid b' Hb'. pose proof (Hk bid) as Hkb. rewrite Hb' in Hkb.
    inversion Hkb as [b y Hag Hb Hy|]; subst. symmetry in Hb.
    specialize (Hids bid b Hb). lia.
  - intros fid f Hfid. rewrite Hf in Hfid.
    pose proof (Hfam fid f Hfid) as Hok.
    apply (headOk_keeps (believers s) (believers s') fid f f); try done.
    + by apply keeps_keepsFamily.
    + intros h hb hb' Hh Hb Hb'.
      destruct Hok as (h0 & hb0 & Hh0 & Hb0 & _ & Hhead & _ & Hd & _).
      assert (h0 = h) as -> by congruence.
      assert (hb0 = hb) as -> by congruence.
      by rewrite (Hdel h hb hb' Hb Hb' Hhead).
Qed.

(** The same for a change that keeps isDeleted as well. *)
Lemma headLinked_keeps_headKeys (s s' : Store) :
  headLinked s →
  families s' = families s →
  (nextId s ≤ nextId s')%nat →
  keeps headKeys (believers s) (believers s') →
  headLinked s'.
Proof.
  intros Hs Hf Hn Hk. apply (headLinked_keeps s s'); try done.
  - apply (keeps_mono headKeys); [|done]. intros k Hk'.
    apply list_elem_of_In in Hk'. apply list_elem_of_In. simpl in *. tauto.
  - intros id b b' Hb Hb' _. pose proof (Hk id) as Hkb. rewrite Hb, Hb' in Hkb.
    inversion Hkb as [x y Hag|]; subst. apply Hag. in_names.
Qed.

(** *** The requests on believers keep the invariant *)

Lemma deleteBeliever_headLinked (now : Date) (id : ObjectId) (s : Store) :
  headLinked s → headLinked (deleteBeliever now id s).2.
Proof.
  intros Hs. unfold deleteBeliever.
  destruct (findOne (believers s) id false) as [believer|] eqn:Hfind; [|done].
  apply findOne_Some in Hfind as [Hb Hdel].
  destruct (truthy (believer !! "isHead")) eqn:Hhead; [done|].
  set (cur := <["deletedAt" := JDate now]> (<["isDeleted" := JBool true]> believer)).
  set (bels1 := alter _ id (believers s)).
  set (u := object [("spouseId", Some JNull); ("spouseName", cur !! "fullName")]).
  set (bels2 := if truthy (cur !! "spouseId") then updateById (cur !! "spouseId") u bels1
                else bels1).
  assert (Hu : ∀ k, k ∈ headKeys → u !! k = None).
  { intros k Hk. unfold u. rewrite lookup_object.
    apply list_elem_of_In in Hk. simpl in Hk.
    destruct Hk as [<-|[<-|[<-|[<-|[]]]]]; reflexivity. }
  assert (H12 : keeps headKeys bels1 bels2).
  { unfold bels2. destruct (truthy (cur !! "spouseId")); [|apply keeps_refl].
    by apply keeps_updateById. }
  assert (H01 : keeps coreKeys (believers s) bels1).
  { apply keeps_alter. intros b _. apply agreeOn_savePaths.
    intros k Hk Hin. apply list_elem_of_In in Hk, Hin. simpl in Hk, Hin.
    destruct Hk as [<-|[<-|[<-|[]]]]; destruct Hin as [?|[?|[]]]; discriminate. }
  apply (headLinked_keeps s); cbn [snd families nextId believers setBelievers]; try done.
  - apply (keeps_trans _ _ bels1); [done|].
    apply (keeps_mono headKeys); [|done]. intros k Hk.
    apply list_elem_of_In in Hk. apply list_elem_of_In. simpl in *. tauto.
  - intros j b b' Hj Hj' Hh.
    destruct (decide (j = id)) as [->|Hne].
    { rewrite Hb in Hj. injection Hj as <-. by rewrite Hh in Hhead. }
    pose proof (H12 j) as Hkj. rewrite Hj' in Hkj.
    unfold bels1 in Hkj. rewrite lookup_alter_ne, Hj in Hkj by done.
    inversion Hkj as [x y Hag|]; subst. apply Hag. in_names.
Qed.

Lemma restoreBeliever_headLinked (id : ObjectId) (s : Store) :
  headLinked s → headLinked (restoreBeliever id s).2.
Proof.
  intros Hs. unfold restoreBeliever.
  destruct (findOne (believers s) id true) as [believer|] eqn:Hfind; [|done].
  apply findOne_Some in Hfind as [Hb Hdel].
  destruct (believer !! "familyId") as [[| | | |fid]|] eqn:Hfam; try done.
  destruct (findOne (families s) fid false) as [family|] eqn:Hffind; [|done].
  apply findOne_Some in Hffind as [Hf Hfdel].
  apply (headLinked_keeps s); cbn [snd families nextId believers setBelievers]; try done.
  - apply keeps_alter. intros b _. apply agreeOn_savePaths.
    intros k Hk Hin. apply list_elem_of_In in Hk, Hin. simpl in Hk, Hin.
    destruct Hk as [<-|[<-|[<-|[]]]]; destruct Hin as [?|[?|[]]]; discriminate.
  - intros j b b' Hj Hj' Hh.
    destruct (decide (j = id)) as [->|Hne].
    + rewrite Hb in Hj. injection Hj as <-. exfalso.
      destruct Hs as [_ Hfams].
      destruct (Hfams fid family Hf) as (h & hb & _ & Hhb & _ & _ & _ & Hd & Huniq).
      rewrite (Huniq id believer Hb Hfam Hh) in Hb. congruence.
    + rewrite lookup_alter_ne, Hj in Hj' by done. congruence.
Qed.

Lemma sanitize_fold_None (raw : obj) (keys : list string) (data : obj) (k : string) :
  k ∉ keys → data !! k = None → fold_left (sanitizeKey raw) keys data !! k = None.
Proof.
  revert data. induction keys as [|key keys IH]; intros data Hk Hd; [done|].
  simpl. apply IH.
  - intros Hin. apply Hk. apply elem_of_cons. by right.
  - assert (Hne : key ≠ k) by (intros ->; apply Hk; apply elem_of_cons; by left).
    unfold sanitizeKey. destruct (raw !! key) as [v|]; [|done].
    repeat match goal with
           | |- context [if ?c then _ else _] => destruct c
           end; try done; by rewrite lookup_insert_ne.
Qed.

Lemma sanitizeUpdateData_None (raw : obj) (k : string) :
  k ∉ EDITABLE_FIELDS → sanitizeUpdateData raw !! k = None.
Proof. intros Hk. by apply sanitize_fold_None. Qed.

Lemma under18_headKeys (age : jsage) (u : obj) :
  (∀ k, k ∈ headKeys → u !! k = None) →
  ∀ k, k ∈ headKeys → under18 age u !! k = None.
Proof.
  intros Hu k Hk. unfold under18. destruct (ageLt age 18); [|by apply Hu].
  pose proof (Hu k Hk) as Hnone.
  apply list_elem_of_In in Hk. simpl in Hk.
  destruct Hk as [<-|[<-|[<-|[<-|[]]]]];
    by rewrite lookup_delete_ne, !lookup_insert_ne.
Qed.

Lemma writeUpdate_headLinked (id : ObjectId) (u : obj) (s : Store) :
  (∀ k, k ∈ headKeys → u !! k = None) →
  headLinked s → headLinked (writeUpdate id u s).2.
Proof.
  intros Hu Hs. unfold writeUpdate.
  set (u' := if isStr (u !! "baptized") "No" then _ else u).
  assert (Hu' : ∀ k, k ∈ headKeys → u' !! k = None).
  { intros k Hk. unfold u'. destruct (isStr (u !! "baptized") "No"); [|by apply Hu].
    pose proof (Hu k Hk) as Hnone. apply list_elem_of_In in Hk. simpl in Hk.
    destruct Hk as [<-|[<-|[<-|[<-|[]]]]]; by rewrite lookup_insert_ne. }
  destruct (validUpdate believerSchema u'); [|done]. cbn [negb].
  destruct (findOne (believers s) id false) as [d|]; [|done].
  set (bels1 := findByIdAndUpdate believerSchema id u' (believers s)).
  assert (H01 : keeps headKeys (believers s) bels1).
  { apply (keeps_updateById headKeys (Some (JId id))). exact Hu'. }
  assert (Hobj : ∀ v k, k ∈ headKeys → object [("spouseId", v)] !! k = None).
  { intros v k Hk. rewrite lookup_object. apply list_elem_of_In in Hk. simpl in Hk.
    destruct Hk as [<-|[<-|[<-|[<-|[]]]]]; reflexivity. }
  apply (headLinked_keeps_headKeys s); cbn [snd families nextId believers setBelievers];
    try done.
  apply (keeps_trans _ _ bels1); [done|].
  destruct (truthy (u' !! "spouseId")); [apply keeps_updateById, Hobj|].
  destruct (bool_decide (u' !! "spouseId" = Some JNull)); [|apply keeps_refl].
  destruct (truthy (getOpt (findById bels1 (Some (JId id))) "spouseId"));
    [apply keeps_updateById, Hobj | apply keeps_refl].
Qed.

Lemma updateBeliever_headLinked (diffYears : Date → Z) (id : ObjectId) (body : obj)
    (s : Store) :
  headLinked s → headLinked (updateBeliever diffYears id body s).2.
Proof.
  intros Hs. unfold updateBeliever.
  destruct (0 <? length _)%nat; [done|].
  assert (Hu : ∀ k, k ∈ headKeys → sanitizeUpdateData body !! k = None).
  { intros k Hk. apply sanitizeUpdateData_None. intros Hin.
    apply list_elem_of_In in Hk, Hin. simpl in Hk, Hin.
    destruct Hk as [<-|[<-|[<-|[<-|[]]]]];
      repeat (destruct Hin as [Hin|Hin]; [discriminate|]); done. }
  destruct (truthy (sanitizeUpdateData body !! "phone") && _); [done|].
  destruct (truthy (sanitizeUpdateData body !! "dob")).
  - apply writeUpdate_headLinked; [|done]. by apply under18_headKeys.
  - destruct (findById (believers s) (Some (JId id))); [|done].
    apply writeUpdate_headLinked; [|done]. by apply under18_headKeys.
Qed.

(** *** Adding a member keeps the invariant *)

Lemma memberData_isHead (fid : ObjectId) (data : obj) (age : jsage) (sp : jsval) (md : obj) :
  memberData fid data age sp = Some md → md !! "isHead" = Some (JBool false).
Proof.
  unfold memberData. destruct (trimOrUndefined (data !! "email")) as [email|]; [|done].
  intros Heq. apply (inj Some) in Heq. subst md.
  destruct (isStr (data !! "occupationCategory") "Student"
            && truthy (data !! "educationLevel"));
    rewrite ?lookup_setProp, ?decide_False by done;
    rewrite lookup_object; reflexivity.
Qed.

Lemma createMember_headLinked (family : obj) (fid : ObjectId) (data : obj) (age : jsage)
    (auto : bool) (s : Store) :
  headLinked s → headLinked (createMember family fid data age auto s).2.
Proof.
  intros Hs. unfold createMember.
  set (spouseId := if negb auto && _ && _ then _ else JNull).
  destruct (memberData fid data age spouseId) as [md|] eqn:Hmd; [|done].
  destruct (newDoc believerSchema md) as [member|] eqn:Hnew; [|done].
  set (n := nextId s). set (bels1 := <[n := member]> (believers s)).
  assert (Hhead : member !! "isHead" = Some (JBool false)).
  { by rewrite (lookup_newDoc _ _ _ _ Hnew), (memberData_isHead _ _ _ _ _ Hmd). }
  assert (Hfresh : believers s !! n = None).
  { destruct (believers s !! n) as [b|] eqn:Hb; [|done].
    destruct Hs as [Hids _]. specialize (Hids n b Hb). unfold n in Hids. lia. }
  assert (H1 : headLinked (mkStore (families s) bels1 (S n))).
  { destruct Hs as [Hids Hfam]. split; cbn [believers families nextId].
    - intros bid b Hb. unfold bels1 in Hb.
      destruct (decide (n = bid)) as [<-|Hne]; [lia|].
      rewrite lookup_insert_ne in Hb by done. specialize (Hids bid b Hb). unfold n. lia.
    - intros g fg Hg. apply headOk_insert_fresh; [done | congruence | by apply Hfam]. }
  assert (Hobj : ∀ l k, k ∈ headKeys →
            (∀ kv, kv ∈ l → kv.1 ∈ ["spouseId"; "spouseName"; "maritalStatus"]) →
            object l !! k = None).
  { intros l k Hk Hl. rewrite lookup_object.
    induction l as [|kv l IH]; [done|]. simpl.
    destruct (String.eqb_spec kv.1 k) as [Heq|Hne].
    - exfalso. specialize (Hl kv (list_elem_of_here _ _)). rewrite Heq in Hl.
      apply list_elem_of_In in Hk, Hl. simpl in Hk, Hl.
      destruct Hk as [<-|[<-|[<-|[<-|[]]]]];
        repeat (destruct Hl as [Hl|Hl]; [discriminate|]); done.
    - apply IH. intros kv' Hin. apply Hl. by apply list_elem_of_further. }
  apply (headLinked_keeps_headKeys _ _ H1); cbn [snd families nextId believers]; try done.
  fold bels1.
  destruct auto.
  - change (findByIdAndUpdate believerSchema n ?u ?c) with (updateById (Some (JId n)) u c).
    eapply keeps_trans; apply keeps_updateById; intros k Hk; apply Hobj; try done;
      intros kv Hkv; apply list_elem_of_In in Hkv; simpl in Hkv;
      repeat (destruct Hkv as [<-|Hkv]; [in_names|]); done.
  - destruct (truthy (Some spouseId)); [|apply keeps_refl].
    apply keeps_updateById. intros k Hk. apply Hobj; [done|].
    intros kv Hkv. apply list_elem_of_In in Hkv. simpl in Hkv.
    destruct Hkv as [<-|[]]. in_names.
Qed.

(** addMember either returns the store as it was, or goes on to
    [Believer.create]. *)
Lemma addMember_cases (diffYears : Date → Z) (fid : ObjectId) (data : obj) (s : Store) :
  (addMember diffYears fid data s).2 = s
  ∨ ∃ family data' age auto,
      addMember diffYears fid data s = createMember family fid data' age auto s.
Proof.
  unfold addMember.
  destruct (findOne (families s) fid false) as [family|]; [|by left].
  destruct (blank (data !! "fullName")) as [[|]|]; [by left | | by left].
  destruct (negb (truthy (data !! "dob"))); [by left|].
  destruct (negb (truthy (data !! "gender"))); [by left|].
  destruct (negb (truthy (data !! "relationshipToHead"))
            || isStr (data !! "relationshipToHead") "Self"); [by left|].
  destruct (if isStr (data !! "relationshipToHead") "Other"
            then blank (data !! "relationCustom") else Some false) as [[|]|];
    [by left | | by left].
  destruct (negb (truthy (data !! "memberType"))); [by left|].
  destruct (negb (truthy (data !! "occupationCategory"))); [by left|].
  destruct (validateBelieverFields data); [by left|].
  set (age := calcAgeIST diffYears (data !! "dob")).
  set (isSpouse := isSpouseRelation (data !! "relationshipToHead")).
  destruct (ageLt age 18 && isSpouse); [by left|].
  set (data1 := if ageLt age 18 then forceSingle data else data).
  destruct (isSpouse && ageGe age 18).
  - destruct (findById (believers s) (family !! "headId")) as [head|]; [|by left].
    destruct (truthy (head !! "spouseId")); [by left|]. right. by eauto.
  - destruct (negb isSpouse && ageGe age 18); [|right; by eauto].
    destruct (negb (truthy (data1 !! "maritalStatus"))); [by left|].
    destruct (isStr (data1 !! "maritalStatus") "Married" && _ && _); [by left|].
    right. by eauto.
Qed.

Lemma addMember_headLinked (diffYears : Date → Z) (fid : ObjectId) (data : obj) (s : Store) :
  headLinked s → headLinked (addMember diffYears fid data s).2.
Proof.
  intros Hs. destruct (addMember_cases diffYears fid data s)
    as [-> | (family & data' & age & auto & ->)]; [done|].
  by apply createMember_headLinked.
Qed.

(** *** The requests on families keep the invariant *)

Lemma alter_insert_found (f : obj → obj) (id : ObjectId) (d : obj) (c : gmap ObjectId obj) :
  c !! id = Some d → alter f id c = <[id := f d]> c.
Proof.
  intros Hd. apply map_eq. intros i. destruct (decide (id = i)) as [<-|Hne].
  - by rewrite lookup_alter_eq, lookup_insert_eq, Hd.
  - by rewrite lookup_alter_ne, lookup_insert_ne.
Qed.

(** A cascade: the family [fid] moves into the trash or out of it, and
    the believers of the family that were where the family was move
    with it. *)
Lemma cascade_headLinked (s : Store) (fid : ObjectId) (f f1 : obj) (flag : bool)
    (g : obj → obj) :
  headLinked s →
  families s !! fid = Some f →
  f !! "isDeleted" = Some (JBool flag) →
  f1 !! "headId" = f !! "headId" →
  f1 !! "isDeleted" = Some (JBool (negb flag)) →
  (∀ b, agreeOn coreKeys b (g b)) →
  (∀ b, g b !! "isDeleted" = Some (JBool (negb flag))) →
  headLinked
    (mkStore (<[fid := f1]> (families s))
       (updateMany (λ d, bool_decide (d !! "familyId" = Some (JId fid)
                                      ∧ d !! "isDeleted" = Some (JBool flag)))
          g (believers s))
       (nextId s)).
Proof.
  intros [Hids Hfam] Hf Hflag Hhead Hflag1 Hg Hgdel.
  set (P := λ d : obj, bool_decide (d !! "familyId" = Some (JId fid)
                                    ∧ d !! "isDeleted" = Some (JBool flag))).
  assert (Hkeep : keeps coreKeys (believers s) (updateMany P g (believers s))).
  { by apply keeps_updateMany. }
  split; cbn [believers families nextId].
  - intros bid b' Hb'. pose proof (Hkeep bid) as Hk. rewrite Hb' in Hk.
    inversion Hk as [b y Hag Hb Hy|]; subst. symmetry in Hb. by apply (Hids bid b).
  - intros g0 fg Hg0. destruct (decide (fid = g0)) as [<-|Hne].
    + rewrite lookup_insert_eq in Hg0. injection Hg0 as <-.
      pose proof (Hfam fid f Hf) as Hok.
      apply (headOk_keeps (believers s) _ fid f f1); try done.
      { by apply keeps_keepsFamily. }
      intros h hb hb' Hh Hb Hb'.
      destruct Hok as (h0 & hb0 & Hh0 & Hb0 & Hfid & _ & _ & Hd & _).
      assert (h0 = h) as -> by congruence.
      assert (hb0 = hb) as -> by congruence.
      rewrite lookup_updateMany, Hb in Hb'. cbn in Hb'. injection Hb' as <-.
      unfold P. rewrite bool_decide_eq_true_2 by (split; congruence).
      by rewrite Hgdel, Hflag1.
    + rewrite lookup_insert_ne in Hg0 by done.
      pose proof (Hfam g0 fg Hg0) as Hok.
      apply (headOk_keeps (believers s) _ g0 fg fg); try done.
      { by apply keeps_keepsFamily. }
      intros h hb hb' Hh Hb Hb'.
      destruct Hok as (h0 & hb0 & Hh0 & Hb0 & Hfid & _ & _ & Hd & _).
      assert (h0 = h) as -> by congruence.
      assert (hb0 = hb) as -> by congruence.
      rewrite lookup_updateMany, Hb in Hb'. cbn in Hb'. injection Hb' as <-.
      unfold P. rewrite bool_decide_eq_false_2; [done|].
      intros [Hfid' _]. congruence.
Qed.

Lemma agreeOn_core_flag (b : obj) (v : jsval) (t : obj → obj) :
  (∀ d k, k ≠ "deletedAt" → t d !! k = d !! k) →
  agreeOn coreKeys b (t (<["isDeleted" := v]> b)).
Proof.
  intros Ht k Hk. apply list_elem_of_In in Hk. simpl in Hk.
  destruct Hk as [<-|[<-|[<-|[]]]]; by rewrite Ht, lookup_insert_ne.
Qed.

Lemma deleteFamily_headLinked (now : Date) (fid : ObjectId) (s : Store) :
  headLinked s → headLinked (deleteFamily now fid s).2.
Proof.
  intros Hs.
  destruct (findOne (families s) fid false) as [f|] eqn:Hfind.
  2: { unfold deleteFamily. by rewrite Hfind. }
  destruct (deleteFamily_spec now s fid f Hfind) as (f1 & -> & Hdel1 & _ & _ & Hrest).
  apply findOne_Some in Hfind as [Hf Hdel].
  apply (cascade_headLinked s fid f f1 false); try done.
  - apply Hrest. intros Hin. apply list_elem_of_In in Hin. simpl in Hin.
    repeat (destruct Hin as [Hin|Hin]; [discriminate|]). done.
  - intros b. apply (agreeOn_core_flag b _ (λ d, <["deletedAt" := JDate now]> d)).
    intros d k Hk. by rewrite lookup_insert_ne.
  - intros b. rewrite lookup_insert_ne by done. apply lookup_insert_eq.
Qed.

Lemma saveFamily_restored_cases (id : ObjectId) (f cur : obj) (fams : gmap ObjectId obj) :
  f !! "isDeleted" = Some (JBool true) →
  cur !! "isDeleted" = Some (JBool false) →
  saveFamily id f cur fams = None
  ∨ saveFamily id f cur fams
    = Some (alter (savePaths ["familyCode"; "isDeleted"; "deletedAt"; "headId"] f cur)
              id fams).
Proof.
  intros Hf Hcur. unfold saveFamily.
  rewrite (bool_decide_eq_true_2 (f !! "isDeleted" ≠ cur !! "isDeleted"))
    by (rewrite Hf, Hcur; discriminate).
  unfold preSave. cbn [andb]. rewrite Hcur. cbn [truthy andb].
  destruct (_ || _); [by right | by left].
Qed.

Lemma restoreFamily_headLinked (fid : ObjectId) (s : Store) :
  headLinked s → headLinked (restoreFamily fid s).2.
Proof.
  intros Hs. unfold restoreFamily.
  destruct (findOne (families s) fid true) as [f|] eqn:Hfind; [|done].
  apply findOne_Some in Hfind as [Hf Hdel].
  set (cur := <["familyCode" := _]> (delete "deletedAt" (<["isDeleted" := JBool false]> f))).
  assert (Hc1 : cur !! "isDeleted" = Some (JBool false)).
  { unfold cur. rewrite lookup_insert_ne, lookup_delete_ne by done. apply lookup_insert_eq. }
  destruct (saveFamily_restored_cases fid f cur (families s) Hdel Hc1) as [-> | ->]; [done|].
  cbn [snd]. rewrite (alter_insert_found _ _ _ _ Hf).
  apply (cascade_headLinked s fid f _ true); try done.
  - rewrite lookup_savePaths_loaded, decide_True by in_names.
    unfold cur. by rewrite lookup_insert_ne, lookup_delete_ne, lookup_insert_ne.
  - by rewrite lookup_savePaths_loaded, decide_True by in_names.
  - intros b. apply (agreeOn_core_flag b _ (λ d, delete "deletedAt" d)).
    intros d k Hk. by rewrite lookup_delete_ne.
  - intros b. rewrite lookup_delete_ne by done. apply lookup_insert_eq.
Qed.

Lemma saveFamily_unflagged (id : ObjectId) (f cur : obj) (fams : gmap ObjectId obj) :
  cur !! "isDeleted" = f !! "isDeleted" →
  cur !! "familyCode" = f !! "familyCode" →
  saveFamily id f cur fams
  = Some (alter (savePaths ["familyCode"; "isDeleted"; "deletedAt"; "headId"] f cur) id fams).
Proof.
  intros Hdel Hcode. unfold saveFamily.
  rewrite (bool_decide_eq_false_2 (f !! "isDeleted" ≠ cur !! "isDeleted"))
    by (intros Hne; by apply Hne).
  unfold preSave. cbn [andb].
  by rewrite (bool_decide_eq_true_2 (f !! "familyCode" = cur !! "familyCode")).
Qed.

Lemma assignNewHead_headLinked (fid : ObjectId) (body : obj) (s : Store) :
  headLinked s →
  ¬ reassignsHead (AssignNewHead fid body) s →
  headLinked (assignNewHead fid body s).2.
Proof.
  intros Hs Hnot. unfold assignNewHead.
  destruct (negb (truthy (body !! "newHeadId"))); [done|].
  destruct (findOne (families s) fid false) as [family|] eqn:Hfind; [|done].
  apply findOne_Some in Hfind as [Hf Hfdel].
  destruct (body !! "newHeadId") as [[| | | |nid]|] eqn:Hnid; try done.
  destruct (findOne (believers s) nid false) as [newHead|] eqn:Hnfind; [|done].
  apply findOne_Some in Hnfind as [Hnb Hndel].
  destruct (bool_decide (newHead !! "familyId" = Some (JId fid))) eqn:Hq; [|done].
  apply bool_decide_eq_true_1 in Hq.
  destruct Hs as [Hids Hfam].
  destruct (Hfam fid family Hf) as (h & hb & Hh & Hb & Hhfid & Hhhead & Hhrel & Hhdel & Huniq).
  assert (Hne : h ≠ nid).
  { intros ->. apply Hnot. exists family. split; [done|]. by rewrite Hnid. }
  rewrite Hh. cbn [truthy].
  rewrite saveFamily_unflagged by (by rewrite lookup_insert_ne).
  cbn [snd]. rewrite (alter_insert_found _ _ _ _ Hf).
  set (cur := <["relationshipToHead" := JStr "Self"]> (<["isHead" := JBool true]> newHead)).
  set (f' := savePaths _ family (<["headId" := JId nid]> family) family).
  set (bels1 := updateById (Some (JId h)) (object [("isHead", Some (JBool false))])
                  (believers s)).
  set (b2 := savePaths ["isHead"; "relationshipToHead"] newHead cur newHead).
  set (hb1 := applyUpdate believerSchema (object [("isHead", Some (JBool false))]) hb).
  set (bels2 := alter _ nid bels1).
  assert (HA : bels2 !! nid = Some b2).
  { unfold bels2, bels1. rewrite lookup_alter_eq, lookup_updateById_ne by congruence.
    by rewrite Hnb. }
  assert (HB : bels2 !! h = Some hb1).
  { unfold bels2, bels1. rewrite lookup_alter_ne, lookup_updateById_eq by done.
    by rewrite Hb. }
  assert (HC : ∀ j, j ≠ h → j ≠ nid → bels2 !! j = believers s !! j).
  { intros j Hj1 Hj2. unfold bels2, bels1.
    rewrite lookup_alter_ne, lookup_updateById_ne by congruence. done. }
  assert (Hb2 : ∀ k, k ≠ "isHead" → k ≠ "relationshipToHead" → b2 !! k = newHead !! k).
  { intros k Hk1 Hk2. unfold b2. rewrite lookup_savePaths_loaded.
    rewrite decide_False; [done|]. intros Hin. apply list_elem_of_In in Hin. simpl in Hin.
    destruct Hin as [?|[?|[]]]; congruence. }
  assert (Hb2h : b2 !! "isHead" = Some (JBool true)).
  { unfold b2. rewrite lookup_savePaths_loaded, decide_True by in_names.
    unfold cur. rewrite lookup_insert_ne by done. apply lookup_insert_eq. }
  assert (Hb2r : b2 !! "relationshipToHead" = Some (JStr "Self")).
  { unfold b2. rewrite lookup_savePaths_loaded, decide_True by in_names.
    apply lookup_insert_eq. }
  assert (Hhb1 : ∀ k, k ≠ "isHead" → hb1 !! k = hb !! k).
  { intros k Hk. unfold hb1. rewrite lookup_applyUpdate, lookup_object.
    cbn [assoc fst snd].
    destruct (String.eqb_spec "isHead" k); [congruence | done]. }
  assert (Hhb1h : hb1 !! "isHead" = Some (JBool false)).
  { unfold hb1. by rewrite lookup_applyUpdate, lookup_object. }
  assert (Hf'h : f' !! "headId" = Some (JId nid)).
  { unfold f'. rewrite lookup_savePaths_loaded, decide_True by in_names.
    apply lookup_insert_eq. }
  assert (Hf'd : f' !! "isDeleted" = family !! "isDeleted").
  { unfold f'. rewrite lookup_savePaths_loaded, decide_True by in_names.
    by rewrite lookup_insert_ne. }
  clearbody bels2 b2 hb1 f'. clear bels1 cur.
  split; cbn [believers families nextId].
  - intros j b Hj. destruct (decide (j = nid)) as [->|Hj2]; [by apply (Hids nid newHead)|].
    destruct (decide (j = h)) as [->|Hj1]; [by apply (Hids h hb)|].
    rewrite HC in Hj by done. by apply (Hids j b).
  - intros g fg Hg. destruct (decide (fid = g)) as [<-|Hgne].
    + rewrite lookup_insert_eq in Hg. injection Hg as <-.
      exists nid, b2. split; [done|]. split; [done|].
      split; [by rewrite Hb2|]. split; [done|]. split; [done|].
      split; [rewrite Hb2 by done; congruence|].
      intros j bd Hj Hjf Hjh.
      destruct (decide (j = nid)) as [->|Hj2]; [done|].
      destruct (decide (j = h)) as [->|Hj1]; [congruence|].
      rewrite HC in Hj by done. exfalso. apply Hj1. by apply (Huniq j bd).
    + rewrite lookup_insert_ne in Hg by done.
      pose proof (Hfam g fg Hg) as Hok.
      apply (headOk_keeps (believers s) bels2 g fg fg); [ | exact Hok | reflexivity | ].
      * intros j. destruct (decide (j = nid)) as [->|Hj2].
        { rewrite Hnb, HA. constructor. split; [by apply Hb2|].
          intros Hfg. congruence. }
        destruct (decide (j = h)) as [->|Hj1].
        { rewrite Hb, HB. constructor. split; [by apply Hhb1|].
          intros Hfg. congruence. }
        rewrite HC by done. destruct (believers s !! j); constructor. by split.
      * intros h0 hb0 hb' Hh0 Hb0 Hb'.
        destruct Hok as (hg & hbg & Hhg & Hbg & Hgfid & _ & _ & Hgd & _).
        assert (hg = h0) as -> by congruence.
        assert (hbg = hb0) as -> by congruence.
        rewrite HC in Hb' by congruence. congruence.
Qed.

(** Assigning as head the believer that already is the head: the
    update demotes it, and the save that follows finds no modified path
    (both assignments give the loaded values) and writes nothing, so
    that the family is left without an isHead believer. *)
Lemma assignNewHead_current_head :
  let r := assignNewHead 1 (object [("newHeadId", Some (JId 2))]) coupleStore in
  statusCode r.1 = 200%nat
  ∧ believers r.2 !! 2%nat ≫= (.!! "isHead") = Some (JBool false)
  ∧ believers r.2 !! 3%nat ≫= (.!! "isHead") = Some (JBool false).
Proof. repeat split; reflexivity. Qed.

(** *** Every request keeps the invariant *)

Lemma handle_headLinked (diffYears : Date → Z) (r : request) (s : Store) :
  headLinked s → ¬ reassignsHead r s → headLinked (handle diffYears r s).2.
Proof.
  intros Hs Hnot. destruct r as [body|fid body|id body|fid body|now id|id|now id|id];
    cbn [handle].
  - by rewrite (proj1 (createFamily_cases body s)).
  - by apply addMember_headLinked.
  - by apply updateBeliever_headLinked.
  - by apply assignNewHead_headLinked.
  - by apply deleteBeliever_headLinked.
  - by apply restoreBeliever_headLinked.
  - by apply deleteFamily_headLinked.
  - by apply restoreFamily_headLinked.
Qed.

Lemma reachable_headLinked (s0 s : Store) :
  headLinked s0 → reachable s0 s → headLinked s.
Proof.
  intros H0 Hreach. induction Hreach as [|s diffYears r _ IH Hnot]; [done|].
  by apply handle_headLinked.
Qed.

(** C1, as amended: from a store in which every family names as headId
    its only isHead believer (of relationship Self, in the trash
    exactly when the family is) and whose ids are below the id counter,
    every store reached by createFamily, addMember, updateBeliever,
    assignNewHead to a believer other than the named head, and the
    soft delete and restore of believers and families has, for every
    family that is not deleted, exactly one believer that is not
    deleted, isHead and of that family, and the relationship of that
    believer is Self. *)
Theorem reachable_oneHeadPerFamily (s0 s : Store) :
  headLinked s0 → reachable s0 s → oneHeadPerFamily s.
Proof.
  intros H0 Hreach. apply headLinked_oneHead. by apply (reachable_headLinked s0).
Qed.

(** The fields of the sample believers. *)
Lemma mary_fields :
  mary !! "familyId" = Some (JId 1) ∧ mary !! "isHead" = Some (JBool true)
  ∧ mary !! "relationshipToHead" = Some (JStr "Self")
  ∧ mary !! "isDeleted" = Some (JBool false).
Proof. repeat split; reflexivity. Qed.

Lemma john_fields :
  john !! "familyId" = Some (JId 1) ∧ john !! "isHead" = Some (JBool false)
  ∧ john !! "relationshipToHead" = Some (JStr "Husband")
  ∧ john !! "isDeleted" = Some (JBool false).
Proof. repeat split; reflexivity. Qed.

Lemma coupleStore_believers (j : ObjectId) (b : obj) :
  believers coupleStore !! j = Some b → (j = 2%nat ∧ b = mary) ∨ (j = 3%nat ∧ b = john).
Proof.
  unfold coupleStore. cbn [believers].
  intros [[<- <-] | [_ [<- <-]%lookup_singleton_Some]]%lookup_insert_Some; auto.
Qed.

Lemma coupleStore_families (g : ObjectId) (f : obj) :
  families coupleStore !! g = Some f → g = 1%nat ∧ f = sampleFamily "FAM-0001" 2.
Proof.
  unfold coupleStore. cbn [families]. intros [<- <-]%lookup_singleton_Some. done.
Qed.

Lemma coupleStore_headLinked : headLinked coupleStore.
Proof.
  destruct mary_fields as (Hm1 & Hm2 & Hm3 & Hm4).
  destruct john_fields as (Hj1 & Hj2 & Hj3 & Hj4).
  split.
  - intros j b [[-> _] | [-> _]]%coupleStore_believers; cbn [nextId coupleStore]; lia.
  - intros g f [-> ->]%coupleStore_families.
    exists 2%nat, mary. split; [reflexivity|]. split; [reflexivity|].
    split; [exact Hm1|]. split; [exact Hm2|]. split; [exact Hm3|].
    split; [by rewrite Hm4|].
    intros j b [[-> ->] | [-> ->]]%coupleStore_believers _ Hh; [reflexivity|].
    rewrite Hj2 in Hh. discriminate.
Qed.

(** In the sample family, John (3) is made head in place of Mary (2):
    the family still has one head. *)
Lemma reachable_oneHeadPerFamily_witness :
  headLinked coupleStore
  ∧ oneHeadPerFamily
      (assignNewHead 1 (object [("newHeadId", Some (JId 3))]) coupleStore).2.
Proof.
  split; [exact coupleStore_headLinked|].
  apply (reachable_oneHeadPerFamily coupleStore); [exact coupleStore_headLinked|].
  apply (reach_step coupleStore coupleStore ageIn2026
           (AssignNewHead 1 (object [("newHeadId", Some (JId 3))]))).
  - apply reach_init.
  - intros (f & [_ ->]%coupleStore_families & Hh).
    assert (Hl : sampleFamily "FAM-0001" 2 !! "headId" = Some (JId 2)) by reflexivity.
    assert (Hr : object [("newHeadId", Some (JId 3))] !! "newHeadId" = Some (JId 3))
      by reflexivity.
    rewrite Hl, Hr in Hh. discriminate.
Defined.

(** C1 as stated fails: the sample store satisfies the head invariant,
    and after assignNewHead makes John the head, Mary has isHead false
    and still the relationship Self. *)
Lemma assignNewHead_leaves_Self :
  headInvariant coupleStore
  ∧ ¬ headInvariant (assignNewHead 1 (object [("newHeadId", Some (JId 3))]) coupleStore).2.
Proof.
  destruct mary_fields as (Hm1 & Hm2 & Hm3 & Hm4).
  destruct john_fields as (Hj1 & Hj2 & Hj3 & Hj4).
  split.
  - split; [exact (headLinked_oneHead _ coupleStore_headLinked)|].
    intros j b [[-> ->] | [-> ->]]%coupleStore_believers Hh Hr.
    + rewrite Hm2 in Hh. discriminate.
    + rewrite Hj3 in Hr. discriminate.
  - intros [_ Hno].
    set (s1 := (assignNewHead 1 (object [("newHeadId", Some (JId 3))]) coupleStore).2) in *.
    assert (Hb : believers s1 !! 2%nat = Some (default ∅ (believers s1 !! 2%nat)))
      by reflexivity.
    apply (Hno 2%nat _ Hb); reflexivity.
Qed.

(** * Further properties *)

(** ** Sanitizing an update *)

Lemma sanitizeUpdateData_unfold (raw : obj) :
  sanitizeUpdateData raw = fold_left (sanitizeKey raw) EDITABLE_FIELDS ∅.
Proof. reflexivity. Qed.

(** What one step of sanitizeUpdateData leaves under a key. *)
Lemma lookup_sanitizeKey (raw data : obj) (key k : string) :
  sanitizeKey raw data key !! k
  = if decide (key = k)
    then match raw !! k with
         | None => data !! k
         | Some v =>
             if String.eqb k "spouseId" then
               Some (if isStr (Some v) EmptyString || isStr (Some v) "null" then JNull else v)
             else if (String.eqb k "educationLevel" || String.eqb k "weddingDate")
                     && isStr (Some v) EmptyString
             then data !! k else Some v
         end
    else data !! k.
Proof.
  unfold sanitizeKey. destruct (decide (key = k)) as [->|Hne].
  - destruct (raw !! k) as [v|]; [|done].
    destruct (String.eqb k "spouseId"); [by rewrite lookup_insert_eq|].
    destruct (String.eqb k "educationLevel"); cbn [orb andb].
    { destruct (isStr (Some v) EmptyString); [done|by rewrite lookup_insert_eq]. }
    destruct (String.eqb k "weddingDate"); cbn [andb].
    { destruct (isStr (Some v) EmptyString); [done|by rewrite lookup_insert_eq]. }
    by rewrite lookup_insert_eq.
  - destruct (raw !! key) as [v|]; [|done].
    destruct (String.eqb key "spouseId"); [by rewrite lookup_insert_ne|].
    destruct (String.eqb key "educationLevel").
    { destruct (isStr (Some v) EmptyString); [done|by rewrite lookup_insert_ne]. }
    destruct (String.eqb key "weddingDate").
    { destruct (isStr (Some v) EmptyString); [done|by rewrite lookup_insert_ne]. }
    by rewrite lookup_insert_ne.
Qed.

Lemma sanitize_fold_lookup (raw : obj) (keys : list string) (data : obj) (k : string) :
  data !! k = None →
  fold_left (sanitizeKey raw) keys data !! k
  = if decide (k ∈ keys)
    then match raw !! k with
         | None => None
         | Some v =>
             if String.eqb k "spouseId" then
               Some (if isStr (Some v) EmptyString || isStr (Some v) "null" then JNull else v)
             else if (String.eqb k "educationLevel" || String.eqb k "weddingDate")
                     && isStr (Some v) EmptyString
             then None else Some v
         end
    else None.
Proof.
  set (val := match raw !! k with None => None | Some v => _ end).
  intros Hd.
  assert (Hgen : ∀ d, d !! k = None ∨ d !! k = val →
            fold_left (sanitizeKey raw) keys d !! k
            = if decide (k ∈ keys) then val else d !! k).
  { clear data Hd. induction keys as [|key r IH]; intros d Hd; cbn [fold_left].
    { rewrite decide_False; [done|]. apply not_elem_of_nil. }
    assert (Hstep : sanitizeKey raw d key !! k
                    = if decide (key = k) then val else d !! k).
    { rewrite lookup_sanitizeKey. destruct (decide (key = k)) as [->|]; [|done].
      unfold val in *. destruct (raw !! k) as [v|].
      - destruct (String.eqb k "spouseId"); [done|].
        destruct (_ && _); [|done]. by destruct Hd.
      - by destruct Hd. }
    rewrite IH.
    - destruct (decide (k ∈ r)) as [Hr|Hr].
      + rewrite decide_True; [done|]. by apply list_elem_of_further.
      + rewrite Hstep. destruct (decide (key = k)) as [->|Hne].
        * rewrite decide_True; [done|]. apply list_elem_of_here.
        * rewrite decide_False; [done|]. intros [->|]%elem_of_cons; done.
    - rewrite Hstep. destruct (decide (key = k)); [by right|done]. }
  rewrite Hgen by (by left). rewrite Hd. reflexivity.
Qed.

(** The value that sanitizeUpdateData gives to a key. *)
Lemma lookup_sanitizeUpdateData (raw : obj) (k : string) :
  sanitizeUpdateData raw !! k
  = if decide (k ∈ EDITABLE_FIELDS)
    then match raw !! k with
         | None => None
         | Some v =>
             if String.eqb k "spouseId" then
               Some (if isStr (Some v) EmptyString || isStr (Some v) "null" then JNull else v)
             else if (String.eqb k "educationLevel" || String.eqb k "weddingDate")
                     && isStr (Some v) EmptyString
             then None else Some v
         end
    else None.
Proof. rewrite sanitizeUpdateData_unfold. apply sanitize_fold_lookup, lookup_empty. Qed.

(** The editable keys that sanitizeUpdateData hands on as they are. *)
Lemma sanitizeUpdateData_plain (raw : obj) (k : string) :
  k ∈ [ "fullName"; "dob"; "gender"; "phone"; "email"; "memberType"; "membershipStatus";
        "joinDate"; "baptized"; "baptizedDate"; "maritalStatus"; "spouseName";
        "occupationCategory" ] →
  sanitizeUpdateData raw !! k = raw !! k.
Proof.
  intros Hk. rewrite lookup_sanitizeUpdateData.
  apply list_elem_of_In in Hk. cbn [In] in Hk.
  repeat (destruct Hk as [<-|Hk];
          [rewrite decide_True by in_names; by destruct (raw !! _)|]).
  destruct Hk.
Qed.

(** X1: whatever the body of the request, the update that
    sanitizeUpdateData builds holds editable keys only; every key but
    spouseId holds the value of the body, and spouseId, educationLevel
    and weddingDate never hold the empty string.  Every editable key
    other than spouseId whose value is not the empty string is handed
    on. *)
Theorem sanitizeUpdateData_whitelist (raw : obj) (k : string) (v : jsval) :
  (sanitizeUpdateData raw !! k = Some v →
   k ∈ EDITABLE_FIELDS
   ∧ (k ≠ "spouseId" → raw !! k = Some v)
   ∧ (k ∈ ["spouseId"; "educationLevel"; "weddingDate"] → v ≠ JStr EmptyString))
  ∧ (k ∈ EDITABLE_FIELDS → k ≠ "spouseId" → raw !! k = Some v → v ≠ JStr EmptyString →
     sanitizeUpdateData raw !! k = Some v).
Proof.
  rewrite lookup_sanitizeUpdateData. split.
  - destruct (decide (k ∈ EDITABLE_FIELDS)) as [Hin|]; [|done].
    destruct (raw !! k) as [w|]; [|done].
    destruct (String.eqb k "spouseId") eqn:E1.
    + apply String.eqb_eq in E1 as ->. intros Hv. apply (inj Some) in Hv.
      split; [done|]. split; [done|]. intros _. subst v.
      destruct (isStr (Some w) EmptyString || isStr (Some w) "null") eqn:E; [done|].
      intros ->. by cbn in E.
    + destruct (_ && _) eqn:E2; [done|]. intros Hv. apply (inj Some) in Hv. subst w.
      split; [done|]. split; [done|]. intros Hk Hv. subst v.
      apply list_elem_of_In in Hk. cbn [In] in Hk.
      destruct Hk as [Hk|[Hk|[Hk|[]]]]; rewrite <- Hk in *.
      * by rewrite String.eqb_refl in E1.
      * cbn in E2. discriminate E2.
      * cbn in E2. discriminate E2.
  - intros Hin Hk Hraw Hv. rewrite decide_True, Hraw by done.
    apply String.eqb_neq in Hk. rewrite Hk.
    assert (E : isStr (Some v) EmptyString = false).
    { destruct v as [| |t| |]; try reflexivity. cbn [isStr]. apply String.eqb_neq.
      intros ->. by apply Hv. }
    rewrite E. by rewrite andb_false_r.
Qed.

(** ** Updating a believer, continued *)

(** What a successful write of updateBeliever leaves in the store. *)
Lemma writeUpdate_200 (id : ObjectId) (u : obj) (s : Store) :
  statusCode (writeUpdate id u s).1 = 200%nat →
  ∃ b u',
    u' = (if isStr (u !! "baptized") "No" then <["baptizedDate" := JNull]> u else u)
    ∧ believers s !! id = Some b
    ∧ b !! "isDeleted" = Some (JBool false)
    ∧ validUpdate believerSchema u' = true
    ∧ families (writeUpdate id u s).2 = families s
    ∧ (∀ k, believers (writeUpdate id u s).2 !! id ≫= (.!! k)
            = match u' !! k with
              | Some v => Some (castValue believerSchema k v)
              | None => b !! k
              end)
    ∧ (∀ j, j ≠ id → u !! "spouseId" ≠ Some (JId j) →
            believers (writeUpdate id u s).2 !! j = believers s !! j)
    ∧ (∀ j, j ≠ id → u !! "spouseId" = Some (JId j) →
            believers (writeUpdate id u s).2 !! j
            = applyUpdate believerSchema (object [("spouseId", Some (JId id))])
                <$> believers s !! j).
Proof.
  unfold writeUpdate.
  set (u' := if isStr (u !! "baptized") "No" then <["baptizedDate" := JNull]> u else u).
  assert (Hsp : u' !! "spouseId" = u !! "spouseId").
  { unfold u'. destruct (isStr _ _); [by rewrite lookup_insert_ne|done]. }
  destruct (validUpdate believerSchema u') eqn:Hvalid; cbn [negb]; [|done].
  destruct (findOne (believers s) id false) as [b|] eqn:Hfind; [|done].
  apply findOne_Some in Hfind as [Hb Hdel]. intros _.
  exists b, u'. cbn [fst snd families believers setBelievers].
  split; [done|]. split; [done|]. split; [done|]. split; [done|]. split; [done|].
  rewrite Hsp. clearbody u'.
  set (bels1 := findByIdAndUpdate believerSchema id u' (believers s)).
  assert (H1 : bels1 !! id = Some (applyUpdate believerSchema u' b)).
  { unfold bels1, findByIdAndUpdate. by rewrite lookup_alter_eq, Hb. }
  assert (H1' : ∀ j, j ≠ id → bels1 !! j = believers s !! j).
  { intros j Hj. unfold bels1, findByIdAndUpdate. by rewrite lookup_alter_ne. }
  destruct (u !! "spouseId") as [sp|] eqn:Hu.
  - destruct sp as [|t|t|d|j0]; cbn [truthy].
    + (* null: the record read back has no spouse *)
      rewrite bool_decide_eq_true_2 by done. cbn [findById]. rewrite H1. cbn [getOpt].
      rewrite lookup_applyUpdate, Hsp.
      change (castValue believerSchema "spouseId" JNull) with JNull. cbn [truthy].
      split; [|split].
      * intros k. rewrite H1. cbn [mbind option_bind]. apply lookup_applyUpdate.
      * intros j Hj _. by apply H1'.
      * intros j _ [=].
    + destruct t.
      * cbn [updateById]. split; [|split].
        -- intros k. rewrite H1. cbn [mbind option_bind]. apply lookup_applyUpdate.
        -- intros j Hj _. by apply H1'.
        -- intros j _ [=].
      * rewrite bool_decide_eq_false_2 by done. split; [|split].
        -- intros k. rewrite H1. cbn [mbind option_bind]. apply lookup_applyUpdate.
        -- intros j Hj _. by apply H1'.
        -- intros j _ [=].
    + destruct (negb (String.eqb t EmptyString)); cbn [updateById];
        [|rewrite bool_decide_eq_false_2 by done].
      all: (split; [|split]);
        [intros k; rewrite H1; cbn [mbind option_bind]; apply lookup_applyUpdate
        |intros j Hj _; by apply H1'
        |intros j _ [=]].
    + cbn [updateById]. split; [|split].
      * intros k. rewrite H1. cbn [mbind option_bind]. apply lookup_applyUpdate.
      * intros j Hj _. by apply H1'.
      * intros j _ [=].
    + split; [|split].
      * intros k. destruct (decide (j0 = id)) as [->|Hne].
        -- rewrite lookup_updateById_eq, H1. cbn [mbind option_bind fmap option_fmap option_map].
           rewrite lookup_applyUpdate, lookup_object. cbn [assoc fst snd].
           destruct (String.eqb "spouseId" k) eqn:E.
           ++ apply String.eqb_eq in E as <-. by rewrite Hsp.
           ++ apply lookup_applyUpdate.
        -- rewrite lookup_updateById_ne by congruence. rewrite H1. cbn [mbind option_bind].
           apply lookup_applyUpdate.
      * intros j Hj Hne. rewrite lookup_updateById_ne by done. by apply H1'.
      * intros j Hj Heq. apply (inj Some) in Heq. injection Heq as ->.
        rewrite lookup_updateById_eq. by rewrite H1'.
  - rewrite bool_decide_eq_false_2 by done. cbn [truthy]. split; [|split].
    + intros k. rewrite H1. cbn [mbind option_bind]. apply lookup_applyUpdate.
    + intros j Hj _. by apply H1'.
    + intros j _ [=].
Qed.

(** The requests that updateBeliever answers with 200 pass the guard on
    the locked fields and reach the write, with the age of the date of
    birth that the believer will have. *)
Lemma updateBeliever_200 (diffYears : Date → Z) (id : ObjectId) (body : obj) (s : Store) :
  statusCode (updateBeliever diffYears id body s).1 = 200%nat →
  ∃ b,
    believers s !! id = Some b
    ∧ (∀ f, f ∈ LOCKED_FIELDS → body !! f = None)
    ∧ updateBeliever diffYears id body s
      = writeUpdate id
          (under18 (calcAge diffYears
                      (if truthy (body !! "dob") then body !! "dob" else b !! "dob"))
             (sanitizeUpdateData body)) s.
Proof.
  unfold updateBeliever.
  destruct (0 <? length (List.filter _ LOCKED_FIELDS))%nat eqn:Hlocked; [done|].
  assert (Hfree : ∀ f, f ∈ LOCKED_FIELDS → body !! f = None).
  { intros f Hf. destruct (body !! f) as [v|] eqn:Hv; [exfalso|done].
    apply Nat.ltb_ge in Hlocked.
    assert (Hin : In f (List.filter (λ f, bool_decide (is_Some (body !! f))) LOCKED_FIELDS)).
    { apply filter_In. split; [by apply list_elem_of_In|].
      apply bool_decide_eq_true_2. by rewrite Hv. }
    destruct (List.filter _ LOCKED_FIELDS); [destruct Hin|]. cbn [length] in Hlocked. lia. }
  destruct (truthy (sanitizeUpdateData body !! "phone") && _); [done|].
  rewrite (sanitizeUpdateData_plain body "dob") by in_names.
  destruct (truthy (body !! "dob")) eqn:Hdob.
  - intros H200. destruct (writeUpdate_200 _ _ _ H200) as (b & _ & _ & Hb & _).
    by exists b.
  - cbn [findById]. destruct (believers s !! id) as [current|] eqn:Hcur; [|done].
    intros _. by exists current.
Qed.

(** X2: a request that holds familyId, isHead or relationshipToHead,
    whatever the value, is refused with status 400 and nothing is
    written. *)
Theorem updateBeliever_locked (diffYears : Date → Z) (id : ObjectId) (body : obj)
    (s : Store) (f : string) :
  f ∈ LOCKED_FIELDS →
  is_Some (body !! f) →
  statusCode (updateBeliever diffYears id body s).1 = 400%nat
  ∧ (updateBeliever diffYears id body s).2 = s.
Proof.
  intros Hf Hv. unfold updateBeliever.
  destruct (0 <? length (List.filter _ LOCKED_FIELDS))%nat eqn:Hlocked; [done|].
  exfalso. apply Nat.ltb_ge in Hlocked.
  assert (Hin : In f (List.filter (λ f, bool_decide (is_Some (body !! f))) LOCKED_FIELDS)).
  { apply filter_In. split; [by apply list_elem_of_In|]. by apply bool_decide_eq_true_2. }
  destruct (List.filter _ LOCKED_FIELDS); [destruct Hin|]. cbn [length] in Hlocked. lia.
Qed.

(** A request that sets isHead on John is refused. *)
Lemma updateBeliever_locked_witness :
  statusCode (updateBeliever ageIn2026 3 (object [("isHead", Some (JBool true))])
                coupleStore).1 = 400%nat
  ∧ (updateBeliever ageIn2026 3 (object [("isHead", Some (JBool true))]) coupleStore).2
    = coupleStore.
Proof.
  apply (updateBeliever_locked ageIn2026 3 (object [("isHead", Some (JBool true))])
           coupleStore "isHead").
  - in_names.
  - exists (JBool true). reflexivity.
Defined.

(** X3: updateBeliever never writes a family and never moves the id
    counter; a request that is not answered 200 leaves the store as it
    was, and a believer that is missing or in the trash is never
    answered 200. *)
Theorem updateBeliever_writes_on_200 (diffYears : Date → Z) (id : ObjectId) (body : obj)
    (s : Store) :
  families (updateBeliever diffYears id body s).2 = families s
  ∧ nextId (updateBeliever diffYears id body s).2 = nextId s
  ∧ (statusCode (updateBeliever diffYears id body s).1 ≠ 200%nat →
     (updateBeliever diffYears id body s).2 = s)
  ∧ (findOne (believers s) id false = None →
     statusCode (updateBeliever diffYears id body s).1 ≠ 200%nat).
Proof.
  assert (Hw : ∀ u, families (writeUpdate id u s).2 = families s
                    ∧ nextId (writeUpdate id u s).2 = nextId s
                    ∧ (statusCode (writeUpdate id u s).1 ≠ 200%nat → (writeUpdate id u s).2 = s)
                    ∧ (findOne (believers s) id false = None →
                       statusCode (writeUpdate id u s).1 ≠ 200%nat)).
  { intros u. unfold writeUpdate.
    destruct (negb (validUpdate believerSchema _)); [done|].
    destruct (findOne (believers s) id false); [|done].
    cbn [fst snd statusCode families nextId setBelievers]. done. }
  unfold updateBeliever.
  destruct (0 <? length (List.filter _ LOCKED_FIELDS))%nat; [done|].
  destruct (truthy (sanitizeUpdateData body !! "phone") && _); [done|].
  destruct (truthy (sanitizeUpdateData body !! "dob")); [apply Hw|].
  destruct (findById (believers s) (Some (JId id))); [apply Hw|done].
Qed.

(** X4: when the believer is under 18, by the date of birth of the
    request or else by the stored one, an update that is answered 200
    leaves the believer Single with a null spouseId, whatever the
    request asks for; the weddingDate of the request is dropped, so the
    stored one stays, and no other believer is written (the spouse, if
    any, keeps its spouseId). *)
Theorem updateBeliever_minor (diffYears : Date → Z) (id : ObjectId) (body : obj)
    (s : Store) (b : obj) :
  believers s !! id = Some b →
  ageLt (calcAge diffYears (if truthy (body !! "dob") then body !! "dob" else b !! "dob")) 18
  = true →
  statusCode (updateBeliever diffYears id body s).1 = 200%nat →
  believers (updateBeliever diffYears id body s).2 !! id ≫= (.!! "maritalStatus")
  = Some (JStr "Single")
  ∧ believers (updateBeliever diffYears id body s).2 !! id ≫= (.!! "spouseId") = Some JNull
  ∧ believers (updateBeliever diffYears id body s).2 !! id ≫= (.!! "weddingDate")
    = b !! "weddingDate"
  ∧ ∀ j, j ≠ id →
      believers (updateBeliever diffYears id body s).2 !! j = believers s !! j.
Proof.
  intros Hb Hage H200.
  destruct (updateBeliever_200 _ _ _ _ H200) as (b' & Hb' & _ & Heq).
  rewrite Hb in Hb'. apply (inj Some) in Hb'. subst b'.
  rewrite Heq in *. clear Heq. unfold under18 in *. rewrite Hage in *.
  set (u := delete "weddingDate" (<["spouseId" := JNull]>
              (<["maritalStatus" := JStr "Single"]> (sanitizeUpdateData body)))) in *.
  assert (Hu1 : u !! "maritalStatus" = Some (JStr "Single")).
  { unfold u. by rewrite lookup_delete_ne, lookup_insert_ne, lookup_insert_eq. }
  assert (Hu2 : u !! "spouseId" = Some JNull).
  { unfold u. by rewrite lookup_delete_ne, lookup_insert_eq. }
  assert (Hu3 : u !! "weddingDate" = None).
  { unfold u. by rewrite lookup_delete_eq. }
  clearbody u.
  destruct (writeUpdate_200 _ _ _ H200) as (b' & u' & Hu' & Hb' & _ & _ & _ & Hid & Hne & _).
  rewrite Hb in Hb'. apply (inj Some) in Hb'. subst b'.
  assert (Hk : ∀ k, k ≠ "baptizedDate" → u' !! k = u !! k).
  { intros k Hk. subst u'. destruct (isStr _ _); [by rewrite lookup_insert_ne|done]. }
  rewrite !Hid, !Hk, Hu1, Hu2, Hu3 by done.
  split; [reflexivity|]. split; [reflexivity|]. split; [reflexivity|].
  intros j Hj. apply Hne; [done|]. by rewrite Hu2.
Qed.

(** John's date of birth is moved so that he is 15, with a wedding
    date: he ends Single, without spouse, and without wedding date. *)
Lemma updateBeliever_minor_witness :
  let r := updateBeliever ageIn2026 3
             (object [("dob", Some (JDate 2011)); ("weddingDate", Some (JDate 2025))])
             coupleStore in
  believers r.2 !! 3%nat ≫= (.!! "maritalStatus") = Some (JStr "Single")
  ∧ believers r.2 !! 3%nat ≫= (.!! "spouseId") = Some JNull
  ∧ believers r.2 !! 3%nat ≫= (.!! "weddingDate") = None.
Proof.
  destruct (updateBeliever_minor ageIn2026 3
              (object [("dob", Some (JDate 2011)); ("weddingDate", Some (JDate 2025))])
              coupleStore john eq_refl eq_refl eq_refl) as (H1 & H2 & H3 & _).
  split; [exact H1|]. split; [exact H2|exact H3].
Defined.

(** X5: when an update of a believer of 18 or more names another
    believer as spouseId and is answered 200, the two are linked to
    each other; nothing else changes in the spouse (its maritalStatus
    and spouseName stay), and no third believer is written, so a former
    spouse of either keeps its link. *)
Theorem updateBeliever_links_spouse (diffYears : Date → Z) (id sid : ObjectId)
    (body : obj) (s : Store) (b sp : obj) :
  believers s !! id = Some b →
  believers s !! sid = Some sp →
  sid ≠ id →
  body !! "spouseId" = Some (JId sid) →
  ageLt (calcAge diffYears (if truthy (body !! "dob") then body !! "dob" else b !! "dob")) 18
  = false →
  statusCode (updateBeliever diffYears id body s).1 = 200%nat →
  believers (updateBeliever diffYears id body s).2 !! id ≫= (.!! "spouseId")
  = Some (JId sid)
  ∧ believers (updateBeliever diffYears id body s).2 !! sid ≫= (.!! "spouseId")
    = Some (JId id)
  ∧ (∀ k, k ≠ "spouseId" →
       believers (updateBeliever diffYears id body s).2 !! sid ≫= (.!! k) = sp !! k)
  ∧ ∀ j, j ≠ id → j ≠ sid →
      believers (updateBeliever diffYears id body s).2 !! j = believers s !! j.
Proof.
  intros Hb Hsp Hsid Hbody Hage H200.
  destruct (updateBeliever_200 _ _ _ _ H200) as (b' & Hb' & _ & Heq).
  rewrite Hb in Hb'. apply (inj Some) in Hb'. subst b'.
  rewrite Heq in *. clear Heq. unfold under18 in *. rewrite Hage in *.
  assert (Hu : sanitizeUpdateData body !! "spouseId" = Some (JId sid)).
  { rewrite lookup_sanitizeUpdateData, decide_True, Hbody by in_names. reflexivity. }
  set (u := sanitizeUpdateData body) in *. clearbody u.
  destruct (writeUpdate_200 _ _ _ H200) as (b' & u' & Hu' & Hb' & _ & _ & _ & Hid & Hne & Heq).
  rewrite Hb in Hb'. apply (inj Some) in Hb'. subst b'.
  assert (Hk : u' !! "spouseId" = u !! "spouseId").
  { subst u'. destruct (isStr _ _); [by rewrite lookup_insert_ne|done]. }
  rewrite Hid, Hk, Hu, (Heq sid Hsid Hu), Hsp.
  cbn [fmap option_fmap option_map mbind option_bind].
  split; [reflexivity|]. split; [by rewrite lookup_applyUpdate, lookup_object|]. split.
  - intros k Hk'. rewrite lookup_applyUpdate, lookup_object. cbn [assoc fst snd].
    destruct (String.eqb "spouseId" k) eqn:E; [|done].
    apply String.eqb_eq in E. congruence.
  - intros j Hj Hj'. apply Hne; [done|]. rewrite Hu. congruence.
Qed.

(** Mary names Ruth as her spouse: the two are linked, and Ruth stays Single. *)
Lemma updateBeliever_links_spouse_witness :
  let r := updateBeliever ageIn2026 2 (object [("spouseId", Some (JId 6))]) twoFamilies in
  believers r.2 !! 2%nat ≫= (.!! "spouseId") = Some (JId 6)
  ∧ believers r.2 !! 6%nat ≫= (.!! "spouseId") = Some (JId 2)
  ∧ believers r.2 !! 6%nat ≫= (.!! "maritalStatus") = Some (JStr "Single").
Proof.
  destruct (updateBeliever_links_spouse ageIn2026 2 6 (object [("spouseId", Some (JId 6))])
              twoFamilies (sampleBeliever 1 true "Mary" "Self" 1990 "Single" JNull)
              (sampleBeliever 5 true "Ruth" "Self" 1985 "Single" JNull)
              eq_refl eq_refl ltac:(discriminate) eq_refl eq_refl eq_refl)
    as (H1 & H2 & H3 & _).
  split; [exact H1|]. split; [exact H2|].
  exact (H3 "maritalStatus" ltac:(discriminate)).
Defined.

(** ** The trash of believers *)

Lemma savePaths_loaded_eq (ks : list string) (loaded cur : obj) :
  (∀ k, k ∉ ks → cur !! k = loaded !! k) → savePaths ks loaded cur loaded = cur.
Proof.
  intros H. apply map_eq. intros k. rewrite lookup_savePaths_loaded.
  destruct (decide (k ∈ ks)) as [|Hk]; [done|]. symmetry. by apply H.
Qed.

Lemma deleteBeliever_spec (now : Date) (s : Store) (id : ObjectId) (b : obj) :
  believers s !! id = Some b →
  b !! "isDeleted" = Some (JBool false) →
  truthy (b !! "isHead") = false →
  deleteBeliever now id s
  = (Json 200 None "Believer moved to trash." NoData,
     setBelievers
       (let bels1 :=
          <[id := <["deletedAt" := JDate now]> (<["isDeleted" := JBool true]> b)]>
            (believers s) in
        if truthy (b !! "spouseId")
        then updateById (b !! "spouseId")
               (object [ ("spouseId", Some JNull); ("spouseName", b !! "fullName") ]) bels1
        else bels1) s).
Proof.
  intros Hb Hdel Hhead. unfold deleteBeliever.
  rewrite (findOne_found _ _ _ _ Hb Hdel), Hhead.
  rewrite (alter_insert_found _ _ _ _ Hb), savePaths_loaded_eq.
  - by rewrite !lookup_insert_ne by done.
  - intros k Hk. rewrite !lookup_insert_ne; [done| |].
    + intros <-. apply Hk. in_names.
    + intros <-. apply Hk. in_names.
Qed.

Lemma restoreBeliever_spec (s : Store) (id fid : ObjectId) (b f : obj) :
  believers s !! id = Some b →
  b !! "isDeleted" = Some (JBool true) →
  b !! "familyId" = Some (JId fid) →
  findOne (families s) fid false = Some f →
  restoreBeliever id s
  = (Json 200 None (template (b !! "fullName") +:+ " restored successfully.") NoData,
     setBelievers
       (<[id := delete "deletedAt" (<["isDeleted" := JBool false]> b)]> (believers s)) s).
Proof.
  intros Hb Hdel Hfam Hf. unfold restoreBeliever.
  rewrite (findOne_found _ _ _ _ Hb Hdel), Hfam, Hf.
  rewrite (alter_insert_found _ _ _ _ Hb), savePaths_loaded_eq; [done|].
  intros k Hk. rewrite lookup_delete_ne, lookup_insert_ne; [done| |].
  - intros <-. apply Hk. in_names.
  - intros <-. apply Hk. in_names.
Qed.

(** X6: a believer that is no head, of a family that is not in the
    trash, is moved to the trash and restored: the restore is answered
    200 and the believer is back as it was, without the deletedAt
    property; but the spouse that it names has lost its spouseId, and
    the restore does not give it back.  No other believer and no family
    changes. *)
Theorem deleteBeliever_restoreBeliever (now : Date) (s : Store) (id fid : ObjectId)
    (b f : obj) :
  believers s !! id = Some b →
  b !! "isDeleted" = Some (JBool false) →
  truthy (b !! "isHead") = false →
  b !! "familyId" = Some (JId fid) →
  findOne (families s) fid false = Some f →
  b !! "spouseId" ≠ Some (JId id) →
  statusCode (restoreBeliever id (deleteBeliever now id s).2).1 = 200%nat
  ∧ families (restoreBeliever id (deleteBeliever now id s).2).2 = families s
  ∧ believers (restoreBeliever id (deleteBeliever now id s).2).2 !! id
    = Some (delete "deletedAt" b)
  ∧ (∀ sid sp,
       b !! "spouseId" = Some (JId sid) →
       believers s !! sid = Some sp →
       believers (restoreBeliever id (deleteBeliever now id s).2).2 !! sid
         ≫= (.!! "spouseId") = Some JNull)
  ∧ (∀ j, j ≠ id → b !! "spouseId" ≠ Some (JId j) →
       believers (restoreBeliever id (deleteBeliever now id s).2).2 !! j
       = believers s !! j).
Proof.
  intros Hb Hdel Hhead Hfam Hf Hself.
  rewrite (deleteBeliever_spec now s id b Hb Hdel Hhead). cbn [snd].
  set (b1 := <["deletedAt" := JDate now]> (<["isDeleted" := JBool true]> b)).
  set (u := object [ ("spouseId", Some JNull); ("spouseName", b !! "fullName") ]).
  set (bels := if truthy (b !! "spouseId")
               then updateById (b !! "spouseId") u (<[id := b1]> (believers s))
               else <[id := b1]> (believers s)).
  assert (Hid : bels !! id = Some b1).
  { unfold bels. destruct (truthy (b !! "spouseId")).
    - rewrite lookup_updateById_ne by done. apply lookup_insert_eq.
    - apply lookup_insert_eq. }
  assert (Hb1 : delete "deletedAt" (<["isDeleted" := JBool false]> b1) = delete "deletedAt" b).
  { apply map_eq. intros k. unfold b1.
    destruct (decide (k = "deletedAt")) as [->|Hk1]; [by rewrite !lookup_delete_eq|].
    rewrite !lookup_delete_ne by done.
    destruct (decide (k = "isDeleted")) as [->|Hk2]; [by rewrite lookup_insert_eq|].
    by rewrite !lookup_insert_ne by done. }
  assert (Hd1 : b1 !! "isDeleted" = Some (JBool true)).
  { unfold b1. by rewrite lookup_insert_ne, lookup_insert_eq. }
  assert (Hf1 : b1 !! "familyId" = Some (JId fid)).
  { unfold b1. by rewrite !lookup_insert_ne. }
  rewrite (restoreBeliever_spec (setBelievers bels s) id fid b1 f Hid Hd1 Hf1 Hf).
  cbn [fst snd statusCode families believers setBelievers]. rewrite Hb1.
  split; [done|]. split; [done|]. split; [apply lookup_insert_eq|]. split.
  - intros sid sp Hsp Hsid.
    assert (sid ≠ id) by (intros ->; by rewrite Hsp in Hself).
    rewrite lookup_insert_ne by done. unfold bels. rewrite Hsp. cbn [truthy].
    rewrite lookup_updateById_eq, lookup_insert_ne, Hsid by done. cbn [fmap option_fmap option_map mbind option_bind].
    unfold u. rewrite lookup_applyUpdate, lookup_object. reflexivity.
  - intros j Hj Hsp. rewrite lookup_insert_ne by done. unfold bels.
    destruct (truthy (b !! "spouseId")).
    + rewrite lookup_updateById_ne by done. by rewrite lookup_insert_ne.
    + by rewrite lookup_insert_ne.
Qed.

(** John is deleted and restored: he is back, and Mary has lost her link to him. *)
Lemma deleteBeliever_restoreBeliever_witness :
  believers (restoreBeliever 3 (deleteBeliever 7 3 coupleStore).2).2 !! 3%nat
  = Some (delete "deletedAt" john)
  ∧ believers (restoreBeliever 3 (deleteBeliever 7 3 coupleStore).2).2 !! 2%nat
      ≫= (.!! "spouseId") = Some JNull.
Proof.
  assert (Hne : john !! "spouseId" ≠ Some (JId 3)).
  { assert (E : john !! "spouseId" = Some (JId 2)) by reflexivity. rewrite E. discriminate. }
  destruct (deleteBeliever_restoreBeliever 7 coupleStore 3 1 john (sampleFamily "FAM-0001" 2)
              eq_refl eq_refl eq_refl eq_refl eq_refl Hne) as (_ & _ & H1 & H2 & _).
  split; [exact H1|]. exact (H2 2%nat mary eq_refl eq_refl).
Defined.

Lemma size_deleteMany (P : obj → bool) (c : gmap ObjectId obj) :
  (size (deleteMany P c) + size (filter (λ kd : ObjectId * obj, P kd.2 = true) c))%nat
  = size c.
Proof.
  unfold deleteMany.
  rewrite <- (map_filter_union_complement (λ kd : ObjectId * obj, P kd.2 = false) c) at 3.
  rewrite map_size_disj_union by apply map_disjoint_filter_complement.
  f_equal. f_equal. apply map_filter_ext. intros i x _. cbn.
  destruct (P x); [split; [done|] | split; [done|]]; intros H; [done|by destruct H].
Qed.

Lemma deleteMany_idemp (P : obj → bool) (c : gmap ObjectId obj) :
  deleteMany P (deleteMany P c) = deleteMany P c.
Proof.
  unfold deleteMany at 1. apply map_filter_id. intros i x Hx.
  by apply lookup_deleteMany_Some in Hx as [_ Hx].
Qed.

(** X8: the count that emptyBelieverTrash reports is the number of
    believers in the trash; afterwards no believer is in the trash, and
    a second call reports 0 and changes nothing. *)
Theorem emptyBelieverTrash_count (s : Store) :
  (emptyBelieverTrash s).1
  = Json 200 None
      (NilZero.string_of_uint (Nat.to_uint
         (size (filter (λ kd : ObjectId * obj, kd.2 !! "isDeleted" = Some (JBool true))
                  (believers s))))
       +:+ " believer(s) permanently deleted from trash.")
      (Count (size (filter (λ kd : ObjectId * obj, kd.2 !! "isDeleted" = Some (JBool true))
                      (believers s))))
  ∧ (∀ j b, believers (emptyBelieverTrash s).2 !! j = Some b →
            b !! "isDeleted" ≠ Some (JBool true))
  ∧ emptyBelieverTrash (emptyBelieverTrash s).2
    = (Json 200 None "0 believer(s) permanently deleted from trash." (Count 0),
       (emptyBelieverTrash s).2).
Proof.
  set (isTrashed := λ d : obj, bool_decide (d !! "isDeleted" = Some (JBool true))).
  assert (Hn : (size (believers s) - size (deleteMany isTrashed (believers s)))%nat
               = size (filter (λ kd : ObjectId * obj,
                                 kd.2 !! "isDeleted" = Some (JBool true)) (believers s))).
  { rewrite <- (size_deleteMany isTrashed (believers s)) at 1.
    rewrite Nat.add_comm, Nat.add_sub. f_equal. apply map_filter_ext. intros i x _. cbn.
    unfold isTrashed. by rewrite bool_decide_eq_true. }
  split; [|split].
  - unfold emptyBelieverTrash. cbn [fst]. fold isTrashed. by rewrite Hn.
  - unfold emptyBelieverTrash. cbn [snd believers setBelievers]. intros j b Hb.
    apply lookup_deleteMany_Some in Hb as [_ Hb]. by apply bool_decide_eq_false in Hb.
  - unfold emptyBelieverTrash. cbn [fst snd believers setBelievers families nextId].
    fold isTrashed. rewrite deleteMany_idemp, Nat.sub_diag. reflexivity.
Qed.

(** ** Adding a member, continued *)

(** What the object handed to [Believer.create] holds on the paths that
    the controller takes from the request as they are. *)
Lemma lookup_memberData_plain (fid : ObjectId) (data : obj) (age : jsage) (sp : jsval)
    (md : obj) :
  memberData fid data age sp = Some md →
  md !! "familyId" = Some (JId fid)
  ∧ md !! "isDeleted" = None
  ∧ md !! "relationshipToHead" = data !! "relationshipToHead"
  ∧ md !! "gender" = data !! "gender"
  ∧ md !! "occupationCategory" = resolveOccupation age (data !! "occupationCategory")
  ∧ md !! "educationLevel"
    = (if isStr (data !! "occupationCategory") "Student" && truthy (data !! "educationLevel")
       then data !! "educationLevel" else None).
Proof.
  unfold memberData. destruct (trimOrUndefined (data !! "email")) as [email|]; [|done].
  intros Heq. apply (inj Some) in Heq. subst md.
  destruct (isStr (data !! "occupationCategory") "Student"
            && truthy (data !! "educationLevel"));
    rewrite ?lookup_setProp, ?decide_False, ?decide_True by done;
    rewrite ?lookup_object; repeat split; reflexivity.
Qed.

(** A path of the schema casts a value of another kind, or a string
    without setters, to itself. *)
Lemma castValue_plain (k : string) (v : jsval) :
  k ∈ ["familyId"; "isHead"; "gender"; "memberType"; "relationshipToHead"; "maritalStatus";
       "spouseId"; "occupationCategory"; "educationLevel"; "isDeleted"] →
  castValue believerSchema k v = v.
Proof.
  intros Hk. apply list_elem_of_In in Hk. cbn [In] in Hk.
  repeat (destruct Hk as [<-|Hk]; [by destruct v|]). destruct Hk.
Qed.

(** createMember either fails before the insertion, or stores the new
    document under the next id and touches, in the documents that it
    updates, the marital paths only. *)
Lemma createMember_201 (family : obj) (fid : ObjectId) (data : obj) (age : jsage)
    (auto : bool) (s : Store) :
  ((createMember family fid data age auto s).2 = s
   ∧ statusCode (createMember family fid data age auto s).1 = 500%nat)
  ∨ ∃ sp md member,
      memberData fid data age sp = Some md
      ∧ newDoc believerSchema md = Some member
      ∧ (createMember family fid data age auto s).1
        = Json 201 None "Member added successfully." (Doc (nextId s) member)
      ∧ families (createMember family fid data age auto s).2 = families s
      ∧ nextId (createMember family fid data age auto s).2 = S (nextId s)
      ∧ ∀ j k, k ∉ ["spouseId"; "spouseName"; "maritalStatus"] →
          believers (createMember family fid data age auto s).2 !! j ≫= (.!! k)
          = <[nextId s := member]> (believers s) !! j ≫= (.!! k).
Proof.
  unfold createMember.
  set (spouseId := if negb auto && _ && _ then _ else JNull).
  destruct (memberData fid data age spouseId) as [md|] eqn:Hmd; [|by left].
  destruct (newDoc believerSchema md) as [member|] eqn:Hnew; [|by left].
  right. exists spouseId, md, member. cbn [fst snd families nextId believers].
  split; [done|]. split; [done|]. split; [done|]. split; [done|]. split; [done|].
  intros j k Hk.
  assert (Hobj : ∀ l, (∀ kv, kv ∈ l → kv.1 ∈ ["spouseId"; "spouseName"; "maritalStatus"]) →
            object l !! k = None).
  { intros l Hl. rewrite lookup_object.
    induction l as [|kv l IH]; [done|]. cbn [assoc].
    destruct (String.eqb_spec kv.1 k) as [Heq|Hne].
    - exfalso. apply Hk. rewrite <- Heq. apply Hl, list_elem_of_here.
    - apply IH. intros kv' Hin. apply Hl. by apply list_elem_of_further. }
  destruct auto.
  - change (findByIdAndUpdate believerSchema (nextId s) ?u ?c)
      with (updateById (Some (JId (nextId s))) u c).
    rewrite !updateById_frame; [done| |].
    + apply Hobj. intros kv Hkv. apply list_elem_of_In in Hkv. cbn [In] in Hkv.
      repeat (destruct Hkv as [<-|Hkv]; [in_names|]). destruct Hkv.
    + apply Hobj. intros kv Hkv. apply list_elem_of_In in Hkv. cbn [In] in Hkv.
      repeat (destruct Hkv as [<-|Hkv]; [in_names|]). destruct Hkv.
  - destruct (truthy (Some spouseId)); [|done].
    rewrite updateById_frame; [done|].
    apply Hobj. intros kv Hkv. apply list_elem_of_In in Hkv. cbn [In] in Hkv.
    repeat (destruct Hkv as [<-|Hkv]; [in_names|]). destruct Hkv.
Qed.

(** addMember either refuses the request and leaves the store, or
    reaches [Believer.create] with the data of the request, changed on
    the marital paths at most. *)
Lemma addMember_reaches (diffYears : Date → Z) (fid : ObjectId) (data : obj) (s : Store) :
  ((addMember diffYears fid data s).2 = s
   ∧ statusCode (addMember diffYears fid data s).1 ≠ 201%nat)
  ∨ ∃ family data' auto,
      findOne (families s) fid false = Some family
      ∧ addMember diffYears fid data s
        = createMember family fid data' (calcAgeIST diffYears (data !! "dob")) auto s
      ∧ (∀ k, k ∉ ["maritalStatus"; "spouseId"; "spouseName"; "weddingDate"] →
              data' !! k = data !! k)
      ∧ truthy (data !! "relationshipToHead") = true
      ∧ isStr (data !! "relationshipToHead") "Self" = false
      ∧ truthy (data !! "occupationCategory") = true
      ∧ auto = isSpouseRelation (data !! "relationshipToHead")
               && ageGe (calcAgeIST diffYears (data !! "dob")) 18
      ∧ data' = (let data1 := if ageLt (calcAgeIST diffYears (data !! "dob")) 18
                              then forceSingle data else data in
                 if auto then <["maritalStatus" := JStr "Married"]> data1 else data1).
Proof.
  unfold addMember.
  destruct (findOne (families s) fid false) as [family|]; [|by left].
  destruct (blank (data !! "fullName")) as [[|]|]; [by left | | by left].
  destruct (negb (truthy (data !! "dob"))); [by left|].
  destruct (negb (truthy (data !! "gender"))); [by left|].
  destruct (truthy (data !! "relationshipToHead")) eqn:Hrel; cbn [negb orb]; [|by left].
  destruct (isStr (data !! "relationshipToHead") "Self") eqn:Hself; [by left|].
  destruct (if isStr (data !! "relationshipToHead") "Other"
            then blank (data !! "relationCustom") else Some false) as [[|]|];
    [by left | | by left].
  destruct (negb (truthy (data !! "memberType"))); [by left|].
  destruct (truthy (data !! "occupationCategory")) eqn:Hocc; cbn [negb]; [|by left].
  destruct (validateBelieverFields data); [by left|].
  set (age := calcAgeIST diffYears (data !! "dob")).
  set (isSpouse := isSpouseRelation (data !! "relationshipToHead")).
  destruct (ageLt age 18 && isSpouse); [by left|].
  set (data1 := if ageLt age 18 then forceSingle data else data).
  assert (H1 : ∀ k, k ∉ ["maritalStatus"; "spouseId"; "spouseName"; "weddingDate"] →
            data1 !! k = data !! k).
  { intros k Hk. unfold data1. destruct (ageLt age 18); [|done]. unfold forceSingle.
    rewrite !lookup_setProp, !decide_False, !lookup_insert_ne; [done|..];
      intros <-; apply Hk; in_names. }
  destruct (isSpouse && ageGe age 18).
  - destruct (findById (believers s) (family !! "headId")) as [head|]; [|by left].
    destruct (truthy (head !! "spouseId")); [by left|]. right.
    exists family, (<["maritalStatus" := JStr "Married"]> data1), true.
    split; [done|]. split; [done|]. split; [|done].
    intros k Hk. rewrite lookup_insert_ne; [by apply H1|].
    intros <-. apply Hk. in_names.
  - destruct (negb isSpouse && ageGe age 18).
    + destruct (negb (truthy (data1 !! "maritalStatus"))); [by left|].
      destruct (isStr (data1 !! "maritalStatus") "Married" && _ && _); [by left|].
      right. by exists family, data1, false.
    + right. by exists family, data1, false.
Qed.

Lemma validDoc_path (schema : list path) (d : obj) (p : path) :
  validDoc schema d = true →
  p ∈ schema →
  requiredOk p (d !! p_name p) = true
  ∧ ∀ v, d !! p_name p = Some v → valueOk p v = true.
Proof.
  unfold validDoc. intros Hall Hp. rewrite forallb_forall in Hall.
  apply list_elem_of_In in Hp. apply Hall in Hp. apply andb_prop in Hp as [Hreq Hval].
  split; [done|]. intros v Hv. by rewrite Hv in Hval.
Qed.

Lemma newDoc_valid (schema : list path) (o d : obj) :
  newDoc schema o = Some d → validDoc schema d = true.
Proof.
  unfold newDoc. destruct (validDoc schema _) eqn:Hv; [|done].
  intros Heq. apply (inj Some) in Heq. by subst d.
Qed.

Lemma inEnum_elem (l : list string) (g : string) :
  inEnum (Some l) (JStr g) = true → g ∈ l.
Proof.
  cbn [inEnum]. intros (x & Hx & Heq)%existsb_exists.
  apply String.eqb_eq in Heq. subst x. by apply list_elem_of_In.
Qed.

(** The response of addMember to a request that it accepts. *)
Lemma addMember_201 (diffYears : Date → Z) (fid : ObjectId) (data : obj) (s : Store) :
  statusCode (addMember diffYears fid data s).1 = 201%nat →
  ∃ family data' auto sp md member,
    findOne (families s) fid false = Some family
    ∧ addMember diffYears fid data s
      = createMember family fid data' (calcAgeIST diffYears (data !! "dob")) auto s
    ∧ (∀ k, k ∉ ["maritalStatus"; "spouseId"; "spouseName"; "weddingDate"] →
            data' !! k = data !! k)
    ∧ truthy (data !! "relationshipToHead") = true
    ∧ isStr (data !! "relationshipToHead") "Self" = false
    ∧ truthy (data !! "occupationCategory") = true
    ∧ memberData fid data' (calcAgeIST diffYears (data !! "dob")) sp = Some md
    ∧ newDoc believerSchema md = Some member
    ∧ (addMember diffYears fid data s).1
      = Json 201 None "Member added successfully." (Doc (nextId s) member).
Proof.
  intros H201.
  destruct (addMember_reaches diffYears fid data s)
    as [[_ Hno]|(family & data' & auto & Hf & Heq & Hd & Hrel & Hself & Hocc & _)]; [done|].
  rewrite Heq in H201.
  destruct (createMember_201 family fid data' (calcAgeIST diffYears (data !! "dob")) auto s)
    as [[_ H500]|(sp & md & member & Hmd & Hnew & Hr & _)].
  { rewrite H500 in H201. discriminate H201. }
  exists family, data', auto, sp, md, member. rewrite Heq at 2. done.
Qed.

(** X9: addMember never writes a family; a request that is not
    answered 201 leaves the store as it was; a request that is answered
    201 stores the member under the next id, in the family of the
    request, not as head, not deleted, with the relationship of the
    request, which is not Self. *)
Theorem addMember_creates_member (diffYears : Date → Z) (fid : ObjectId) (data : obj)
    (s : Store) :
  families (addMember diffYears fid data s).2 = families s
  ∧ (statusCode (addMember diffYears fid data s).1 ≠ 201%nat →
     (addMember diffYears fid data s).2 = s)
  ∧ (statusCode (addMember diffYears fid data s).1 = 201%nat →
     nextId (addMember diffYears fid data s).2 = S (nextId s)
     ∧ ∃ m, believers (addMember diffYears fid data s).2 !! nextId s = Some m
            ∧ m !! "familyId" = Some (JId fid)
            ∧ m !! "isHead" = Some (JBool false)
            ∧ m !! "isDeleted" = Some (JBool false)
            ∧ m !! "relationshipToHead" = data !! "relationshipToHead"
            ∧ m !! "relationshipToHead" ≠ Some (JStr "Self")).
Proof.
  destruct (addMember_reaches diffYears fid data s)
    as [[Hs Hno]|(family & data' & auto & Hf & Heq & Hd & Hrel & Hself & Hocc & _)].
  { rewrite Hs. done. }
  rewrite Heq.
  destruct (createMember_201 family fid data' (calcAgeIST diffYears (data !! "dob")) auto s)
    as [[Hs H500]|(sp & md & member & Hmd & Hnew & Hr & Hfam & Hnext & Hbel)].
  { rewrite Hs, H500. done. }
  split; [done|]. split; [by rewrite Hr|]. intros _. split; [done|].
  destruct (lookup_memberData_plain _ _ _ _ _ Hmd) as (Hm1 & Hm2 & Hm3 & _).
  assert (Hhead : member !! "isHead" = Some (JBool false)).
  { by rewrite (lookup_newDoc _ _ _ _ Hnew), (memberData_isHead _ _ _ _ _ Hmd). }
  assert (Hfid : member !! "familyId" = Some (JId fid)).
  { by rewrite (lookup_newDoc _ _ _ _ Hnew), Hm1. }
  assert (Hdel : member !! "isDeleted" = Some (JBool false)).
  { by rewrite (lookup_newDoc _ _ _ _ Hnew), Hm2. }
  assert (Hr3 : member !! "relationshipToHead" = data !! "relationshipToHead").
  { rewrite (lookup_newDoc _ _ _ _ Hnew), Hm3, Hd by (intros Hin; by apply list_elem_of_In in Hin; cbn in Hin; intuition discriminate).
    destruct (data !! "relationshipToHead") as [v|]; [|done].
    by rewrite castValue_plain by in_names. }
  assert (Hget : ∀ k, k ∉ ["spouseId"; "spouseName"; "maritalStatus"] →
            believers (createMember family fid data'
                         (calcAgeIST diffYears (data !! "dob")) auto s).2 !! nextId s
              ≫= (.!! k) = member !! k).
  { intros k Hk. rewrite (Hbel _ _ Hk). by rewrite lookup_insert_eq. }
  destruct (believers (createMember family fid data'
                         (calcAgeIST diffYears (data !! "dob")) auto s).2 !! nextId s)
    as [m|] eqn:Hm.
  - exists m. split; [done|]. cbn [mbind option_bind] in Hget.
    assert (Hnot : ∀ k, k ∈ ["familyId"; "isHead"; "isDeleted"; "relationshipToHead"] →
              k ∉ ["spouseId"; "spouseName"; "maritalStatus"]).
    { intros k Hk Hin. apply list_elem_of_In in Hk, Hin. cbn [In] in Hk, Hin.
      destruct Hk as [<-|[<-|[<-|[<-|[]]]]];
        repeat (destruct Hin as [Hin|Hin]; [discriminate Hin|]); destruct Hin. }
    rewrite !Hget by (apply Hnot; in_names).
    split; [done|]. split; [done|]. split; [done|]. split; [done|].
    rewrite Hr3. intros Hv. by rewrite Hv in Hself.
  - exfalso. specialize (Hget "familyId"). cbn [mbind option_bind] in Hget.
    rewrite Hfid in Hget. discriminate Hget.
    intros Hin. apply list_elem_of_In in Hin. cbn [In] in Hin.
    repeat (destruct Hin as [Hin|Hin]; [discriminate Hin|]); destruct Hin.
Qed.

(** X10: the document that addMember answers with has passed the
    validators of the schema: its gender, memberType and maritalStatus
    are values of their enums, and its phone, if any, is empty or has
    exactly ten digits. *)
Theorem addMember_schema_valid (diffYears : Date → Z) (fid : ObjectId) (data : obj)
    (s : Store) (c : option string) (msg : string) (mid : ObjectId) (member : obj) :
  (addMember diffYears fid data s).1 = Json 201 c msg (Doc mid member) →
  validDoc believerSchema member = true
  ∧ (∃ g, member !! "gender" = Some (JStr g) ∧ g ∈ ["Male"; "Female"; "Other"])
  ∧ (∃ t, member !! "memberType" = Some (JStr t) ∧ t ∈ ["Member"; "Youth"; "Child"])
  ∧ (∃ m, member !! "maritalStatus" = Some (JStr m) ∧ m ∈ ["Single"; "Married"; "Widowed"])
  ∧ ∀ p, member !! "phone" = Some (JStr p) → p = EmptyString ∨ tenDigits p = true.
Proof.
  intros Hr.
  assert (H201 : statusCode (addMember diffYears fid data s).1 = 201%nat) by by rewrite Hr.
  destruct (addMember_201 _ _ _ _ H201)
    as (family & data' & auto & sp & md & m & _ & _ & _ & _ & _ & _ & _ & Hnew & Hr').
  rewrite Hr' in Hr. injection Hr as _ _ _ ->.
  pose proof (newDoc_valid _ _ _ Hnew) as Hvalid. split; [done|].
  assert (Henum : ∀ p l, p ∈ believerSchema → p_required p = true → p_type p = TString →
            p_enum p = Some l →
            ∃ g, member !! p_name p = Some (JStr g) ∧ g ∈ l).
  { intros p l Hp Hreq Hty Hen. destruct (validDoc_path _ _ _ Hvalid Hp) as [H1 H2].
    unfold requiredOk in H1. rewrite Hreq in H1. cbn [negb orb] in H1.
    destruct (member !! p_name p) as [v|] eqn:Hv; [|done].
    specialize (H2 v eq_refl). unfold valueOk in H2. rewrite Hty, Hen in H2.
    apply andb_prop in H2 as [[H2 H3]%andb_prop _].
    destruct v as [| |g| |]; try done. exists g. split; [done|]. by apply inEnum_elem. }
  split; [|split; [|split]].
  - apply (Henum (mkPath "gender" TString true (Some ["Male"; "Female"; "Other"])
                    false false None)); [in_names|done..].
  - apply (Henum (mkPath "memberType" TString true (Some ["Member"; "Youth"; "Child"])
                    false false None)); [in_names|done..].
  - apply (Henum (mkPath "maritalStatus" TString true (Some ["Single"; "Married"; "Widowed"])
                    false false None)); [in_names|done..].
  - intros p Hp.
    destruct (validDoc_path _ _ (mkPath "phone" TString false None false false None) Hvalid)
      as [_ H2]; [in_names|].
    specialize (H2 _ Hp). unfold valueOk in H2. apply andb_prop in H2 as [_ H2].
    cbn in H2. apply orb_prop in H2 as [H2|H2]; [left|by right].
    by apply String.eqb_eq in H2.
Qed.

(** The document created for Tim, 11, is valid. *)
Lemma addMember_schema_valid_witness :
  validDoc believerSchema
    (docOf (addMember ageIn2026 1 (memberRequest "Tim" "Son" 2015) coupleStore).1) = true.
Proof.
  exact (proj1 (addMember_schema_valid ageIn2026 1 (memberRequest "Tim" "Son" 2015)
                  coupleStore None "Member added successfully." 4
                  (docOf (addMember ageIn2026 1 (memberRequest "Tim" "Son" 2015)
                            coupleStore).1)
                  eq_refl)).
Defined.

(** X11: the occupation of a member created at the age of 5 or less
    is Child whatever the request asks for, and the one of the request
    otherwise; the educationLevel is stored exactly when the request
    gives one together with the occupation Student, also for a member
    whose occupation has become Child. *)
Theorem addMember_occupation (diffYears : Date → Z) (fid : ObjectId) (data : obj)
    (s : Store) (c : option string) (msg : string) (mid : ObjectId) (member : obj) :
  (addMember diffYears fid data s).1 = Json 201 c msg (Doc mid member) →
  member !! "occupationCategory"
  = (if ageLe (calcAgeIST diffYears (data !! "dob")) 5
     then Some (JStr "Child") else data !! "occupationCategory")
  ∧ member !! "educationLevel"
    = (if isStr (data !! "occupationCategory") "Student" && truthy (data !! "educationLevel")
       then data !! "educationLevel" else None).
Proof.
  intros Hr.
  assert (H201 : statusCode (addMember diffYears fid data s).1 = 201%nat) by by rewrite Hr.
  destruct (addMember_201 _ _ _ _ H201)
    as (family & data' & auto & sp & md & m & _ & _ & Hd & _ & _ & Hocc & Hmd & Hnew & Hr').
  rewrite Hr' in Hr. injection Hr as _ _ _ ->.
  destruct (lookup_memberData_plain _ _ _ _ _ Hmd) as (_ & _ & _ & _ & Hm1 & Hm2).
  assert (Hn : ∀ k, k ∈ ["occupationCategory"; "educationLevel"] →
            k ∉ ["maritalStatus"; "spouseId"; "spouseName"; "weddingDate"]).
  { intros k Hk Hin. apply list_elem_of_In in Hk, Hin. cbn [In] in Hk, Hin.
    destruct Hk as [<-|[<-|[]]];
      repeat (destruct Hin as [Hin|Hin]; [discriminate Hin|]); destruct Hin. }
  rewrite !(lookup_newDoc _ _ _ _ Hnew), Hm1, Hm2, !Hd by (apply Hn; in_names).
  unfold resolveOccupation, orElse. rewrite Hocc. split.
  - destruct (ageLe _ 5); [reflexivity|].
    destruct (data !! "occupationCategory") as [v|]; [|done].
    by rewrite castValue_plain by in_names.
  - destruct (isStr (data !! "occupationCategory") "Student"
              && truthy (data !! "educationLevel")); [|reflexivity].
    destruct (data !! "educationLevel") as [v|]; [|done].
    by rewrite castValue_plain by in_names.
Qed.

(** Tim, 4, is asked for as a Student and stored as a Child. *)
Lemma addMember_occupation_witness :
  docOf (addMember ageIn2026 1 (memberRequest "Tim" "Son" 2022) coupleStore).1
    !! "occupationCategory" = Some (JStr "Child").
Proof.
  exact (proj1 (addMember_occupation ageIn2026 1 (memberRequest "Tim" "Son" 2022)
                  coupleStore None "Member added successfully." 4
                  (docOf (addMember ageIn2026 1 (memberRequest "Tim" "Son" 2022)
                            coupleStore).1)
                  eq_refl)).
Defined.

(** X12: a member of 18 or more that is not added as Wife or Husband
    and names an existing believer as spouseId is linked to it in both
    directions, but, unlike for the spouse of the head, nothing else is
    written in the named believer: its maritalStatus and spouseName
    stay. *)
Theorem addMember_named_spouse (diffYears : Date → Z) (fid sid : ObjectId) (data : obj)
    (s : Store) (sp : obj) :
  statusCode (addMember diffYears fid data s).1 = 201%nat →
  isSpouseRelation (data !! "relationshipToHead") = false →
  ageGe (calcAgeIST diffYears (data !! "dob")) 18 = true →
  data !! "spouseId" = Some (JId sid) →
  believers s !! sid = Some sp →
  sid ≠ nextId s →
  believers (addMember diffYears fid data s).2 !! nextId s ≫= (.!! "spouseId")
  = Some (JId sid)
  ∧ believers (addMember diffYears fid data s).2 !! sid ≫= (.!! "spouseId")
    = Some (JId (nextId s))
  ∧ ∀ k, k ≠ "spouseId" →
      believers (addMember diffYears fid data s).2 !! sid ≫= (.!! k) = sp !! k.
Proof.
  intros H201 Hrel Hage Hsid Hsp Hfresh.
  destruct (addMember_reaches diffYears fid data s)
    as [[_ Hno]|(family & data' & auto & _ & Heq & _ & _ & _ & _ & Hauto & Hdata)]; [done|].
  rewrite Hrel in Hauto. cbn [andb] in Hauto. subst auto.
  rewrite (ageGe_not_Lt _ Hage) in Hdata. cbn zeta in Hdata. subst data'.
  rewrite Heq in *. clear Heq. unfold createMember in *.
  rewrite Hsid in *. cbn [negb andb truthy isStr default from_option id] in *.
  destruct (memberData fid data (calcAgeIST diffYears (data !! "dob")) (JId sid))
    as [md|] eqn:Hmd; [|done].
  destruct (newDoc believerSchema md) as [member|] eqn:Hnew; [|done].
  cbn [snd believers].
  rewrite lookup_updateById_ne, lookup_insert_eq by congruence.
  rewrite lookup_updateById_eq, lookup_insert_ne, Hsp by done.
  cbn [fmap option_fmap option_map mbind option_bind].
  destruct (lookup_memberData _ _ _ _ _ Hmd) as (_ & Hm & _).
  split; [by rewrite (lookup_newDoc _ _ _ _ Hnew), Hm|].
  split; [by rewrite lookup_applyUpdate, lookup_object|].
  intros k Hk. rewrite lookup_applyUpdate, lookup_object. cbn [assoc fst snd].
  destruct (String.eqb "spouseId" k) eqn:E; [|done].
  apply String.eqb_eq in E. congruence.
Qed.

(** Abel, 66, is added to the first family with Ruth as spouse: the
    two are linked, and Ruth stays Single. *)
Lemma addMember_named_spouse_witness :
  let r := addMember ageIn2026 1
             (<["spouseId" := JId 6]> (memberRequest "Abel" "Father" 1960)) twoFamilies in
  believers r.2 !! 7%nat ≫= (.!! "spouseId") = Some (JId 6)
  ∧ believers r.2 !! 6%nat ≫= (.!! "spouseId") = Some (JId 7)
  ∧ believers r.2 !! 6%nat ≫= (.!! "maritalStatus") = Some (JStr "Single").
Proof.
  assert (H201 : statusCode
                   (addMember ageIn2026 1
                      (<["spouseId" := JId 6]> (memberRequest "Abel" "Father" 1960))
                      twoFamilies).1 = 201%nat) by reflexivity.
  destruct (addMember_named_spouse ageIn2026 1 6
              (<["spouseId" := JId 6]> (memberRequest "Abel" "Father" 1960)) twoFamilies
              (sampleBeliever 5 true "Ruth" "Self" 1985 "Single" JNull)
              H201 eq_refl eq_refl eq_refl eq_refl ltac:(discriminate))
    as (H1 & H2 & H3).
  split; [exact H1|]. split; [exact H2|].
  exact (H3 "maritalStatus" ltac:(discriminate)).
Defined.

(** ** The trash of families *)

(** X13: the soft delete of a family leaves every other family as it
    was, and every believer of another family or already in the trash
    (which keeps its own deletedAt); a second soft delete of the same
    family is answered 404 and writes nothing. *)
Theorem deleteFamily_frame (now now' : Date) (s : Store) (fid : ObjectId) (f : obj) :
  findOne (families s) fid false = Some f →
  (∀ g, g ≠ fid → families (deleteFamily now fid s).2 !! g = families s !! g)
  ∧ (∀ j b, believers s !! j = Some b →
       b !! "familyId" ≠ Some (JId fid) ∨ b !! "isDeleted" ≠ Some (JBool false) →
       believers (deleteFamily now fid s).2 !! j = Some b)
  ∧ deleteFamily now' fid (deleteFamily now fid s).2
    = (AppError "Family not found." 404, (deleteFamily now fid s).2).
Proof.
  intros Hf. destruct (deleteFamily_spec now s fid f Hf) as (f1 & Heq & Hdel & _).
  rewrite Heq. cbn [snd families believers]. split; [|split].
  - intros g Hg. by rewrite lookup_insert_ne.
  - intros j b Hb Hor. rewrite lookup_updateMany, Hb. cbn [fmap option_fmap option_map].
    rewrite bool_decide_eq_false_2; [done|]. intros [H1 H2]. by destruct Hor.
  - unfold deleteFamily at 1. cbn [families]. unfold findOne.
    rewrite lookup_insert_eq, decide_False; [done|]. rewrite Hdel. discriminate.
Qed.

(** The first of two families is deleted: the second one is as it
    was, and a second delete finds nothing. *)
Lemma deleteFamily_frame_witness :
  families (deleteFamily 7 1 twoFamilies).2 !! 5%nat = families twoFamilies !! 5%nat
  ∧ deleteFamily 8 1 (deleteFamily 7 1 twoFamilies).2
    = (AppError "Family not found." 404, (deleteFamily 7 1 twoFamilies).2).
Proof.
  destruct (deleteFamily_frame 7 8 twoFamilies 1 (sampleFamily "FAM-0001" 2) eq_refl)
    as (H1 & _ & H3).
  split; [|exact H3]. apply H1. discriminate.
Defined.

(** X7: after the soft delete of a family, none of its members can be
    restored on its own: restoreBeliever answers 409 and writes
    nothing, for the members that the cascade deleted and for those
    deleted before. *)
Theorem restoreBeliever_blocked_by_family (now : Date) (s : Store) (fid bid : ObjectId)
    (f b : obj) (d : bool) :
  findOne (families s) fid false = Some f →
  believers s !! bid = Some b →
  b !! "familyId" = Some (JId fid) →
  b !! "isDeleted" = Some (JBool d) →
  restoreBeliever bid (deleteFamily now fid s).2
  = (AppError
       "Cannot restore: this believer's family is also in trash. Restore the family first."
       409, (deleteFamily now fid s).2).
Proof.
  intros Hf Hb Hfam Hd. destruct (deleteFamily_spec now s fid f Hf) as (f1 & Heq & Hdel & _).
  rewrite Heq. cbn [snd]. unfold restoreBeliever. cbn [families believers].
  set (bels := updateMany _ _ (believers s)).
  assert (Hb' : ∃ b', bels !! bid = Some b' ∧ b' !! "isDeleted" = Some (JBool true)
                      ∧ b' !! "familyId" = Some (JId fid)).
  { unfold bels. rewrite lookup_updateMany, Hb. cbn [fmap option_fmap option_map].
    destruct d.
    - rewrite bool_decide_eq_false_2 by (rewrite Hd; intros [_ [=]]). by exists b.
    - rewrite bool_decide_eq_true_2 by done. eexists. split; [done|].
      by rewrite lookup_insert_ne, lookup_insert_eq, !lookup_insert_ne. }
  destruct Hb' as (b' & Hb1 & Hb2 & Hb3). clearbody bels.
  rewrite (findOne_found _ _ _ _ Hb1 Hb2), Hb3.
  unfold findOne. rewrite lookup_insert_eq, decide_False; [done|].
  rewrite Hdel. discriminate.
Qed.

(** John cannot be restored while his family is in the trash. *)
Lemma restoreBeliever_blocked_by_family_witness :
  statusCode (restoreBeliever 3 (deleteFamily 7 1 coupleStore).2).1 = 409%nat.
Proof.
  rewrite (restoreBeliever_blocked_by_family 7 coupleStore 1 3 (sampleFamily "FAM-0001" 2)
             john false eq_refl eq_refl eq_refl eq_refl).
  reflexivity.
Defined.

(** X14: a member that was deleted on its own before its family was
    keeps the time of its own deletion while the family is in the
    trash, and the restore of the family brings it back as well. *)
Theorem restoreFamily_restores_earlier_deletions (t1 t2 : Date) (s : Store)
    (fid bid : ObjectId) (f b : obj) :
  findOne (families s) fid false = Some f →
  believers s !! bid = Some b →
  b !! "isDeleted" = Some (JBool false) →
  truthy (b !! "isHead") = false →
  b !! "familyId" = Some (JId fid) →
  codeFree fid
    (Some (JStr (famCode (countDocuments
       (families (deleteFamily t2 fid (deleteBeliever t1 bid s).2).2)))))
    (families (deleteFamily t2 fid (deleteBeliever t1 bid s).2).2) = true →
  believers (deleteFamily t2 fid (deleteBeliever t1 bid s).2).2 !! bid ≫= (.!! "deletedAt")
  = Some (JDate t1)
  ∧ statusCode (restoreFamily fid (deleteFamily t2 fid (deleteBeliever t1 bid s).2).2).1
    = 200%nat
  ∧ believers (restoreFamily fid (deleteFamily t2 fid (deleteBeliever t1 bid s).2).2).2 !! bid
      ≫= (.!! "isDeleted") = Some (JBool false)
  ∧ believers (restoreFamily fid (deleteFamily t2 fid (deleteBeliever t1 bid s).2).2).2 !! bid
      ≫= (.!! "deletedAt") = None.
Proof.
  intros Hf Hb Hdel Hhead Hfam.
  rewrite (deleteBeliever_spec t1 s bid b Hb Hdel Hhead). cbn [snd].
  set (b1 := <["deletedAt" := JDate t1]> (<["isDeleted" := JBool true]> b)).
  set (u := object [ ("spouseId", Some JNull); ("spouseName", b !! "fullName") ]).
  set (bels1 := if truthy (b !! "spouseId")
                then updateById (b !! "spouseId") u (<[bid := b1]> (believers s))
                else <[bid := b1]> (believers s)).
  assert (Hk : ∀ k, u !! k = None → (bels1 !! bid) ≫= (.!! k) = b1 !! k).
  { intros k Hu. unfold bels1. destruct (truthy (b !! "spouseId")).
    - by rewrite updateById_frame, lookup_insert_eq.
    - by rewrite lookup_insert_eq. }
  assert (Hu1 : u !! "isDeleted" = None) by (unfold u; by rewrite lookup_object).
  assert (Hu2 : u !! "deletedAt" = None) by (unfold u; by rewrite lookup_object).
  assert (Hu3 : u !! "familyId" = None) by (unfold u; by rewrite lookup_object).
  destruct (bels1 !! bid) as [b1'|] eqn:Hb1.
  2: { specialize (Hk "isDeleted" Hu1). cbn [mbind option_bind] in Hk.
       unfold b1 in Hk. by rewrite lookup_insert_ne, lookup_insert_eq in Hk. }
  cbn [mbind option_bind] in Hk.
  assert (Hd1 : b1' !! "isDeleted" = Some (JBool true)).
  { rewrite Hk by done. unfold b1. by rewrite lookup_insert_ne, lookup_insert_eq. }
  assert (Ht1 : b1' !! "deletedAt" = Some (JDate t1)).
  { rewrite Hk by done. unfold b1. by rewrite lookup_insert_eq. }
  assert (Hf1 : b1' !! "familyId" = Some (JId fid)).
  { rewrite Hk by done. unfold b1. by rewrite !lookup_insert_ne. }
  clearbody bels1. clear Hk Hu1 Hu2 Hu3. clearbody u b1.
  set (s1 := setBelievers bels1 s).
  assert (Hfs1 : findOne (families s1) fid false = Some f) by done.
  destruct (deleteFamily_spec t2 s1 fid f Hfs1) as (f1 & Heq & Hfd & _).
  rewrite Heq. cbn [snd]. clear Heq.
  set (bels2 := updateMany _ _ (believers s1)).
  assert (Hb2 : bels2 !! bid = Some b1').
  { unfold bels2. cbn [s1 setBelievers believers]. rewrite lookup_updateMany, Hb1.
    cbn [fmap option_fmap option_map].
    rewrite bool_decide_eq_false_2; [done|]. rewrite Hd1. intros [_ [=]]. }
  clearbody bels2. cbn [families believers].
  set (s2 := mkStore (<[fid := f1]> (families s1)) bels2 (nextId s1)).
  change (<[fid := f1]> (families s1)) with (families s2).
  intros Hfree.
  assert (Hfs2 : findOne (families s2) fid true = Some f1).
  { apply findOne_found; [apply lookup_insert_eq|done]. }
  destruct (restoreFamily_spec s2 fid f1 Hfs2 Hfree) as (f2 & Heq & _).
  rewrite Heq. cbn [fst snd statusCode believers s2]. clear Heq.
  rewrite Hb2, lookup_updateMany, Hb2. cbn [fmap option_fmap option_map mbind option_bind].
  rewrite bool_decide_eq_true_2 by done.
  split; [done|]. split; [done|]. split.
  - by rewrite lookup_delete_ne, lookup_insert_eq.
  - by rewrite lookup_delete_eq.
Qed.

(** John is deleted at 5, his family at 7: John keeps 5 as the time of
    his deletion, and comes back with the family. *)
Lemma restoreFamily_restores_earlier_deletions_witness :
  believers (deleteFamily 7 1 (deleteBeliever 5 3 coupleStore).2).2 !! 3%nat
    ≫= (.!! "deletedAt") = Some (JDate 5)
  ∧ believers (restoreFamily 1 (deleteFamily 7 1 (deleteBeliever 5 3 coupleStore).2).2).2
      !! 3%nat ≫= (.!! "isDeleted") = Some (JBool false).
Proof.
  destruct (restoreFamily_restores_earlier_deletions 5 7 coupleStore 1 3
              (sampleFamily "FAM-0001" 2) john eq_refl eq_refl eq_refl eq_refl eq_refl
              eq_refl) as (H1 & _ & H3 & _).
  split; [exact H1|exact H3].
Defined.

(** X15: permanentDeleteFamily answers 404 and writes nothing for a
    family that is missing or not in the trash; for a family in the
    trash it removes the family and exactly the believers of that
    family, deleted or not. *)
Theorem permanentDeleteFamily_removes (s : Store) (fid : ObjectId) :
  (findOne (families s) fid true = None →
   permanentDeleteFamily fid s = (AppError "Family not found in trash." 404, s))
  ∧ (is_Some (findOne (families s) fid true) →
     statusCode (permanentDeleteFamily fid s).1 = 200%nat
     ∧ families (permanentDeleteFamily fid s).2 = delete fid (families s)
     ∧ ∀ j b,
         believers (permanentDeleteFamily fid s).2 !! j = Some b
         ↔ believers s !! j = Some b ∧ b !! "familyId" ≠ Some (JId fid)).
Proof.
  unfold permanentDeleteFamily. split.
  - by intros ->.
  - intros [f ->]. cbn [fst snd statusCode families believers].
    split; [done|]. split; [done|]. intros j b. rewrite lookup_deleteMany_Some.
    by rewrite bool_decide_eq_false.
Qed.

(** ** Assigning a head *)

(** assignNewHead on a believer of the family that is not in the trash:
    the save of the family cannot fail, since it leaves the code and
    the flag as they are. *)
Lemma assignNewHead_spec (fid nid : ObjectId) (body : obj) (s : Store)
    (family newHead : obj) :
  findOne (families s) fid false = Some family →
  body !! "newHeadId" = Some (JId nid) →
  believers s !! nid = Some newHead →
  newHead !! "isDeleted" = Some (JBool false) →
  newHead !! "familyId" = Some (JId fid) →
  assignNewHead fid body s
  = (Json 200 None (template (newHead !! "fullName") +:+ " is now the family head.")
       (Doc nid (<["relationshipToHead" := JStr "Self"]> (<["isHead" := JBool true]> newHead))),
     mkStore
       (<[fid := <["headId" := JId nid]> family]> (families s))
       (alter (savePaths ["isHead"; "relationshipToHead"] newHead
                 (<["relationshipToHead" := JStr "Self"]> (<["isHead" := JBool true]> newHead)))
          nid
          (if truthy (family !! "headId")
           then updateById (family !! "headId") (object [("isHead", Some (JBool false))])
                  (believers s)
           else believers s))
       (nextId s)).
Proof.
  intros Hfind Hnid Hnb Hndel Hq. unfold assignNewHead. rewrite Hnid. cbn [truthy negb].
  rewrite Hfind, (findOne_found _ _ _ _ Hnb Hndel), (bool_decide_eq_true_2 _ Hq).
  apply findOne_Some in Hfind as [Hf Hfdel].
  rewrite saveFamily_unflagged by (by rewrite lookup_insert_ne).
  rewrite (alter_insert_found _ _ _ _ Hf), savePaths_loaded_eq; [done|].
  intros k Hk. rewrite lookup_insert_ne; [done|]. intros <-. apply Hk. in_names.
Qed.

(** X16: a request that assignNewHead does not answer 200 writes
    nothing (the save of the family cannot fail); a request that it
    answers 200 names a believer of the family that is not in the
    trash, and the family names it as headId afterwards. *)
Theorem assignNewHead_writes_on_200 (fid : ObjectId) (body : obj) (s : Store) :
  (statusCode (assignNewHead fid body s).1 ≠ 200%nat → (assignNewHead fid body s).2 = s)
  ∧ (statusCode (assignNewHead fid body s).1 = 200%nat →
     ∃ nid newHead,
       body !! "newHeadId" = Some (JId nid)
       ∧ findOne (believers s) nid false = Some newHead
       ∧ newHead !! "familyId" = Some (JId fid)
       ∧ is_Some (findOne (families s) fid false)
       ∧ families (assignNewHead fid body s).2 !! fid ≫= (.!! "headId") = Some (JId nid)).
Proof.
  destruct (negb (truthy (body !! "newHeadId"))) eqn:Hbody.
  { unfold assignNewHead. rewrite Hbody. done. }
  destruct (findOne (families s) fid false) as [family|] eqn:Hfind.
  2: { unfold assignNewHead. rewrite Hbody, Hfind. done. }
  destruct (body !! "newHeadId") as [[|bb|ss|dd|nid]|] eqn:Hnid.
  1-4,6: unfold assignNewHead; rewrite Hnid, ?Hfind; cbn [truthy negb]; rewrite ?Hfind;
    try done.
  1: by destruct bb.
  1: by destruct (String.eqb ss EmptyString).
  destruct (findOne (believers s) nid false) as [newHead|] eqn:Hnfind.
  2: { unfold assignNewHead. rewrite Hnid, Hfind, Hnfind. done. }
  destruct (decide (newHead !! "familyId" = Some (JId fid))) as [Hq|Hq].
  2: { unfold assignNewHead. rewrite Hnid, Hfind, Hnfind.
       rewrite (bool_decide_eq_false_2 _ Hq). done. }
  pose proof Hnfind as Hn. apply findOne_Some in Hn as [Hnb Hndel].
  rewrite (assignNewHead_spec fid nid body s family newHead Hfind Hnid Hnb Hndel Hq).
  cbn [fst snd statusCode families]. split; [done|]. intros _.
  exists nid, newHead. rewrite lookup_insert_eq. cbn [mbind option_bind].
  by rewrite lookup_insert_eq.
Qed.

(** X17: assignNewHead on a member other than the head: the family
    names the new head, the new head is isHead with the relationship
    Self and is otherwise unchanged, the former head has isHead false
    and is otherwise unchanged (its relationship included), and no
    other believer is written. *)
Theorem assignNewHead_swaps (fid h nid : ObjectId) (body : obj) (s : Store)
    (family hb newHead : obj) :
  findOne (families s) fid false = Some family →
  body !! "newHeadId" = Some (JId nid) →
  believers s !! nid = Some newHead →
  newHead !! "isDeleted" = Some (JBool false) →
  newHead !! "familyId" = Some (JId fid) →
  family !! "headId" = Some (JId h) →
  believers s !! h = Some hb →
  h ≠ nid →
  statusCode (assignNewHead fid body s).1 = 200%nat
  ∧ families (assignNewHead fid body s).2
    = <[fid := <["headId" := JId nid]> family]> (families s)
  ∧ believers (assignNewHead fid body s).2 !! nid
    = Some (<["relationshipToHead" := JStr "Self"]> (<["isHead" := JBool true]> newHead))
  ∧ believers (assignNewHead fid body s).2 !! h ≫= (.!! "isHead") = Some (JBool false)
  ∧ (∀ k, k ≠ "isHead" →
       believers (assignNewHead fid body s).2 !! h ≫= (.!! k) = hb !! k)
  ∧ ∀ j, j ≠ h → j ≠ nid →
      believers (assignNewHead fid body s).2 !! j = believers s !! j.
Proof.
  intros Hfind Hnid Hnb Hndel Hq Hh Hb Hne.
  rewrite (assignNewHead_spec fid nid body s family newHead Hfind Hnid Hnb Hndel Hq).
  cbn [fst snd statusCode families believers]. rewrite Hh. cbn [truthy].
  split; [done|]. split; [done|]. split; [|split; [|split]].
  - rewrite lookup_alter_eq, lookup_updateById_ne, Hnb by congruence.
    cbn [fmap option_fmap option_map]. f_equal. apply savePaths_loaded_eq.
    intros k Hk. rewrite !lookup_insert_ne; [done|..]; intros <-; apply Hk; in_names.
  - rewrite lookup_alter_ne, lookup_updateById_eq, Hb by done.
    cbn [fmap option_fmap option_map mbind option_bind].
    by rewrite lookup_applyUpdate, lookup_object.
  - intros k Hk. rewrite lookup_alter_ne, lookup_updateById_eq, Hb by done.
    cbn [fmap option_fmap option_map mbind option_bind].
    rewrite lookup_applyUpdate, lookup_object. cbn [assoc fst snd].
    destruct (String.eqb_spec "isHead" k); [congruence|done].
  - intros j Hj1 Hj2. by rewrite lookup_alter_ne, lookup_updateById_ne by congruence.
Qed.

(** John is made head in place of Mary: Mary is no head any more and
    keeps the relationship Self. *)
Lemma assignNewHead_swaps_witness :
  let r := assignNewHead 1 (object [("newHeadId", Some (JId 3))]) coupleStore in
  believers r.2 !! 2%nat ≫= (.!! "isHead") = Some (JBool false)
  ∧ believers r.2 !! 2%nat ≫= (.!! "relationshipToHead") = Some (JStr "Self")
  ∧ believers r.2 !! 3%nat ≫= (.!! "isHead") = Some (JBool true).
Proof.
  destruct (assignNewHead_swaps 1 2 3 (object [("newHeadId", Some (JId 3))]) coupleStore
              (sampleFamily "FAM-0001" 2) mary john
              eq_refl eq_refl eq_refl eq_refl eq_refl eq_refl eq_refl ltac:(discriminate))
    as (_ & _ & H3 & H4 & H5 & _).
  split; [exact H4|]. split; [exact (H5 "relationshipToHead" ltac:(discriminate))|].
  cbn zeta. rewrite H3. reflexivity.
Defined.

(** X18: assignNewHead on the believer that the family names as head
    already: the request is answered 200 and the family still names it,
    but the believer ends with isHead false, since the update that
    demotes the head is written and the save of the unchanged isHead
    writes nothing. *)
Theorem assignNewHead_same_head (fid nid : ObjectId) (body : obj) (s : Store)
    (family newHead : obj) :
  findOne (families s) fid false = Some family →
  body !! "newHeadId" = Some (JId nid) →
  believers s !! nid = Some newHead →
  newHead !! "isDeleted" = Some (JBool false) →
  newHead !! "familyId" = Some (JId fid) →
  family !! "headId" = Some (JId nid) →
  newHead !! "isHead" = Some (JBool true) →
  statusCode (assignNewHead fid body s).1 = 200%nat
  ∧ families (assignNewHead fid body s).2 !! fid ≫= (.!! "headId") = Some (JId nid)
  ∧ believers (assignNewHead fid body s).2 !! nid ≫= (.!! "isHead") = Some (JBool false)
  ∧ ∀ j, j ≠ nid → believers (assignNewHead fid body s).2 !! j = believers s !! j.
Proof.
  intros Hfind Hnid Hnb Hndel Hq Hh Hhead.
  rewrite (assignNewHead_spec fid nid body s family newHead Hfind Hnid Hnb Hndel Hq).
  cbn [fst snd statusCode families believers]. rewrite Hh. cbn [truthy].
  split; [done|]. split; [|split].
  - rewrite lookup_insert_eq. cbn [mbind option_bind]. apply lookup_insert_eq.
  - rewrite lookup_alter_eq, lookup_updateById_eq, Hnb.
    cbn [fmap option_fmap option_map mbind option_bind].
    rewrite lookup_savePaths, decide_True by in_names.
    rewrite lookup_insert_ne, lookup_insert_eq by done.
    rewrite decide_True by done. by rewrite lookup_applyUpdate, lookup_object.
  - intros j Hj. by rewrite lookup_alter_ne, lookup_updateById_ne by congruence.
Qed.

(** Mary, the head, is assigned as head: she ends with isHead false. *)
Lemma assignNewHead_same_head_witness :
  let r := assignNewHead 1 (object [("newHeadId", Some (JId 2))]) coupleStore in
  statusCode r.1 = 200%nat
  ∧ families r.2 !! 1%nat ≫= (.!! "headId") = Some (JId 2)
  ∧ believers r.2 !! 2%nat ≫= (.!! "isHead") = Some (JBool false).
Proof.
  destruct (assignNewHead_same_head 1 2 (object [("newHeadId", Some (JId 2))]) coupleStore
              (sampleFamily "FAM-0001" 2) mary
              eq_refl eq_refl eq_refl eq_refl eq_refl eq_refl eq_refl)
    as (H1 & H2 & H3 & _).
  split; [exact H1|]. split; [exact H2|exact H3].
Defined.

(** ** Families in the trash hold no code *)




(** ** Creating and updating a family *)

(** X26: createFamily answers no request with 201 and never writes:
    every request is refused with status 400, for a blank address or
    village, or ends with status 500, so that no family can be created
    through this controller. *)
Theorem createFamily_never_creates (body : obj) (s : Store) :
  (createFamily body s).2 = s
  ∧ (statusCode (createFamily body s).1 = 400%nat
     ∨ statusCode (createFamily body s).1 = 500%nat)
  ∧ (blank (body !! "address") = Some false →
     blank (body !! "village") = Some false →
     createFamily body s = (Thrown "ReferenceError" "district is not defined", s)).
Proof.
  unfold createFamily.
  destruct (blank (body !! "address")) as [[|]|].
  - split; [done|]. split; [by left|done].
  - destruct (blank (body !! "village")) as [[|]|].
    + split; [done|]. split; [by left|done].
    + split; [done|]. split; [by right|done].
    + split; [done|]. split; [by right|done].
  - split; [done|]. split; [by right|done].
Qed.

(** X20: updateFamily answers every request with status 500 and never
    writes: the test on the unbound name [district] throws before the
    update is run. *)
Theorem updateFamily_never_updates (id : ObjectId) (body : obj) (s : Store) :
  statusCode (updateFamily id body s).1 = 500%nat ∧ (updateFamily id body s).2 = s.
Proof.
  unfold updateFamily.
  destruct (body !! "address") as [[]|]; destruct (body !! "village") as [[]|]; done.
Qed.

(** ** Family codes *)

Lemma uint_of_string_zeros (z : nat) (s : string) :
  NilEmpty.uint_of_string (string_of_list_ascii (replicate z "0"%char) +:+ s)
  = Nat.iter z (option_map Decimal.D0) (NilEmpty.uint_of_string s).
Proof.
  induction z as [|z IH]; [done|].
  rewrite Nat.iter_succ, <- IH.
  cbn [replicate string_of_list_ascii].
  change (String ?c ?x +:+ ?t) with (String c (x +:+ t)).
  cbn [NilEmpty.uint_of_string]. by destruct (NilEmpty.uint_of_string _).
Qed.

Lemma of_uint_zeros (z : nat) (d : Decimal.uint) :
  Nat.of_uint <$> Nat.iter z (option_map Decimal.D0) (Some d) = Some (Nat.of_uint d).
Proof.
  induction z as [|z IH]; [done|]. rewrite Nat.iter_succ.
  destruct (Nat.iter z (option_map Decimal.D0) (Some d)) as [e|]; [|done].
  cbn in *. injection IH as <-. reflexivity.
Qed.

Lemma of_uint_string (d : Decimal.uint) :
  Nat.of_uint <$> NilEmpty.uint_of_string (NilZero.string_of_uint d) = Some (Nat.of_uint d).
Proof.
  destruct d; try (unfold NilZero.string_of_uint; by rewrite NilEmpty.usu). reflexivity.
Qed.

(** The number that a family code carries can be read back. *)
Lemma famCode_number (n : nat) :
  ∃ c, famCode n = String "F" (String "A" (String "M" (String "-" c)))
       ∧ Nat.of_uint <$> NilEmpty.uint_of_string c = Some (S n).
Proof.
  eexists. split; [reflexivity|]. unfold padStart0.
  rewrite uint_of_string_zeros.
  destruct (NilEmpty.uint_of_string (NilZero.string_of_uint (Nat.to_uint (n + 1))))
    as [d|] eqn:Hd.
  - rewrite of_uint_zeros.
    pose proof (of_uint_string (Nat.to_uint (n + 1))) as H. rewrite Hd in H.
    cbn [fmap option_fmap option_map] in H. rewrite H.
    rewrite DecimalNat.Unsigned.of_to. f_equal. lia.
  - pose proof (of_uint_string (Nat.to_uint (n + 1))) as H. by rewrite Hd in H.
Qed.

(** X21: the codes that the template FAM-nnnn gives to two different
    counts are different, beyond four digits as well. *)
Theorem famCode_distinct (n m : nat) : n ≠ m → famCode n ≠ famCode m.
Proof.
  destruct (famCode_number n) as (c & -> & Hc), (famCode_number m) as (c' & -> & Hc').
  intros Hne H. injection H as ->. rewrite Hc in Hc'. apply Hne. by injection Hc'.
Qed.

(** FAM-0001 and FAM-0002; FAM-0010 and FAM-0100. *)
Lemma famCode_distinct_witness :
  famCode 0 ≠ famCode 1 ∧ famCode 9 ≠ famCode 99.
Proof.
  split; apply famCode_distinct; discriminate.
Defined.

(** ** Pagination *)

Lemma concat_pages {A : Type} (n k : nat) (l : list A) :
  concat (map (λ i, take n (drop (i * n) l)) (seq 0 k)) = take (k * n) l.
Proof.
  induction k as [|k IH]; [done|].
  rewrite seq_S, map_app, concat_app, IH. cbn [map concat plus].
  rewrite app_nil_r, take_take_drop. f_equal. lia.
Qed.

Lemma ceilDiv_spec (total limitNum : Z) :
  0 ≤ total → 0 < limitNum →
  ∃ T, ceilDiv total limitNum = Some T ∧ 0 ≤ T ∧ total ≤ T * limitNum.
Proof.
  intros Ht Hl. unfold ceilDiv. rewrite (proj2 (Z.eqb_neq limitNum 0)) by lia.
  eexists. split; [done|].
  pose proof (Z.mul_div_le (- total) limitNum Hl).
  assert ((- total) / limitNum ≤ 0) by (apply Z.div_le_upper_bound; lia).
  split; nia.
Qed.

(** X22: for integer page and limit, the limit that getAllBelievers
    uses is between 1 and 100 and bounds the length of the page; the
    pages from 1 to totalPages, put one after the other, are exactly
    the matching believers, and every later page is empty. *)
Theorem getAllBelievers_pages {A : Type} (page limit : Z) (matching : list A) :
  1 ≤ pg_limit (getAllBelievers page limit matching).2 ≤ 100
  ∧ (length (getAllBelievers page limit matching).1
     ≤ Z.to_nat (pg_limit (getAllBelievers page limit matching).2))%nat
  ∧ ∃ T,
      pg_totalPages (getAllBelievers page limit matching).2 = Some T
      ∧ 0 ≤ T
      ∧ concat (map (λ p, (getAllBelievers (Z.of_nat p) limit matching).1)
                  (seq 1 (Z.to_nat T))) = matching
      ∧ ∀ p, T < p → (getAllBelievers p limit matching).1 = [].
Proof.
  unfold getAllBelievers. cbn [fst snd pg_limit pg_totalPages].
  set (limitNum := Z.min 100 (Z.max 1 limit)).
  assert (Hl : 1 ≤ limitNum ≤ 100) by (unfold limitNum; lia).
  split; [done|]. split.
  { rewrite length_take. lia. }
  destruct (ceilDiv_spec (Z.of_nat (length matching)) limitNum) as (T & HT & HT0 & Hlen);
    [lia..|].
  exists T. split; [done|]. split; [done|]. split.
  - rewrite <- seq_shift, map_map.
    rewrite (map_ext _ (λ i, take (Z.to_nat limitNum)
                               (drop (i * Z.to_nat limitNum) matching))).
    + rewrite concat_pages. apply take_ge. nia.
    + intros i. f_equal. f_equal. nia.
  - intros p Hp. rewrite drop_ge; [by rewrite take_nil|]. nia.
Qed.

(** X23: for integer page and limit, getAllFamilies answers as
    getAllBelievers does when the limit is 1 or more; with the limit 0
    the page is empty and totalPages is null; with a negative limit -k,
    which has no lower bound here, the first page holds all the
    families but the last k, however many they are. *)
Theorem getAllFamilies_pages {A : Type} (page limit : Z) (familiesWithCounts : list A) :
  (1 ≤ limit →
   getAllFamilies page limit familiesWithCounts
   = getAllBelievers page limit familiesWithCounts)
  ∧ (limit = 0 →
     (getAllFamilies page limit familiesWithCounts).1 = []
     ∧ pg_totalPages (getAllFamilies page limit familiesWithCounts).2 = None)
  ∧ (limit < 0 → page ≤ 1 →
     (getAllFamilies page limit familiesWithCounts).1
     = take (length familiesWithCounts - Z.to_nat (- limit)) familiesWithCounts).
Proof.
  unfold getAllFamilies, getAllBelievers, slice, relativeIndex.
  cbn [fst snd pg_totalPages]. set (l := familiesWithCounts). split; [|split].
  - intros Hl. replace (Z.max 1 limit) with limit by lia.
    set (n := Z.min 100 limit). set (P := Z.max 1 page).
    assert (1 ≤ n) by (unfold n; lia). assert (1 ≤ P) by (unfold P; lia).
    f_equal.
    rewrite (proj2 (Z.ltb_ge _ _)) by nia. rewrite (proj2 (Z.ltb_ge _ _)) by nia.
    destruct (Z.le_gt_cases (Z.of_nat (length l)) ((P - 1) * n)) as [Hbig|Hsmall].
    + rewrite !drop_ge by lia. by rewrite !take_nil.
    + replace (Z.min ((P - 1) * n) (Z.of_nat (length l))) with ((P - 1) * n) by lia.
      destruct (Z.le_gt_cases (P * n) (Z.of_nat (length l))) as [Hfull|Hpart].
      * f_equal. lia.
      * rewrite !take_ge; [done|rewrite length_drop; lia|rewrite length_drop; lia].
  - intros ->. replace (Z.min 100 0) with 0 by lia. split; [|done].
    rewrite !Z.mul_0_r. cbn [Z.ltb Z.compare]. 
    replace (Z.min 0 (Z.of_nat (length l))) with 0 by lia. done.
  - intros Hl Hp. replace (Z.max 1 page) with 1 by lia.
    replace (Z.min 100 limit) with limit by lia.
    replace ((1 - 1) * limit) with 0 by lia. rewrite Z.mul_1_l.
    cbn [Z.ltb Z.compare]. rewrite (proj2 (Z.ltb_lt limit 0)) by lia.
    replace (Z.min 0 (Z.of_nat (length l))) with 0 by lia.
    cbn [Z.to_nat drop]. f_equal. lia.
Qed.

(** ** Analytics and forms *)

(** X25: for every integer age and marital status, the member type
    that the form computes (autoMemberType, with the cut [age < 13]) is
    the one that the helper of the backend gives (suggestMemberType,
    with the cut [age <= 12]); without a date of birth the form gives
    null. *)
Theorem autoMemberType_suggestMemberType (age : Z) (maritalStatus : string) :
  autoMemberType (Age age) (Some (JStr maritalStatus))
  = Some (suggestMemberType age maritalStatus)
  ∧ autoMemberType AgeNull (Some (JStr maritalStatus)) = None.
Proof.
  split; [|done]. unfold autoMemberType, suggestMemberType. cbn [ageLt ageLe isStr].
  destruct (Z.ltb_spec age 13), (Z.leb_spec age 12); try lia; reflexivity.
Qed.

Lemma fold_countAge (diffYears : Date → Z) (l : list obj) (d : ageDistribution) :
  let r := fold_left (countAge diffYears) l d in
  (children r + youth r + adults r + seniors r)%nat
  = (children d + youth d + adults d + seniors d
     + length (List.filter (λ b, truthy (b !! "dob")) l))%nat.
Proof.
  revert d. induction l as [|b l IH]; intros d; cbn [fold_left List.filter].
  { cbn. lia. }
  cbn zeta in IH. rewrite IH. unfold countAge, calcAge.
  destruct (truthy (b !! "dob")); cbn [negb length].
  - destruct (calcAgeIST diffYears (b !! "dob")) as [a| |] eqn:Ha.
    + destruct (ageLe (Age a) 12); [cbn; lia|].
      destruct (ageLe (Age a) 29); [cbn; lia|].
      destruct (ageLe (Age a) 59); cbn; lia.
    + cbn. lia.
    + unfold calcAgeIST in Ha. by destruct (b !! "dob") as [[]|].
  - lia.
Qed.

Lemma fold_countGender (l : list obj) (d : genderDistribution) :
  let r := fold_left countGender l d in
  (male r + female r + other r)%nat = (male d + female d + other d + length l)%nat.
Proof.
  revert d. induction l as [|b l IH]; intros d; cbn [fold_left length].
  { cbn. lia. }
  cbn zeta in IH. rewrite IH. unfold countGender.
  destruct (isStr (b !! "gender") "Male"); [cbn; lia|].
  destruct (isStr (b !! "gender") "Female"); cbn; lia.
Qed.

Lemma filter_length_le_filter {A : Type} (p q : A → bool) (l : list A) :
  (∀ x, p x = true → q x = true) →
  (length (List.filter p l) ≤ length (List.filter q l))%nat.
Proof.
  intros Hpq. induction l as [|x l IH]; cbn [List.filter]; [done|].
  destruct (p x) eqn:Hp.
  - rewrite (Hpq x Hp). cbn [length]. lia.
  - destruct (q x); cbn [length]; lia.
Qed.

Lemma filter_length_negb {A : Type} (p : A → bool) (l : list A) :
  (length (List.filter p l) + length (List.filter (λ x, negb (p x)) l))%nat = length l.
Proof.
  induction l as [|x l IH]; cbn [List.filter]; [done|].
  destruct (p x); cbn [negb length]; lia.
Qed.

(** X24: in getAnalytics the four age groups add up to the number of
    believers that have a date of birth, the three genders and the two
    baptism counts add up to the number of believers, and the believers
    eligible for baptism are among those counted as not baptized. *)
Theorem getAnalytics_totals (diffYears : Date → Z) (believers : list obj) :
  let ages := (getAnalytics diffYears believers).1.1 in
  let genders := (getAnalytics diffYears believers).1.2 in
  let baptism := (getAnalytics diffYears believers).2 in
  (children ages + youth ages + adults ages + seniors ages)%nat
  = length (List.filter (λ b, truthy (b !! "dob")) believers)
  ∧ (male genders + female genders + other genders)%nat = length believers
  ∧ (totalBaptized baptism + notBaptized baptism)%nat = length believers
  ∧ (eligibleNotBaptized baptism ≤ notBaptized baptism)%nat.
Proof.
  cbn zeta. unfold getAnalytics. cbn [fst snd totalBaptized notBaptized eligibleNotBaptized].
  split; [|split; [|split]].
  - pose proof (fold_countAge diffYears believers (mkAgeDistribution 0 0 0 0)) as H.
    cbn zeta in H. rewrite H. cbn. lia.
  - pose proof (fold_countGender believers (mkGenderDistribution 0 0 0)) as H.
    cbn zeta in H. rewrite H. cbn. lia.
  - match goal with
    | |- context [length (List.filter ?p believers)] =>
        pose proof (filter_length_negb p believers) as H
    end. cbv beta in H. lia.
  - match goal with
    | |- (length (List.filter ?p believers)
          ≤ length believers - length (List.filter ?q believers))%nat =>
        pose proof (filter_length_negb q believers) as H;
        pose proof (filter_length_le_filter p (λ x, negb (q x)) believers) as Hle
    end.
    cbv beta in H, Hle. lapply Hle; [lia|].
    intros x [_ Hno]%andb_prop. destruct (x !! "baptized") as [[| |t| |]|]; try done.
    cbn [isStr] in *. apply String.eqb_eq in Hno. by subst t.
Qed.
